(** * MEV_Monitoring: the two CSV analysis scripts

    A shallow embedding of [analyze_csv.py] (module [V1], the strict
    script) and [analyze_csv_new.py] (module [V2], the defensive script),
    followed by the properties of their read pass and of their report.

    Python values are modelled as follows.
    - [float] is IEEE 754 binary64, so Rocq's primitive floats are used
      as they are, NaN and the infinities included.
    - [int] is [Z].
    - [str] is [string]; a character is a code point below 256.
    - a row produced by [csv.reader] is a [list string].
    - [dict] (insertion ordered) is an association list.
    - an exception is a value of [exn]; statements run in a state and
      exception monad whose state survives a raise, as Python's does. *)

From Stdlib Require Import ZArith List String Ascii Bool Lia Permutation Sorted.
From Stdlib Require Import Floats.
Import ListNotations.

Set Warnings "-inexact-float".

Local Open Scope Z_scope.

(** ** Order of binary64 values

    The comparisons of [PrimFloat] are specified through [SpecFloat].
    Every value that is not NaN is sent to a key in [Z * Z * Z] ordered
    lexicographically, which turns each order fact into linear
    arithmetic. *)

Module FloatOrder.

Definition key : Type := Z * Z * Z.

Definition sf_key (x : spec_float) : key :=
  match x with
  | S754_zero _ => (0, 0, 0)
  | S754_infinity true => (-2, 0, 0)
  | S754_infinity false => (2, 0, 0)
  | S754_nan => (0, 0, 0)
  | S754_finite true m e => (-1, - e, - Z.pos m)
  | S754_finite false m e => (1, e, Z.pos m)
  end.

Definition key_lt (a b : key) : Prop :=
  let '(a1, a2, a3) := a in
  let '(b1, b2, b3) := b in
  a1 < b1 \/ (a1 = b1 /\ (a2 < b2 \/ (a2 = b2 /\ a3 < b3))).

Definition key_eq (a b : key) : Prop :=
  let '(a1, a2, a3) := a in
  let '(b1, b2, b3) := b in
  a1 = b1 /\ a2 = b2 /\ a3 = b3.

Definition sf_nan (x : spec_float) : bool :=
  match x with S754_nan => true | _ => false end.

Definition fkey (x : float) : key := sf_key (Prim2SF x).

Lemma sf_compare_key (x y : spec_float) :
  sf_nan x = false -> sf_nan y = false ->
  exists c, SFcompare x y = Some c /\
    (c = Lt <-> key_lt (sf_key x) (sf_key y)) /\
    (c = Eq <-> key_eq (sf_key x) (sf_key y)) /\
    (c = Gt <-> key_lt (sf_key y) (sf_key x)).
Proof.
  intros Hx Hy.
  destruct x as [sx|sx| |sx mx ex]; try discriminate;
  destruct y as [sy|sy| |sy my ey]; try discriminate;
  try destruct sx; try destruct sy; cbn [SFcompare sf_key key_lt key_eq];
  eexists; (split; [reflexivity|]);
  try (repeat split; intros; first [discriminate | lia | reflexivity]).
  - destruct (Z.compare_spec ex ey) as [E|E|E];
    [ change (Pos.compare_cont Eq mx my) with (Pos.compare mx my);
      destruct (Pos.compare_spec mx my) as [F|F|F] | | ];
    cbn [CompOpp]; repeat split; intros; first [discriminate | lia | reflexivity].
  - destruct (Z.compare_spec ex ey) as [E|E|E];
    [ change (Pos.compare_cont Eq mx my) with (Pos.compare mx my);
      destruct (Pos.compare_spec mx my) as [F|F|F] | | ];
    repeat split; intros; first [discriminate | lia | reflexivity].
Qed.

Lemma sf_compare_nan (x y : spec_float) :
  sf_nan x = true \/ sf_nan y = true -> SFcompare x y = None.
Proof.
  destruct x as [| | |[] ? ?], y as [| | |[] ? ?]; cbn; intros [H|H];
    first [discriminate | reflexivity].
Qed.

Lemma is_nan_sf (x : float) : is_nan x = sf_nan (Prim2SF x).
Proof.
  unfold is_nan. rewrite eqb_spec. unfold SFeqb.
  destruct (sf_nan (Prim2SF x)) eqn:E.
  - rewrite sf_compare_nan by (left; exact E). reflexivity.
  - destruct (sf_compare_key _ _ E E) as (c & -> & _ & Heq & _).
    assert (c = Eq) as ->; [|reflexivity].
    apply Heq. unfold key_eq. destruct (sf_key (Prim2SF x)) as [[a b] d]. lia.
Qed.

(** The three comparisons, on values that are not NaN, read on keys. *)

Lemma ltb_key (x y : float) :
  is_nan x = false -> is_nan y = false ->
  (ltb x y = true <-> key_lt (fkey x) (fkey y)).
Proof.
  rewrite !is_nan_sf, ltb_spec. intros Hx Hy. unfold SFltb, fkey.
  destruct (sf_compare_key _ _ Hx Hy) as (c & -> & Hlt & _ & _).
  rewrite <- Hlt. destruct c; split; congruence.
Qed.

Lemma eqb_key (x y : float) :
  is_nan x = false -> is_nan y = false ->
  (eqb x y = true <-> key_eq (fkey x) (fkey y)).
Proof.
  rewrite !is_nan_sf, eqb_spec. intros Hx Hy. unfold SFeqb, fkey.
  destruct (sf_compare_key _ _ Hx Hy) as (c & -> & _ & Heq & _).
  rewrite <- Heq. destruct c; split; congruence.
Qed.

Lemma leb_key (x y : float) :
  is_nan x = false -> is_nan y = false ->
  (leb x y = true <-> ~ key_lt (fkey y) (fkey x)).
Proof.
  rewrite !is_nan_sf, leb_spec. intros Hx Hy. unfold SFleb, fkey.
  destruct (sf_compare_key _ _ Hx Hy) as (c & E & Hlt & Heq & Hgt).
  rewrite E.
  assert (key_lt (sf_key (Prim2SF y)) (sf_key (Prim2SF x)) -> c = Gt)
    by apply Hgt.
  assert (c = Gt -> key_lt (sf_key (Prim2SF y)) (sf_key (Prim2SF x)))
    by apply Hgt.
  destruct c; split; intros; try congruence; try discriminate.
  - intros K. apply H in K. discriminate.
  - intros K. apply H in K. discriminate.
  - exfalso. apply H1. apply H0. reflexivity.
Qed.

(** A comparison with NaN on either side is false. *)

Lemma ltb_true_nan (x y : float) :
  ltb x y = true -> is_nan x = false /\ is_nan y = false.
Proof.
  rewrite !is_nan_sf, ltb_spec. unfold SFltb.
  destruct (sf_nan (Prim2SF x)) eqn:Ex;
    [rewrite sf_compare_nan by (left; exact Ex); discriminate|].
  destruct (sf_nan (Prim2SF y)) eqn:Ey;
    [rewrite sf_compare_nan by (right; exact Ey); discriminate|].
  auto.
Qed.

Lemma leb_true_nan (x y : float) :
  leb x y = true -> is_nan x = false /\ is_nan y = false.
Proof.
  rewrite !is_nan_sf, leb_spec. unfold SFleb.
  destruct (sf_nan (Prim2SF x)) eqn:Ex;
    [rewrite sf_compare_nan by (left; exact Ex); discriminate|].
  destruct (sf_nan (Prim2SF y)) eqn:Ey;
    [rewrite sf_compare_nan by (right; exact Ey); discriminate|].
  auto.
Qed.

Lemma eqb_true_nan (x y : float) :
  eqb x y = true -> is_nan x = false /\ is_nan y = false.
Proof.
  rewrite !is_nan_sf, eqb_spec. unfold SFeqb.
  destruct (sf_nan (Prim2SF x)) eqn:Ex;
    [rewrite sf_compare_nan by (left; exact Ex); discriminate|].
  destruct (sf_nan (Prim2SF y)) eqn:Ey;
    [rewrite sf_compare_nan by (right; exact Ey); discriminate|].
  auto.
Qed.

(** Order facts used by the proofs about the scripts. *)

Ltac key_arith :=
  unfold key_lt, key_eq in *;
  repeat match goal with
  | |- context [fkey ?x] =>
      let a := fresh "a" in let b := fresh "b" in let c := fresh "c" in
      destruct (fkey x) as [[a b] c]
  | H : context [fkey ?x] |- _ =>
      let a := fresh "a" in let b := fresh "b" in let c := fresh "c" in
      destruct (fkey x) as [[a b] c]
  end; lia.

Lemma ltb_irrefl (x : float) : ltb x x = false.
Proof.
  destruct (ltb x x) eqn:E; [|reflexivity].
  destruct (ltb_true_nan _ _ E) as [Hx _].
  apply (ltb_key _ _ Hx Hx) in E. key_arith.
Qed.

Lemma ltb_trans (x y z : float) :
  ltb x y = true -> ltb y z = true -> ltb x z = true.
Proof.
  intros H1 H2.
  destruct (ltb_true_nan _ _ H1) as [Hx Hy].
  destruct (ltb_true_nan _ _ H2) as [_ Hz].
  apply (ltb_key _ _ Hx Hy) in H1. apply (ltb_key _ _ Hy Hz) in H2.
  apply (ltb_key _ _ Hx Hz). key_arith.
Qed.

Lemma leb_ltb_trans (x y z : float) :
  leb x y = true -> ltb y z = true -> ltb x z = true.
Proof.
  intros H1 H2.
  destruct (leb_true_nan _ _ H1) as [Hx Hy].
  destruct (ltb_true_nan _ _ H2) as [_ Hz].
  apply (leb_key _ _ Hx Hy) in H1. apply (ltb_key _ _ Hy Hz) in H2.
  apply (ltb_key _ _ Hx Hz). key_arith.
Qed.

Lemma ltb_leb_trans (x y z : float) :
  ltb x y = true -> leb y z = true -> ltb x z = true.
Proof.
  intros H1 H2.
  destruct (ltb_true_nan _ _ H1) as [Hx Hy].
  destruct (leb_true_nan _ _ H2) as [_ Hz].
  apply (ltb_key _ _ Hx Hy) in H1. apply (leb_key _ _ Hy Hz) in H2.
  apply (ltb_key _ _ Hx Hz). key_arith.
Qed.

Lemma leb_trans (x y z : float) :
  leb x y = true -> leb y z = true -> leb x z = true.
Proof.
  intros H1 H2.
  destruct (leb_true_nan _ _ H1) as [Hx Hy].
  destruct (leb_true_nan _ _ H2) as [_ Hz].
  apply (leb_key _ _ Hx Hy) in H1. apply (leb_key _ _ Hy Hz) in H2.
  apply (leb_key _ _ Hx Hz). key_arith.
Qed.

Lemma leb_refl (x : float) : is_nan x = false -> leb x x = true.
Proof. intros Hx. apply (leb_key _ _ Hx Hx). key_arith. Qed.

Lemma ltb_leb (x y : float) : ltb x y = true -> leb x y = true.
Proof.
  intros H. destruct (ltb_true_nan _ _ H) as [Hx Hy].
  apply (ltb_key _ _ Hx Hy) in H. apply (leb_key _ _ Hx Hy). key_arith.
Qed.

Lemma leb_not_ltb (x y : float) : leb x y = true -> ltb y x = false.
Proof.
  intros H. destruct (leb_true_nan _ _ H) as [Hx Hy].
  apply (leb_key _ _ Hx Hy) in H.
  destruct (ltb y x) eqn:E; [|reflexivity].
  apply (ltb_key _ _ Hy Hx) in E. contradiction.
Qed.

Lemma ltb_not_leb (x y : float) : ltb x y = true -> leb y x = false.
Proof.
  intros H. destruct (leb y x) eqn:E; [|reflexivity].
  apply leb_not_ltb in E. congruence.
Qed.

Lemma not_ltb_leb (x y : float) :
  is_nan x = false -> is_nan y = false -> ltb y x = false -> leb x y = true.
Proof.
  intros Hx Hy H. apply (leb_key _ _ Hx Hy). intros K.
  apply (ltb_key _ _ Hy Hx) in K. congruence.
Qed.

Lemma eqb_not_ltb (x y : float) :
  eqb x y = true -> ltb x y = false /\ ltb y x = false.
Proof.
  intros H. destruct (eqb_true_nan _ _ H) as [Hx Hy].
  apply (eqb_key _ _ Hx Hy) in H. split.
  - destruct (ltb x y) eqn:E; [|reflexivity].
    apply (ltb_key _ _ Hx Hy) in E. key_arith.
  - destruct (ltb y x) eqn:E; [|reflexivity].
    apply (ltb_key _ _ Hy Hx) in E. key_arith.
Qed.

Lemma not_ltb_eqb (x y : float) :
  is_nan x = false -> is_nan y = false ->
  ltb x y = false -> ltb y x = false -> eqb x y = true.
Proof.
  intros Hx Hy H1 H2. apply (eqb_key _ _ Hx Hy).
  assert (~ key_lt (fkey x) (fkey y))
    by (intros K; apply (ltb_key _ _ Hx Hy) in K; congruence).
  assert (~ key_lt (fkey y) (fkey x))
    by (intros K; apply (ltb_key _ _ Hy Hx) in K; congruence).
  key_arith.
Qed.

Lemma eqb_sym (x y : float) : eqb x y = true -> eqb y x = true.
Proof.
  intros H. destruct (eqb_true_nan _ _ H) as [Hx Hy].
  apply (eqb_key _ _ Hx Hy) in H. apply (eqb_key _ _ Hy Hx). key_arith.
Qed.

Lemma eqb_trans (x y z : float) :
  eqb x y = true -> eqb y z = true -> eqb x z = true.
Proof.
  intros H1 H2.
  destruct (eqb_true_nan _ _ H1) as [Hx Hy].
  destruct (eqb_true_nan _ _ H2) as [_ Hz].
  apply (eqb_key _ _ Hx Hy) in H1. apply (eqb_key _ _ Hy Hz) in H2.
  apply (eqb_key _ _ Hx Hz). key_arith.
Qed.

Lemma eqb_ltb_l (x y z : float) :
  eqb x y = true -> ltb x z = ltb y z.
Proof.
  intros H. destruct (eqb_true_nan _ _ H) as [Hx Hy].
  apply (eqb_key _ _ Hx Hy) in H.
  destruct (is_nan z) eqn:Hz.
  - destruct (ltb x z) eqn:E1; [apply ltb_true_nan in E1; destruct E1; congruence|].
    destruct (ltb y z) eqn:E2; [apply ltb_true_nan in E2; destruct E2; congruence|].
    reflexivity.
  - destruct (ltb x z) eqn:E1, (ltb y z) eqn:E2; try reflexivity.
    + apply (ltb_key _ _ Hx Hz) in E1.
      assert (key_lt (fkey y) (fkey z)) as K by key_arith.
      apply (ltb_key _ _ Hy Hz) in K. congruence.
    + apply (ltb_key _ _ Hy Hz) in E2.
      assert (key_lt (fkey x) (fkey z)) as K by key_arith.
      apply (ltb_key _ _ Hx Hz) in K. congruence.
Qed.

Lemma eqb_ltb_r (x y z : float) :
  eqb x y = true -> ltb z x = ltb z y.
Proof.
  intros H. destruct (eqb_true_nan _ _ H) as [Hx Hy].
  apply (eqb_key _ _ Hx Hy) in H.
  destruct (is_nan z) eqn:Hz.
  - destruct (ltb z x) eqn:E1; [apply ltb_true_nan in E1; destruct E1; congruence|].
    destruct (ltb z y) eqn:E2; [apply ltb_true_nan in E2; destruct E2; congruence|].
    reflexivity.
  - destruct (ltb z x) eqn:E1, (ltb z y) eqn:E2; try reflexivity.
    + apply (ltb_key _ _ Hz Hx) in E1.
      assert (key_lt (fkey z) (fkey y)) as K by key_arith.
      apply (ltb_key _ _ Hz Hy) in K. congruence.
    + apply (ltb_key _ _ Hz Hy) in E2.
      assert (key_lt (fkey z) (fkey x)) as K by key_arith.
      apply (ltb_key _ _ Hz Hx) in K. congruence.
Qed.

End FloatOrder.

(** ** Python values, exceptions and statements *)

Module Py.

Inductive exn : Set :=
| ValueError
| IndexError
| ZeroDivisionError
| StopIteration
| TypeError
| OverflowError.

Definition exn_eqb (a b : exn) : bool :=
  match a, b with
  | ValueError, ValueError | IndexError, IndexError
  | ZeroDivisionError, ZeroDivisionError | StopIteration, StopIteration
  | TypeError, TypeError | OverflowError, OverflowError => true
  | _, _ => false
  end.

(** Expressions that may raise: the result is an exception or a value. *)
Definition E (A : Type) : Type := exn + A.

(** Statements over a store [S]: the store is kept when a statement
    raises, so whatever was assigned before the raise stays assigned. *)
Definition M (S A : Type) : Type := S -> (exn + A) * S.

Class Monad (m : Type -> Type) : Type := {
  ret : forall {A}, A -> m A;
  bind : forall {A B}, m A -> (A -> m B) -> m B;
  raise : forall {A}, exn -> m A
}.

#[global] Instance Monad_E : Monad E := {
  ret A a := inr a;
  bind A B x k := match x with inl e => inl e | inr a => k a end;
  raise A e := inl e
}.

#[global] Instance Monad_M (S : Type) : Monad (M S) := {
  ret A a := fun s => (inr a, s);
  bind A B x k := fun s =>
    match x s with
    | (inl e, s') => (inl e, s')
    | (inr a, s') => k a s'
    end;
  raise A e := fun s => (inl e, s)
}.

Declare Scope py_scope.
Delimit Scope py_scope with py.
Notation "x <- c1 ;; c2" := (bind c1 (fun x => c2))
  (at level 61, c1 at next level, right associativity) : py_scope.
Notation "c1 ;; c2" := (bind c1 (fun _ => c2))
  (at level 61, right associativity) : py_scope.
Local Open Scope py_scope.

(** An expression evaluated inside a statement. *)
Definition lift {S A} (x : E A) : M S A :=
  fun s => (x, s).

Definition get {S} : M S S := fun s => (inr s, s).
Definition modify {S} (f : S -> S) : M S unit := fun s => (inr tt, f s).

(** [try: body except (e1, ..., en): handler]. *)
Definition try_except {S A} (body : M S A) (caught : list exn)
    (handler : M S A) : M S A :=
  fun s =>
    match body s with
    | (inl e, s') =>
        if existsb (exn_eqb e) caught then handler s' else (inl e, s')
    | r => r
    end.

(** [try: body except: handler], which catches every exception. *)
Definition try_except_all {S A} (body : M S A) (handler : M S A) : M S A :=
  fun s =>
    match body s with
    | (inl _, s') => handler s'
    | r => r
    end.

(** [for x in xs: body x]. *)
Fixpoint for_each {S A} (xs : list A) (body : A -> M S unit) : M S unit :=
  match xs with
  | [] => ret tt
  | x :: xs' => body x ;; for_each xs' body
  end.

Definition when {S} (c : bool) (body : M S unit) : M S unit :=
  if c then body else ret tt.

Definition of_option {A} (e : exn) (o : option A) : E A :=
  match o with Some a => inr a | None => inl e end.

(** *** Sequences *)

Definition row : Type := list string.

Definition len {A} (l : list A) : Z := Z.of_nat (List.length l).

(** [l[i]] for a constant index [i >= 0]. *)
Definition getitem {A} (l : list A) (i : nat) : E A :=
  of_option IndexError (nth_error l i).

(** [l[-1]]. *)
Definition getlast {A} (l : list A) : E A :=
  of_option IndexError (nth_error l (List.length l - 1)).

(** *** Strings *)

Definition truthy (s : string) : bool :=
  match s with EmptyString => false | String _ _ => true end.

(** [str.isspace] on the code points below 256. *)
Definition isspace (c : ascii) : bool :=
  let n := N_of_ascii c in
  ((9 <=? n) && (n <=? 13) || (28 <=? n) && (n <=? 32)
   || (n =? 133) || (n =? 160))%N.

Fixpoint lstrip (s : string) : string :=
  match s with
  | EmptyString => EmptyString
  | String c s' => if isspace c then lstrip s' else s
  end.

Fixpoint rstrip (s : string) : string :=
  match s with
  | EmptyString => EmptyString
  | String c s' =>
      match rstrip s' with
      | EmptyString => if isspace c then EmptyString else String c EmptyString
      | r => String c r
      end
  end.

(** [s.strip()]. *)
Definition strip (s : string) : string := rstrip (lstrip s).

(** [s.replace(c, r)] for a pattern of one character. *)
Fixpoint replace (c : ascii) (r : string) (s : string) : string :=
  match s with
  | EmptyString => EmptyString
  | String a s' =>
      if Ascii.eqb a c then (r ++ replace c r s')%string
      else String a (replace c r s')
  end.

(** [c in s]. *)
Fixpoint contains (c : ascii) (s : string) : bool :=
  match s with
  | EmptyString => false
  | String a s' => Ascii.eqb a c || contains c s'
  end.

(** [s.split(c)] for a separator of one character. *)
Fixpoint split (c : ascii) (s : string) : list string :=
  match s with
  | EmptyString => [EmptyString]
  | String a s' =>
      if Ascii.eqb a c then EmptyString :: split c s'
      else match split c s' with
           | [] => [String a EmptyString]
           | w :: ws => String a w :: ws
           end
  end.

(** [s[:n]]. *)
Definition prefix (n : nat) (s : string) : string := substring 0 n s.

(** *** Numbers *)

(** [float(n)] for an [int]; exact below [2^53] in absolute value. *)
Definition float_of_Z (n : Z) : float :=
  if n <? 0 then PrimFloat.opp (PrimFloat.of_uint63 (Uint63.of_Z (- n)))
  else PrimFloat.of_uint63 (Uint63.of_Z n).

(** [x / y] on floats: dividing by zero raises. *)
Definition float_truediv (x y : float) : E float :=
  if PrimFloat.eqb y 0 then raise ZeroDivisionError
  else ret (PrimFloat.div x y).

(** [x / n] for a float and an int: [n] is converted first, and only
    [0] converts to zero. *)
Definition float_div_int (x : float) (n : Z) : E float :=
  if n =? 0 then raise ZeroDivisionError
  else ret (PrimFloat.div x (float_of_Z n)).

(** [a / b] on ints: the quotient as a float. The operands of the
    scripts are counts of rows, far below [2^53], where the quotient of
    the two conversions is the correctly rounded result. *)
Definition int_truediv (a b : Z) : E float :=
  if b =? 0 then raise ZeroDivisionError
  else ret (PrimFloat.div (float_of_Z a) (float_of_Z b)).

(** [int(x)] for a float: truncation towards zero; NaN and the
    infinities raise. *)
Definition int_of_float (x : float) : E Z :=
  match Prim2SF x with
  | S754_zero _ => ret 0
  | S754_finite s m e =>
      let a := if 0 <=? e then Z.pos m * 2 ^ e else Z.pos m / 2 ^ (- e) in
      ret (if s then - a else a)
  | S754_infinity _ => raise OverflowError
  | S754_nan => raise ValueError
  end.

(** [sum] over ints. *)
Definition int_sum (l : list Z) : Z := fold_left Z.add l 0.

(** [max(l)] and [min(l)] on floats: the first element is the running
    result, replaced by an item that compares strictly above (below) it;
    an empty argument raises. *)
Definition py_max (l : list float) : E float :=
  match l with
  | [] => raise ValueError
  | x :: l' => ret (fold_left (fun m y => if PrimFloat.ltb m y then y else m) l' x)
  end.

Definition py_min (l : list float) : E float :=
  match l with
  | [] => raise ValueError
  | x :: l' => ret (fold_left (fun m y => if PrimFloat.ltb y m then y else m) l' x)
  end.

(** *** Sorting

    [sorted] is total and stable. Under a comparison that is a strict
    weak order on the keys present, a stable sort has one possible
    result, which is the one computed here by stable insertion.
    [reverse=True] reverses the input, sorts, and reverses the result,
    which keeps equal keys in input order.

    With NaN among the keys the comparison is no order, and what
    Python returns depends on how its algorithm cuts the list into
    runs: there the definition below is not Python's [sorted]
    ([2.0, 1.0, nan, 0.5] comes out of Python as [0.5, 1.0, 2.0, nan]
    and out of stable insertion as [1.0, 2.0, nan, 0.5]). The
    theorems below that say in which order a list sorted by a float
    comes out assume, or prove, that no key is NaN. The lists with NaN that
    are sorted in the examples have one element, or no element that
    compares below the one before it: Python finds one run there and
    returns the list as it is, and so does insertion. *)

Section Sorting.
Context {A : Type} (lt : A -> A -> bool).

Fixpoint insert (x : A) (l : list A) : list A :=
  match l with
  | [] => [x]
  | y :: l' => if lt y x then y :: insert x l' else x :: l
  end.

Fixpoint isort (l : list A) : list A :=
  match l with
  | [] => []
  | x :: l' => insert x (isort l')
  end.

Definition sorted (reverse : bool) (l : list A) : list A :=
  if reverse then rev (isort (rev l)) else isort l.
End Sorting.

(** *** Dictionaries: association lists in insertion order *)

Definition dict (V : Type) : Type := list (string * V).

Fixpoint dict_get {V} (d : dict V) (k : string) : option V :=
  match d with
  | [] => None
  | (k', v) :: d' => if String.eqb k' k then Some v else dict_get d' k
  end.

(** [d[k] = v]: an existing key keeps its position. *)
Fixpoint dict_set {V} (d : dict V) (k : string) (v : V) : dict V :=
  match d with
  | [] => [(k, v)]
  | (k', v') :: d' =>
      if String.eqb k' k then (k', v) :: d' else (k', v') :: dict_set d' k v
  end.

Definition keys {V} (d : dict V) : list string := map fst d.
Definition values {V} (d : dict V) : list V := map snd d.

(** [d[k] += 1] on a [defaultdict(int)], and on a dict that has [k]. *)
Definition dict_incr (d : dict Z) (k : string) : dict Z :=
  dict_set d k (match dict_get d k with Some n => n | None => 0 end + 1).

(** [d[k].append(x)] on a [defaultdict(list)]. *)
Definition dict_append {A} (d : dict (list A)) (k : string) (x : A)
    : dict (list A) :=
  dict_set d k (match dict_get d k with Some l => l | None => [] end ++ [x]).

(** *** Standard output

    A [print] call is recorded as the line of the script it stands on
    and the values interpolated into its text, in order. *)

Inductive value : Type :=
| VS (s : string)
| VI (n : Z)
| VF (x : float)
| VB (b : bool).

Record printed : Type := P { line : nat; args : list value }.

Definition stdout : Type := list printed.

Definition print (n : nat) (vs : list value) : M stdout unit :=
  modify (fun out => out ++ [P n vs]).

(** *** Library functions taken as parameters

    [float] and [int] on strings, [sum] on floats and the [datetime]
    operations are Python's own. The scripts are modelled for any
    functions of these types; [None] stands for the exception the
    function raises. *)

Record Builtins : Type := {
  py_float : string -> option float;
  py_int : string -> option Z;
  py_sum : list float -> float;
  datetime : Type;
  timedelta : Type;
  fromisoformat : string -> option datetime;
  dt_sub : datetime -> datetime -> option timedelta;
  total_seconds : timedelta -> float
}.

End Py.

(** ** Code that the two scripts share word for word *)

Module Common.
Import Py.
Local Open Scope py_scope.

(** The inner loop of the spread distribution: the first range that
    holds [s] is counted, and [break] leaves the loop. *)
Fixpoint count_one (ranges : list (string * float * float)) (s : float)
    (counts : dict Z) : dict Z :=
  match ranges with
  | [] => counts
  | (label, low, high) :: rest =>
      if PrimFloat.leb low s && PrimFloat.ltb s high
      then dict_incr counts label
      else count_one rest s counts
  end.

(** [counts = {label: 0 for label, _, _ in spread_ranges}]. *)
Definition init_counts (ranges : list (string * float * float)) : dict Z :=
  fold_left (fun d r => dict_set d (fst (fst r)) 0) ranges [].

(** [for s in spreads: for label, low, high in spread_ranges: ...]. *)
Definition histogram (ranges : list (string * float * float))
    (spreads : list float) : dict Z :=
  fold_left (fun counts s => count_one ranges s counts) spreads
    (init_counts ranges).

(** [counts[label]]. *)
Definition count_of (counts : dict Z) (label : string) : Z :=
  match dict_get counts label with Some n => n | None => 0 end.

(** [sorted_spreads[len(sorted_spreads)//2]] with
    [sorted_spreads = sorted(spreads)]. *)
Definition median (spreads : list float) : E float :=
  let sorted_spreads := sorted PrimFloat.ltb false spreads in
  getitem sorted_spreads (List.length sorted_spreads / 2)%nat.

(** [enumerate(l, 1)]. *)
Definition enumerate1 {A} (l : list A) : list (Z * A) :=
  combine (map Z.of_nat (seq 1 (List.length l))) l.

Definition nonempty {A} (l : list A) : bool :=
  match l with [] => false | _ :: _ => true end.

(** [sorted(d.items())] for a dict: items are compared by key first,
    and keys of a dict differ. *)
Definition sorted_items {V} (d : dict V) : list (string * V) :=
  sorted (fun a b => String.ltb (fst a) (fst b)) false d.

(** [sorted(d.items(), key=lambda x: -x[1])]. *)
Definition sorted_by_count_desc (d : dict Z) : list (string * Z) :=
  sorted (fun a b => - snd a <? - snd b) false d.

End Common.

(** ** analyze_csv_new.py: the defensive script *)

Module V2.
Import Py Common.
Local Open Scope py_scope.

(** The values converted from one row (lines 34-41). *)
Record fields : Type := {
  timestamp : string;
  scan_num : Z;
  pair : string;
  spread : float;
  has_opp : Z;
  reject_reason : string;
  eth_price : float;
  gas_gwei : float
}.

(** An element of [high_spread_cases] (lines 57-64). *)
Record case : Type := {
  case_timestamp : string;
  case_pair : string;
  case_spread : float;
  case_reject_reason : string;
  case_eth_price : float;
  case_gas_gwei : float
}.

(** The module-level variables of lines 7-17. An element of
    [time_spreads] is the tuple of line 47, kept as the [fields] it is
    built from. *)
Record state : Type := {
  spreads : list float;
  eth_prices : list float;
  gas_prices : list float;
  opportunities : Z;
  total_scans : Z;
  reject_reasons : dict Z;
  pair_spreads : dict (list float);
  max_spread_entry : option row;
  max_spread : float;
  time_spreads : list fields;
  high_spread_cases : list case
}.

Definition init : state := {|
  spreads := [];
  eth_prices := [];
  gas_prices := [];
  opportunities := 0;
  total_scans := 0;
  reject_reasons := [];
  pair_spreads := [];
  max_spread_entry := None;
  max_spread := 0;
  time_spreads := [];
  high_spread_cases := []
|}.

Definition set_spreads v st := {|
  spreads := v; eth_prices := eth_prices st; gas_prices := gas_prices st;
  opportunities := opportunities st; total_scans := total_scans st;
  reject_reasons := reject_reasons st; pair_spreads := pair_spreads st;
  max_spread_entry := max_spread_entry st; max_spread := max_spread st;
  time_spreads := time_spreads st; high_spread_cases := high_spread_cases st |}.

Definition set_eth_prices v st := {|
  spreads := spreads st; eth_prices := v; gas_prices := gas_prices st;
  opportunities := opportunities st; total_scans := total_scans st;
  reject_reasons := reject_reasons st; pair_spreads := pair_spreads st;
  max_spread_entry := max_spread_entry st; max_spread := max_spread st;
  time_spreads := time_spreads st; high_spread_cases := high_spread_cases st |}.

Definition set_gas_prices v st := {|
  spreads := spreads st; eth_prices := eth_prices st; gas_prices := v;
  opportunities := opportunities st; total_scans := total_scans st;
  reject_reasons := reject_reasons st; pair_spreads := pair_spreads st;
  max_spread_entry := max_spread_entry st; max_spread := max_spread st;
  time_spreads := time_spreads st; high_spread_cases := high_spread_cases st |}.

Definition set_opportunities v st := {|
  spreads := spreads st; eth_prices := eth_prices st; gas_prices := gas_prices st;
  opportunities := v; total_scans := total_scans st;
  reject_reasons := reject_reasons st; pair_spreads := pair_spreads st;
  max_spread_entry := max_spread_entry st; max_spread := max_spread st;
  time_spreads := time_spreads st; high_spread_cases := high_spread_cases st |}.

Definition set_total_scans v st := {|
  spreads := spreads st; eth_prices := eth_prices st; gas_prices := gas_prices st;
  opportunities := opportunities st; total_scans := v;
  reject_reasons := reject_reasons st; pair_spreads := pair_spreads st;
  max_spread_entry := max_spread_entry st; max_spread := max_spread st;
  time_spreads := time_spreads st; high_spread_cases := high_spread_cases st |}.

Definition set_reject_reasons v st := {|
  spreads := spreads st; eth_prices := eth_prices st; gas_prices := gas_prices st;
  opportunities := opportunities st; total_scans := total_scans st;
  reject_reasons := v; pair_spreads := pair_spreads st;
  max_spread_entry := max_spread_entry st; max_spread := max_spread st;
  time_spreads := time_spreads st; high_spread_cases := high_spread_cases st |}.

Definition set_pair_spreads v st := {|
  spreads := spreads st; eth_prices := eth_prices st; gas_prices := gas_prices st;
  opportunities := opportunities st; total_scans := total_scans st;
  reject_reasons := reject_reasons st; pair_spreads := v;
  max_spread_entry := max_spread_entry st; max_spread := max_spread st;
  time_spreads := time_spreads st; high_spread_cases := high_spread_cases st |}.

(** Lines 67-68 assign the two variables together. *)
Definition set_max v e st := {|
  spreads := spreads st; eth_prices := eth_prices st; gas_prices := gas_prices st;
  opportunities := opportunities st; total_scans := total_scans st;
  reject_reasons := reject_reasons st; pair_spreads := pair_spreads st;
  max_spread_entry := Some e; max_spread := v;
  time_spreads := time_spreads st; high_spread_cases := high_spread_cases st |}.

Definition set_time_spreads v st := {|
  spreads := spreads st; eth_prices := eth_prices st; gas_prices := gas_prices st;
  opportunities := opportunities st; total_scans := total_scans st;
  reject_reasons := reject_reasons st; pair_spreads := pair_spreads st;
  max_spread_entry := max_spread_entry st; max_spread := max_spread st;
  time_spreads := v; high_spread_cases := high_spread_cases st |}.

Definition set_high_spread_cases v st := {|
  spreads := spreads st; eth_prices := eth_prices st; gas_prices := gas_prices st;
  opportunities := opportunities st; total_scans := total_scans st;
  reject_reasons := reject_reasons st; pair_spreads := pair_spreads st;
  max_spread_entry := max_spread_entry st; max_spread := max_spread st;
  time_spreads := time_spreads st; high_spread_cases := v |}.

Section Script.
Variable B : Builtins.

Definition to_int (s : string) : E Z := of_option ValueError (py_int B s).
Definition to_float (s : string) : E float := of_option ValueError (py_float B s).

(** Lines 34-41: the conversions of the [try] block. *)
Definition convert (row : row) : E fields :=
  timestamp <- getitem row 0 ;;
  r1 <- getitem row 1 ;;
  scan_num <- (if truthy r1 then to_int r1 else ret 0) ;;
  pair <- getitem row 2 ;;
  r3 <- getitem row 3 ;;
  spread <- (if truthy r3 then to_float r3 else ret 0%float) ;;
  r4 <- getitem row 4 ;;
  has_opp <- (if truthy r4 then to_int r4 else ret 0) ;;
  reject_reason <-
    (if 5 <? len row
     then r5 <- getitem row 5 ;; ret (if truthy r5 then strip r5 else ""%string)
     else ret ""%string) ;;
  eth_price <-
    (if 27 <? len row
     then r27 <- getitem row 27 ;;
          if truthy r27 then to_float r27 else ret 0%float
     else ret 0%float) ;;
  gas_gwei <-
    (if 28 <? len row
     then r28 <- getitem row 28 ;;
          if truthy r28 then to_float r28 else ret 0%float
     else ret 0%float) ;;
  ret {| timestamp := timestamp; scan_num := scan_num; pair := pair;
         spread := spread; has_opp := has_opp;
         reject_reason := reject_reason; eth_price := eth_price;
         gas_gwei := gas_gwei |}.

(** Lines 43-68: the updates of the [try] block. *)
Definition aggregate (row : row) (f : fields) : M state unit :=
  modify (fun st => set_spreads (spreads st ++ [spread f]) st) ;;
  modify (fun st => set_eth_prices (eth_prices st ++ [eth_price f]) st) ;;
  modify (fun st => set_gas_prices (gas_prices st ++ [gas_gwei f]) st) ;;
  modify (fun st =>
    set_pair_spreads (dict_append (pair_spreads st) (pair f) (spread f)) st) ;;
  modify (fun st => set_time_spreads (time_spreads st ++ [f]) st) ;;
  when (has_opp f =? 1)
    (modify (fun st => set_opportunities (opportunities st + 1) st)) ;;
  when (truthy (reject_reason f))
    (modify (fun st =>
      set_reject_reasons (dict_incr (reject_reasons st) (reject_reason f)) st)) ;;
  when (PrimFloat.leb 0.17 (spread f) && (has_opp f =? 0))
    (modify (fun st =>
      set_high_spread_cases
        (high_spread_cases st ++
         [{| case_timestamp := timestamp f; case_pair := pair f;
             case_spread := spread f;
             case_reject_reason := reject_reason f;
             case_eth_price := eth_price f;
             case_gas_gwei := gas_gwei f |}]) st)) ;;
  st <- get ;;
  when (PrimFloat.ltb (max_spread st) (spread f))
    (modify (set_max (spread f) row)).

(** Lines 28-70: the body of [for row in reader]. *)
Definition process_row (row : row) : M state unit :=
  if len row <? 29 then ret tt
  else
    modify (fun st => set_total_scans (total_scans st + 1) st) ;;
    try_except
      (f <- lift (convert row) ;; aggregate row f)
      [ValueError; IndexError]
      (ret tt).

(** Lines 23-70: [header = next(reader)], then the loop. The argument
    is the sequence of rows that [csv.reader] yields. What [open] and
    the reader themselves may raise while the file is read (a file
    that is missing, bytes that do not decode, a field over the size
    limit of the [csv] module) is outside this model: the statements
    about [read_pass] and [main] are about the rows that were read. *)
Definition read_pass (rows : list row) : M state unit :=
  match rows with
  | [] => raise StopIteration
  | header :: data => for_each data process_row
  end.

(** Lines 73-94: mean, maximum and minimum of a list, all [0] when the
    list is empty. *)
Definition summary (l : list float) : E (float * float * float) :=
  if nonempty l then
    avg <- float_div_int (py_sum B l) (len l) ;;
    hi <- py_max l ;;
    lo <- py_min l ;;
    ret (avg, hi, lo)
  else ret (0%float, 0%float, 0%float).

(** Lines 77-78 and 80. *)
Definition median_spread (l : list float) : E float :=
  if nonempty l then median l else ret 0%float.

(** Lines 101-104: the body of the [try] of the time range. *)
Definition duration_hours (first_time last_time : string) : E float :=
  first_dt <- of_option ValueError
    (fromisoformat B (replace "Z" "+00:00" first_time)) ;;
  last_dt <- of_option ValueError
    (fromisoformat B (replace "Z" "+00:00" last_time)) ;;
  duration <- of_option TypeError (dt_sub B last_dt first_dt) ;;
  float_div_int (total_seconds B duration) 3600.

(** Lines 97-108. *)
Definition hours {S} (time_spreads : list fields) : M S float :=
  if nonempty time_spreads then
    first <- lift (getitem time_spreads 0) ;;
    last <- lift (getlast time_spreads) ;;
    try_except_all
      (lift (duration_hours (timestamp first) (timestamp last)))
      (ret 0%float)
  else ret 0%float.

(** [ts.split('T')[1][:8] if 'T' in ts else ts[:8]]. *)
Definition time_str (ts : string) : E string :=
  if contains "T" ts then
    part <- getitem (split "T" ts) 1 ;; ret (prefix 8 part)
  else ret (prefix 8 ts).

Definition spread_ranges : list (string * float * float) :=
  [ ("< 0.1%", 0, 0.1);
    ("0.1~0.17%", 0.1, 0.17);
    ("0.17~0.2%", 0.17, 0.2);
    ("0.2~0.3%", 0.2, 0.3);
    ("0.3~0.4%", 0.3, 0.4);
    ("0.4~0.5%", 0.4, 0.5);
    (">= 0.5%", 0.5, 999) ]%string%float.

(** Line 191. *)
Definition top20 (time_spreads : list fields) : list fields :=
  firstn 20
    (sorted (fun a b => PrimFloat.ltb (spread a) (spread b)) true time_spreads).

(** Line 202. *)
Definition top10_high (cases : list case) : list case :=
  firstn 10
    (sorted (fun a b => PrimFloat.ltb (case_spread a) (case_spread b)) true
       cases).

(** The text shown in place of an empty reject reason. *)
Definition or_default (s d : string) : string := if truthy s then s else d.

(** Lines 137-145: the top spread case. *)
Definition print_top_case (st : state) : M stdout unit :=
  print 137 [] ;;
  match max_spread_entry st with
  | Some e =>
      (* a list is true when it is not empty *)
      when (nonempty e)
        (e2 <- lift (getitem e 2) ;; print 139 [VS e2] ;;
         e3 <- lift (getitem e 3) ;; print 140 [VS e3] ;;
         e0 <- lift (getitem e 0) ;; print 141 [VS e0] ;;
         e4 <- lift (getitem e 4) ;; print 142 [VB (String.eqb e4 "1")] ;;
         r <- lift (if 5 <? len e
                    then e5 <- getitem e 5 ;; ret (or_default e5 "(spread too small)")
                    else ret "(spread too small)"%string) ;;
         print 143 [VS r] ;;
         e27 <- lift (getitem e 27) ;; x27 <- lift (to_float e27) ;;
         print 144 [VF x27] ;;
         e28 <- lift (getitem e 28) ;; x28 <- lift (to_float e28) ;;
         print 145 [VF x28])
  | None => ret tt
  end.

(** Lines 147-153: spreads per pair. *)
Definition print_pairs (st : state) : M stdout unit :=
  print 147 [] ;;
  for_each (sorted_items (pair_spreads st)) (fun item =>
    let pair_spread_list := snd item in
    avg <- lift (float_div_int (py_sum B pair_spread_list)
                   (len pair_spread_list)) ;;
    max_val <- lift (py_max pair_spread_list) ;;
    min_val <- lift (py_min pair_spread_list) ;;
    print 153 [VS (fst item); VF avg; VF min_val; VF max_val;
               VI (len pair_spread_list)]).

(** Lines 155-164: reject reasons. *)
Definition print_rejects (st : state) : M stdout unit :=
  print 155 [] ;;
  if nonempty (reject_reasons st) then
    for_each (sorted_by_count_desc (reject_reasons st)) (fun item =>
      q <- lift (int_truediv (snd item) (total_scans st)) ;;
      print 159 [VS (prefix 50 (fst item)); VI (snd item);
                 VF (PrimFloat.mul q 100)])
  else
    let total_no_reason :=
      total_scans st - int_sum (values (reject_reasons st)) in
    print 162 [] ;;
    print 163 [VI (total_scans st); VI (int_sum (values (reject_reasons st)))] ;;
    q <- lift (int_truediv total_no_reason (total_scans st)) ;;
    print 164 [VI total_no_reason; VF (PrimFloat.mul q 100)].

(** Lines 167-188: the spread distribution. *)
Definition print_distribution (st : state) : M stdout unit :=
  let counts := histogram spread_ranges (spreads st) in
  print 183 [VI (len (spreads st))] ;;
  for_each spread_ranges (fun r =>
    let label := fst (fst r) in
    let count := count_of counts label in
    pct <- lift (if nonempty (spreads st)
                 then q <- int_truediv count (len (spreads st)) ;;
                      ret (PrimFloat.mul q 100)
                 else ret 0%float) ;;
    half <- lift (float_div_int pct 2) ;;
    bar <- lift (int_of_float half) ;;
    print 188 [VS label; VI count; VF pct; VI bar]).

(** Lines 190-196: the twenty largest spreads. *)
Definition print_top20 (st : state) : M stdout unit :=
  print 190 [] ;;
  for_each (enumerate1 (top20 (time_spreads st))) (fun it =>
    let f := snd it in
    t <- lift (time_str (timestamp f)) ;;
    print 196 [VI (fst it); VB (has_opp f =? 1); VS (pair f); VF (spread f);
               VS t; VF (eth_price f); VF (gas_gwei f);
               VS (prefix 35 (or_default (reject_reason f) "(below spread)"))]).

(** Lines 199-206: spreads of 0.17 or more that were no opportunity. *)
Definition print_high (st : state) : M stdout unit :=
  when (nonempty (high_spread_cases st))
    (print 200 [VI (len (high_spread_cases st))] ;;
     print 201 [] ;;
     for_each (enumerate1 (top10_high (high_spread_cases st))) (fun it =>
       let c := snd it in
       t <- lift (time_str (case_timestamp c)) ;;
       print 205 [VI (fst it); VS (case_pair c); VF (case_spread c); VS t;
                  VF (case_eth_price c); VF (case_gas_gwei c)] ;;
       print 206 [VS (or_default (case_reject_reason c) "(no explicit reject)")])).

(** Lines 208-230: the conclusion. *)
Definition print_conclusion (st : state) (avg_spread : float) : M stdout unit :=
  print 208 [] ;; print 209 [] ;; print 210 [] ;;
  (if opportunities st =? 0 then
     print 212 [] ;;
     print 213 [VF avg_spread] ;;
     if nonempty (high_spread_cases st)
     then print 215 [VI (len (high_spread_cases st))]
     else print 217 []
   else
     q <- lift (int_truediv (opportunities st) (total_scans st)) ;;
     print 219 [VI (opportunities st); VF (PrimFloat.mul q 100)]) ;;
  print 221 [] ;;
  (if nonempty (high_spread_cases st)
   then print 223 [] ;; print 224 [] ;; print 225 []
   else print 227 [] ;; print 228 [] ;; print 229 []) ;;
  print 230 [].

(** Lines 73-230: everything after the read pass. *)
Definition report (st : state) : M stdout unit :=
  sp <- lift (summary (spreads st)) ;;
  median <- lift (median_spread (spreads st)) ;;
  eth <- lift (summary (eth_prices st)) ;;
  gas <- lift (summary (gas_prices st)) ;;
  h <- hours (time_spreads st) ;;
  let avg_spread := fst (fst sp) in
  let max_spread_val := snd (fst sp) in
  let min_spread_val := snd sp in
  let avg_eth := fst (fst eth) in
  let max_eth := snd (fst eth) in
  let min_eth := snd eth in
  let avg_gas := fst (fst gas) in
  let max_gas := snd (fst gas) in
  let min_gas := snd gas in
  print 110 [] ;; print 111 [] ;; print 112 [] ;;
  print 113 [VS (hd "N/A"%string (map timestamp (time_spreads st)));
             VS (last (map timestamp (time_spreads st)) "N/A"%string)] ;;
  print 114 [VI (total_scans st)] ;;
  print 115 [VI (total_scans st / 3)] ;;
  print 116 [VF h] ;;
  print 117 [VI (opportunities st)] ;;
  rate <- lift (if 0 <? total_scans st
                then q <- int_truediv (opportunities st) (total_scans st) ;;
                     ret (PrimFloat.mul q 100)
                else ret 0%float) ;;
  print 118 [VF rate] ;;
  print 120 [] ;;
  print 121 [VF avg_spread] ;;
  print 122 [VF median] ;;
  print 123 [VF min_spread_val] ;;
  print 124 [VF max_spread_val] ;;
  print 126 [] ;;
  print 127 [VF avg_eth] ;;
  print 128 [VF min_eth; VF max_eth] ;;
  when (PrimFloat.ltb 0 min_eth)
    (q <- lift (float_truediv (PrimFloat.sub max_eth min_eth) min_eth) ;;
     print 131 [VF (PrimFloat.sub max_eth min_eth); VF (PrimFloat.mul q 100)]) ;;
  print 133 [] ;;
  print 134 [VF avg_gas] ;;
  print 135 [VF min_gas; VF max_gas] ;;
  print_top_case st ;;
  print_pairs st ;;
  print_rejects st ;;
  print_distribution st ;;
  print_top20 st ;;
  print_high st ;;
  print_conclusion st avg_spread.

(** The whole script: what it raises, if anything, and what it has
    printed by then. Nothing is printed during the read pass. *)
Definition main (rows : list row) : (exn + unit) * stdout :=
  match read_pass rows init with
  | (inl e, _) => (inl e, [])
  | (inr _, st) => report st []
  end.

End Script.
End V2.

(** ** analyze_csv.py: the strict script *)

Module V1.
Import Py Common.
Local Open Scope py_scope.

(** An element of [time_spreads]: the tuple of line 37. *)
Record entry : Type := {
  timestamp : string;
  spread : float;
  pair : string;
  reject_reason : string;
  eth_price : float
}.

(** The module-level variables of lines 6-14. *)
Record state : Type := {
  spreads : list float;
  eth_prices : list float;
  opportunities : Z;
  total_scans : Z;
  reject_reasons : dict Z;
  pair_spreads : dict (list float);
  max_spread_entry : option row;
  max_spread : float;
  time_spreads : list entry
}.

Definition init : state := {|
  spreads := [];
  eth_prices := [];
  opportunities := 0;
  total_scans := 0;
  reject_reasons := [];
  pair_spreads := [];
  max_spread_entry := None;
  max_spread := 0;
  time_spreads := []
|}.

Definition set_spreads v st := {|
  spreads := v; eth_prices := eth_prices st;
  opportunities := opportunities st; total_scans := total_scans st;
  reject_reasons := reject_reasons st; pair_spreads := pair_spreads st;
  max_spread_entry := max_spread_entry st; max_spread := max_spread st;
  time_spreads := time_spreads st |}.

Definition set_eth_prices v st := {|
  spreads := spreads st; eth_prices := v;
  opportunities := opportunities st; total_scans := total_scans st;
  reject_reasons := reject_reasons st; pair_spreads := pair_spreads st;
  max_spread_entry := max_spread_entry st; max_spread := max_spread st;
  time_spreads := time_spreads st |}.

Definition set_opportunities v st := {|
  spreads := spreads st; eth_prices := eth_prices st;
  opportunities := v; total_scans := total_scans st;
  reject_reasons := reject_reasons st; pair_spreads := pair_spreads st;
  max_spread_entry := max_spread_entry st; max_spread := max_spread st;
  time_spreads := time_spreads st |}.

Definition set_total_scans v st := {|
  spreads := spreads st; eth_prices := eth_prices st;
  opportunities := opportunities st; total_scans := v;
  reject_reasons := reject_reasons st; pair_spreads := pair_spreads st;
  max_spread_entry := max_spread_entry st; max_spread := max_spread st;
  time_spreads := time_spreads st |}.

Definition set_reject_reasons v st := {|
  spreads := spreads st; eth_prices := eth_prices st;
  opportunities := opportunities st; total_scans := total_scans st;
  reject_reasons := v; pair_spreads := pair_spreads st;
  max_spread_entry := max_spread_entry st; max_spread := max_spread st;
  time_spreads := time_spreads st |}.

Definition set_pair_spreads v st := {|
  spreads := spreads st; eth_prices := eth_prices st;
  opportunities := opportunities st; total_scans := total_scans st;
  reject_reasons := reject_reasons st; pair_spreads := v;
  max_spread_entry := max_spread_entry st; max_spread := max_spread st;
  time_spreads := time_spreads st |}.

(** Lines 46-47 assign the two variables together. *)
Definition set_max v e st := {|
  spreads := spreads st; eth_prices := eth_prices st;
  opportunities := opportunities st; total_scans := total_scans st;
  reject_reasons := reject_reasons st; pair_spreads := pair_spreads st;
  max_spread_entry := Some e; max_spread := v;
  time_spreads := time_spreads st |}.

Definition set_time_spreads v st := {|
  spreads := spreads st; eth_prices := eth_prices st;
  opportunities := opportunities st; total_scans := total_scans st;
  reject_reasons := reject_reasons st; pair_spreads := pair_spreads st;
  max_spread_entry := max_spread_entry st; max_spread := max_spread st;
  time_spreads := v |}.

Section Script.
Variable B : Builtins.

Definition to_int (s : string) : E Z := of_option ValueError (py_int B s).
Definition to_float (s : string) : E float := of_option ValueError (py_float B s).

(** Lines 27-32: the conversions, none of them guarded. *)
Definition convert (row : row) : E (entry * Z) :=
  timestamp <- getitem row 0 ;;
  pair <- getitem row 2 ;;
  r3 <- getitem row 3 ;;
  spread <- to_float r3 ;;
  r4 <- getitem row 4 ;;
  has_opp <- to_int r4 ;;
  r5 <- getitem row 5 ;;
  let reject_reason := if truthy r5 then strip r5 else ""%string in
  r27 <- getitem row 27 ;;
  eth_price <- to_float r27 ;;
  ret ({| timestamp := timestamp; spread := spread; pair := pair;
          reject_reason := reject_reason; eth_price := eth_price |}, has_opp).

(** Lines 34-47: the updates. *)
Definition aggregate (row : row) (f : entry) (has_opp : Z) : M state unit :=
  modify (fun st => set_spreads (spreads st ++ [spread f]) st) ;;
  modify (fun st => set_eth_prices (eth_prices st ++ [eth_price f]) st) ;;
  modify (fun st =>
    set_pair_spreads (dict_append (pair_spreads st) (pair f) (spread f)) st) ;;
  modify (fun st => set_time_spreads (time_spreads st ++ [f]) st) ;;
  when (has_opp =? 1)
    (modify (fun st => set_opportunities (opportunities st + 1) st)) ;;
  when (truthy (reject_reason f))
    (modify (fun st =>
      set_reject_reasons (dict_incr (reject_reasons st) (reject_reason f)) st)) ;;
  st <- get ;;
  when (PrimFloat.ltb (max_spread st) (spread f))
    (modify (set_max (spread f) row)).

(** Lines 19-47: the body of [for row in reader]. *)
Definition process_row (row : row) : M state unit :=
  if len row <? 29 then ret tt
  else
    modify (fun st => set_total_scans (total_scans st + 1) st) ;;
    c <- lift (convert row) ;;
    aggregate row (fst c) (snd c).

(** Lines 16-47. The argument is the sequence of rows that
    [csv.reader] yields; no header is skipped. What [open] and the
    reader themselves may raise while the file is read is outside this
    model. *)
Definition read_pass (rows : list row) : M state unit :=
  for_each rows process_row.

(** Lines 50-52 and 56-58: mean, maximum and minimum, with no guard
    for an empty list. *)
Definition summary (l : list float) : E (float * float * float) :=
  avg <- float_div_int (py_sum B l) (len l) ;;
  hi <- py_max l ;;
  lo <- py_min l ;;
  ret (avg, hi, lo).

Definition spread_ranges : list (string * float * float) :=
  [ ("< 0.1%", 0, 0.1);
    ("0.1~0.2%", 0.1, 0.2);
    ("0.2~0.3%", 0.2, 0.3);
    ("0.3~0.4%", 0.3, 0.4);
    ("0.4~0.5%", 0.4, 0.5);
    (">= 0.5%", 0.5, 999) ]%string%float.

(** Line 135. *)
Definition top10 (time_spreads : list entry) : list entry :=
  firstn 10
    (sorted (fun a b => PrimFloat.ltb (spread a) (spread b)) true time_spreads).

Definition or_default (s d : string) : string := if truthy s then s else d.

(** Lines 75-84: the top spread case. *)
Definition print_top_case (st : state) : M stdout unit :=
  print 75 [] ;;
  match max_spread_entry st with
  | Some e =>
      (* a list is true when it is not empty *)
      when (nonempty e)
        (e2 <- lift (getitem e 2) ;; print 77 [VS e2] ;;
         e3 <- lift (getitem e 3) ;; print 78 [VS e3] ;;
         e0 <- lift (getitem e 0) ;; print 79 [VS e0] ;;
         e18 <- lift (getitem e 18) ;;
         e19 <- lift (getitem e 19) ;; x19 <- lift (to_float e19) ;;
         print 80 [VS e18; VF x19] ;;
         e20 <- lift (getitem e 20) ;;
         e21 <- lift (getitem e 21) ;; x21 <- lift (to_float e21) ;;
         print 81 [VS e20; VF x21] ;;
         e4 <- lift (getitem e 4) ;; print 82 [VB (String.eqb e4 "1")] ;;
         e5 <- lift (getitem e 5) ;;
         print 83 [VS (or_default e5 "(spread too small)")] ;;
         e27 <- lift (getitem e 27) ;; x27 <- lift (to_float e27) ;;
         print 84 [VF x27])
  | None => ret tt
  end.

(** Lines 86-91: spreads per pair. *)
Definition print_pairs (st : state) : M stdout unit :=
  print 86 [] ;;
  for_each (sorted_items (pair_spreads st)) (fun item =>
    let pair_spread_list := snd item in
    avg <- lift (float_div_int (py_sum B pair_spread_list)
                   (len pair_spread_list)) ;;
    max_val <- lift (py_max pair_spread_list) ;;
    min_val <- lift (py_min pair_spread_list) ;;
    print 91 [VS (fst item); VF avg; VF min_val; VF max_val]).

(** Lines 101-109: reject reasons. *)
Definition print_rejects (st : state) : M stdout unit :=
  print 101 [] ;;
  if nonempty (reject_reasons st) then
    for_each (sorted_by_count_desc (reject_reasons st)) (fun item =>
      q <- lift (int_truediv (snd item) (total_scans st)) ;;
      print 105 [VS (prefix 45 (fst item)); VI (snd item);
                 VF (PrimFloat.mul q 100)])
  else
    print 108 [] ;;
    print 109 [VI (total_scans st); VI (int_sum (values (reject_reasons st)))].

(** Lines 112-132: the spread distribution. *)
Definition print_distribution (st : state) : M stdout unit :=
  let counts := histogram spread_ranges (spreads st) in
  print 127 [VI (len (spreads st))] ;;
  for_each spread_ranges (fun r =>
    let label := fst (fst r) in
    let count := count_of counts label in
    pct <- lift (if nonempty (spreads st)
                 then q <- int_truediv count (len (spreads st)) ;;
                      ret (PrimFloat.mul q 100)
                 else ret 0%float) ;;
    half <- lift (float_div_int pct 2) ;;
    bar <- lift (int_of_float half) ;;
    print 132 [VS label; VI count; VF pct; VI bar]).

(** Lines 134-139: the ten largest spreads. *)
Definition print_top10 (st : state) : M stdout unit :=
  print 134 [] ;;
  for_each (enumerate1 (top10 (time_spreads st))) (fun it =>
    let f := snd it in
    part <- lift (getitem (split "T" (timestamp f)) 1) ;;
    print 139 [VI (fst it); VS (pair f); VF (spread f); VS (prefix 8 part);
               VF (eth_price f);
               VS (prefix 30 (or_default (reject_reason f) "(too small)"))]).

(** Lines 50-151: everything after the read pass. *)
Definition report (st : state) : M stdout unit :=
  sp <- lift (summary (spreads st)) ;;
  median_spread <- lift (median (spreads st)) ;;
  eth <- lift (summary (eth_prices st)) ;;
  let avg_spread := fst (fst sp) in
  let max_spread_val := snd (fst sp) in
  let min_spread_val := snd sp in
  let avg_eth := fst (fst eth) in
  let max_eth := snd (fst eth) in
  let min_eth := snd eth in
  print 60 [] ;; print 61 [] ;; print 62 [] ;; print 63 [] ;;
  print 64 [VI (total_scans st)] ;;
  print 65 [VI (total_scans st / 3)] ;;
  print 66 [VI (opportunities st)] ;;
  print 67 [] ;;
  print 69 [] ;;
  print 70 [VF avg_spread] ;;
  print 71 [VF median_spread] ;;
  print 72 [VF min_spread_val] ;;
  print 73 [VF max_spread_val] ;;
  print_top_case st ;;
  print_pairs st ;;
  print 93 [] ;;
  print 94 [VF avg_eth] ;;
  print 95 [VF min_eth; VF max_eth] ;;
  when (PrimFloat.ltb 0 min_eth)
    (q <- lift (float_truediv (PrimFloat.sub max_eth min_eth) min_eth) ;;
     print 98 [VF (PrimFloat.sub max_eth min_eth); VF (PrimFloat.mul q 100)]) ;;
  print 99 [] ;;
  print_rejects st ;;
  print_distribution st ;;
  print_top10 st ;;
  print 141 [] ;; print 142 [] ;; print 143 [] ;; print 144 [] ;;
  print 145 [] ;; print 146 [] ;; print 147 [] ;; print 148 [] ;;
  print 149 [] ;; print 150 [] ;; print 151 [].

(** The whole script: what it raises, if anything, and what it has
    printed by then. Nothing is printed during the read pass. *)
Definition main (rows : list row) : (exn + unit) * stdout :=
  match read_pass rows init with
  | (inl e, _) => (inl e, [])
  | (inr _, st) => report st []
  end.

End Script.
End V1.

(** ** A sample of the library functions

    The examples below run the scripts on concrete rows, which needs
    concrete library functions. [Sample.builtins] reads the plain
    notations that the examples use and rejects every other string:
    - [float]: an optional sign and digits with an optional fraction,
      at most 15 digits in all, where the quotient of the digits by the
      power of ten is the correctly rounded value; also [nan] and [inf];
    - [int]: an optional sign and digits;
    - [datetime.fromisoformat]: [YYYY-MM-DDTHH:MM:SS] for a day that
      exists, an optional fraction of three digits, an optional
      [+00:00].
    The first two accept the surrounding white space that [float] and
    [int] skip, which leaves out the separators 28-31 that [str.strip]
    removes. *)

Module Sample.
Import Py.

Definition digit (c : ascii) : option Z :=
  let n := Z.of_N (N_of_ascii c) in
  if (48 <=? n) && (n <=? 57) then Some (n - 48) else None.

(** The number written by a string of digits, and how many there are. *)
Fixpoint digits_from (acc : Z) (count : nat) (s : string) : option (Z * nat) :=
  match s with
  | EmptyString => Some (acc, count)
  | String c s' =>
      match digit c with
      | Some d => digits_from (10 * acc + d) (S count) s'
      | None => None
      end
  end.

Definition digits (s : string) : option (Z * nat) :=
  match s with
  | EmptyString => None
  | _ => digits_from 0 0 s
  end.

Definition unsigned_float (s : string) : option float :=
  if String.eqb s "nan" || String.eqb s "NaN" then Some PrimFloat.nan
  else if String.eqb s "inf" then Some PrimFloat.infinity
  else
    match split "." s with
    | [whole] =>
        match digits whole with
        | Some (n, c) => if (c <=? 15)%nat then Some (float_of_Z n) else None
        | None => None
        end
    | [whole; frac] =>
        match digits whole, digits frac with
        | Some (n, c), Some (m, k) =>
            if (c + k <=? 15)%nat
            then Some (PrimFloat.div (float_of_Z (n * 10 ^ Z.of_nat k + m))
                                     (float_of_Z (10 ^ Z.of_nat k)))
            else None
        | _, _ => None
        end
    | _ => None
    end.

(** The white space that [float] and [int] skip around a number. *)
Definition numeric_space (c : ascii) : bool :=
  let n := N_of_ascii c in
  (isspace c && negb ((28 <=? n) && (n <=? 31)))%N.

Fixpoint ltrim (s : string) : string :=
  match s with
  | EmptyString => EmptyString
  | String c s' => if numeric_space c then ltrim s' else s
  end.

Fixpoint rtrim (s : string) : string :=
  match s with
  | EmptyString => EmptyString
  | String c s' =>
      match rtrim s' with
      | EmptyString =>
          if numeric_space c then EmptyString else String c EmptyString
      | r => String c r
      end
  end.

Definition trim (s : string) : string := rtrim (ltrim s).

Definition signed {A} (neg : A -> A) (read : string -> option A)
    (s : string) : option A :=
  match trim s with
  | String "-" s' => option_map neg (read s')
  | String "+" s' => read s'
  | s' => read s'
  end.

Definition sample_float : string -> option float :=
  signed PrimFloat.opp unsigned_float.

Definition sample_int : string -> option Z :=
  signed Z.opp (fun s => option_map fst (digits s)).

Definition sample_sum (l : list float) : float :=
  fold_left PrimFloat.add l 0%float.

(** A date and time: microseconds since 1970-01-01T00:00:00, and
    whether an offset from UTC was given. *)
Definition sample_datetime : Type := Z * bool.

Definition days_from_civil (y m d : Z) : Z :=
  let y' := if m <=? 2 then y - 1 else y in
  let era := y' / 400 in
  let yoe := y' - era * 400 in
  let doy := (153 * (if 2 <? m then m - 3 else m + 9) + 2) / 5 + d - 1 in
  let doe := yoe * 365 + yoe / 4 - yoe / 100 + doy in
  era * 146097 + doe - 719468.

Definition leap (y : Z) : bool :=
  ((y mod 4 =? 0) && negb (y mod 100 =? 0)) || (y mod 400 =? 0).

Definition days_in_month (y m : Z) : Z :=
  if m =? 2 then (if leap y then 29 else 28)
  else if (m =? 4) || (m =? 6) || (m =? 9) || (m =? 11) then 30
  else 31.

Definition number (start n : nat) (s : string) : option Z :=
  if (String.length (substring start n s) =? n)%nat
  then option_map fst (digits (substring start n s))
  else None.

Definition sample_fromisoformat (s : string) : option sample_datetime :=
  match number 0 4 s, number 5 2 s, number 8 2 s,
        number 11 2 s, number 14 2 s, number 17 2 s with
  | Some y, Some mo, Some d, Some h, Some mi, Some sec =>
      if String.eqb (substring 4 1 s) "-" && String.eqb (substring 7 1 s) "-"
         && String.eqb (substring 10 1 s) "T"
         && String.eqb (substring 13 1 s) ":"
         && String.eqb (substring 16 1 s) ":"
         && (1 <=? y) && (1 <=? mo) && (mo <=? 12)
         && (1 <=? d) && (d <=? days_in_month y mo)
         && (h <=? 23) && (mi <=? 59) && (sec <=? 59)
      then
        let whole :=
          (((days_from_civil y mo d * 24 + h) * 60 + mi) * 60 + sec) * 1000000 in
        let rest := substring 19 (String.length s - 19) s in
        if String.eqb rest "" then Some (whole, false)
        else if String.eqb rest "+00:00" then Some (whole, true)
        else if String.eqb (substring 0 1 rest) "." then
          match number 1 3 rest with
          | Some ms =>
              let tz := substring 4 (String.length rest - 4) rest in
              if String.eqb tz "" then Some (whole + ms * 1000, false)
              else if String.eqb tz "+00:00" then Some (whole + ms * 1000, true)
              else None
          | None => None
          end
        else None
      else None
  | _, _, _, _, _, _ => None
  end.

(** Subtracting a time with an offset from one without raises. *)
Definition sample_sub (a b : sample_datetime) : option Z :=
  if Bool.eqb (snd a) (snd b) then Some (fst a - fst b) else None.

Definition sample_total_seconds (d : Z) : float :=
  PrimFloat.div (float_of_Z d) (float_of_Z 1000000).

Definition builtins : Builtins := {|
  py_float := sample_float;
  py_int := sample_int;
  py_sum := sample_sum;
  datetime := sample_datetime;
  timedelta := Z;
  fromisoformat := sample_fromisoformat;
  dt_sub := sample_sub;
  total_seconds := sample_total_seconds
|}.

(** A row of 29 fields in the layout of the export: time stamp, scan
    number, pair, spread, opportunity flag, reject reason, 21 fields
    that the read pass does not look at, ETH price, gas price. *)
Definition mkrow (ts scan pair spread opp reason eth gas : string) : row :=
  [ts; scan; pair; spread; opp; reason] ++ repeat "1"%string 21 ++ [eth; gas].

Definition header : row :=
  ["timestamp"; "scanNum"; "pair"; "spreadPercent"; "hasOpportunity";
   "rejectReason"]%string ++ repeat "h"%string 21
  ++ ["ethPriceUsd"; "gasGwei"]%string.

End Sample.

(** ** Statements: loops and stores *)

Module Stmt.
Import Py.
Local Open Scope py_scope.

Lemma for_each_app {S A} (xs ys : list A) (body : A -> M S unit) (s : S) :
  for_each (xs ++ ys) body s =
  match for_each xs body s with
  | (inl e, s') => (inl e, s')
  | (inr _, s') => for_each ys body s'
  end.
Proof.
  revert s. induction xs as [|x xs IH]; intros s; [reflexivity|].
  cbn. destruct (body x s) as [[e|[]] s']; [reflexivity|]. apply IH.
Qed.

Lemma for_each_cons {S A} (x : A) (xs : list A) (body : A -> M S unit) (s : S) :
  for_each (x :: xs) body s =
  match body x s with
  | (inl e, s') => (inl e, s')
  | (inr _, s') => for_each xs body s'
  end.
Proof. reflexivity. Qed.

(** A property of the store kept by every run of the body is kept by
    the loop, whether or not it raises. *)
Lemma for_each_inv {S A} (P : S -> Prop) (body : A -> M S unit) :
  (forall x s, P s -> P (snd (body x s))) ->
  forall xs s, P s -> P (snd (for_each xs body s)).
Proof.
  intros Hbody xs. induction xs as [|x xs IH]; intros s Hs; [exact Hs|].
  cbn. specialize (Hbody x s Hs).
  destruct (body x s) as [[e|[]] s']; cbn in *; auto.
Qed.

(** A loop whose body never raises is a fold over the stores. *)
Lemma for_each_fold {S A} (body : A -> M S unit) (step : A -> S -> S) :
  (forall x s, body x s = (inr tt, step x s)) ->
  forall xs s,
    for_each xs body s = (inr tt, fold_left (fun s x => step x s) xs s).
Proof.
  intros Hbody xs. induction xs as [|x xs IH]; intros s; [reflexivity|].
  cbn. rewrite Hbody. apply IH.
Qed.

(** [only P x]: the expression [x] raises nothing but exceptions in [P]. *)
Definition only {A} (P : exn -> Prop) (x : E A) : Prop :=
  forall e, x = inl e -> P e.

Lemma only_ret {A} (P : exn -> Prop) (a : A) : only P (ret a).
Proof. intros e H. discriminate H. Qed.

Lemma only_bind {A C} (P : exn -> Prop) (x : E A) (k : A -> E C) :
  only P x -> (forall a, only P (k a)) -> only P (bind x k).
Proof.
  intros Hx Hk e. destruct x as [e'|a]; cbn.
  - intros H. apply Hx. inversion H. reflexivity.
  - apply Hk.
Qed.

Lemma only_if {A} (P : exn -> Prop) (c : bool) (x y : E A) :
  only P x -> only P y -> only P (if c then x else y).
Proof. destruct c; auto. Qed.

Lemma only_of_option {A} (P : exn -> Prop) (e : exn) (o : option A) :
  P e -> only P (of_option e o).
Proof. intros H e' E. destruct o; [discriminate|]. inversion E. subst. exact H. Qed.

Lemma only_getitem {A} (P : exn -> Prop) (l : list A) (i : nat) :
  P IndexError -> only P (getitem l i).
Proof. apply only_of_option. Qed.

Ltac only_tac :=
  repeat first
    [ apply only_bind; [|intros ?]
    | apply only_if
    | apply only_ret
    | apply only_getitem
    | apply only_of_option ];
  auto.

Lemma getitem_lt (l : row) (i : nat) :
  (i < List.length l)%nat -> getitem l i = inr (nth i l ""%string).
Proof.
  intros H. unfold getitem. rewrite (nth_error_nth' l ""%string H). reflexivity.
Qed.

Lemma len_ge (l : row) (i : nat) :
  (len l <? 29) = false -> (i < 29)%nat -> (i < List.length l)%nat.
Proof. unfold len. intros H Hi. apply Z.ltb_ge in H. lia. Qed.

Lemma nth_error_last {A} (l : list A) (d : A) :
  l <> [] -> nth_error l (List.length l - 1) = Some (last l d).
Proof.
  induction l as [|a l IH]; [contradiction|]. intros _.
  destruct l as [|b l]; [reflexivity|].
  replace (List.length (a :: b :: l) - 1)%nat
    with (S (List.length (b :: l) - 1)) by (cbn [List.length]; lia).
  cbn [nth_error]. rewrite IH by discriminate. reflexivity.
Qed.


(** *** Dictionaries *)

Lemma keys_dict_set {V} (d : dict V) (k : string) (v : V) (x : string) :
  In x (keys (dict_set d k v)) -> x = k \/ In x (keys d).
Proof.
  induction d as [|[k' v'] d IH]; cbn.
  - intros [H|[]]. left. symmetry. exact H.
  - destruct (String.eqb k' k); cbn.
    + intros [H|H]; right; [left|right]; assumption.
    + intros [H|H]; [right; left; exact H|].
      destruct (IH H) as [E|E]; [left; exact E | right; right; exact E].
Qed.

Lemma dict_get_set {V} (d : dict V) (k : string) (v : V) (x : string) :
  dict_get (dict_set d k v) x = if String.eqb k x then Some v else dict_get d x.
Proof.
  induction d as [|[k' v'] d IH]; cbn.
  - reflexivity.
  - destruct (String.eqb k' k) eqn:E; cbn.
    + apply String.eqb_eq in E. subst k'.
      destruct (String.eqb k x); reflexivity.
    + rewrite IH. destruct (String.eqb k' x) eqn:F; [|reflexivity].
      apply String.eqb_eq in F. subst k'.
      rewrite String.eqb_sym, E. reflexivity.
Qed.

(** The keys of a table filled by a loop whose body leaves the table
    alone or counts the trimmed sixth field of the row, not empty. *)
Lemma table_keys {S} (rr : S -> dict Z) (body : row -> M S unit) :
  (forall row s,
     rr (snd (body row s)) = rr s \/
     (strip (nth 5 row ""%string) <> ""%string /\
      rr (snd (body row s)) = dict_incr (rr s) (strip (nth 5 row ""%string)))) ->
  forall rows s k,
    In k (keys (rr (snd (for_each rows body s)))) ->
    In k (keys (rr s)) \/
    exists row, In row rows /\ k = strip (nth 5 row ""%string) /\ k <> ""%string.
Proof.
  intros Hbody rows. induction rows as [|r rows IH]; intros s k Hk.
  - left. exact Hk.
  - rewrite for_each_cons in Hk. specialize (Hbody r s).
    destruct (body r s) as [[e|[]] s'] eqn:E; cbn in Hbody.
    + cbn in Hk. destruct Hbody as [H|[Hne H]]; rewrite H in Hk.
      * left. exact Hk.
      * apply keys_dict_set in Hk. destruct Hk as [->|Hk]; [|left; exact Hk].
        right. exists r. split; [left; reflexivity | split; [reflexivity | exact Hne]].
    + destruct (IH s' k Hk) as [Hin|(row & Hin & Hrow)].
      * destruct Hbody as [H|[Hne H]]; rewrite H in Hin.
        -- left. exact Hin.
        -- apply keys_dict_set in Hin. destruct Hin as [->|Hin]; [|left; exact Hin].
           right. exists r.
           split; [left; reflexivity | split; [reflexivity | exact Hne]].
      * right. exists row. split; [right; exact Hin | exact Hrow].
Qed.

End Stmt.

(** ** What a statement prints

    [emits L m]: the statement [m] only appends to the output, and the
    line of every record it appends satisfies [L]; this holds up to the
    point where [m] raises, if it does. *)

Module Output.
Import Py Stmt.
Local Open Scope py_scope.

Definition emits {A} (L : nat -> Prop) (m : M stdout A) : Prop :=
  forall out, exists added,
    snd (m out) = out ++ added /\ Forall (fun p => L (line p)) added.

Section Rules.
Variable L : nat -> Prop.

Lemma emits_ret {A} (a : A) : emits L (ret a).
Proof. intros out. exists []. split; [symmetry; apply app_nil_r | constructor]. Qed.

Lemma emits_lift {A} (x : E A) : emits L (lift x).
Proof. intros out. exists []. split; [symmetry; apply app_nil_r | constructor]. Qed.

Lemma emits_print (n : nat) (vs : list value) : L n -> emits L (print n vs).
Proof.
  intros H out. exists [P n vs]. split; [reflexivity|].
  constructor; [exact H | constructor].
Qed.

Lemma emits_bind {A C} (m : M stdout A) (k : A -> M stdout C) :
  emits L m -> (forall a, emits L (k a)) -> emits L (bind m k).
Proof.
  intros Hm Hk out. destruct (Hm out) as (a1 & E1 & F1). cbn.
  destruct (m out) as [[e|a] out1]; cbn in E1; subst out1.
  - exists a1. split; [reflexivity | exact F1].
  - destruct (Hk a (out ++ a1)) as (a2 & E2 & F2).
    exists (a1 ++ a2). rewrite E2, app_assoc. split; [reflexivity|].
    apply Forall_app. split; assumption.
Qed.

Lemma emits_if {A} (c : bool) (m1 m2 : M stdout A) :
  emits L m1 -> emits L m2 -> emits L (if c then m1 else m2).
Proof. destruct c; auto. Qed.

Lemma emits_when (c : bool) (m : M stdout unit) :
  emits L m -> emits L (when c m).
Proof. intros H. destruct c; [exact H | apply emits_ret]. Qed.

Lemma emits_for_each {A} (xs : list A) (body : A -> M stdout unit) :
  (forall x, emits L (body x)) -> emits L (for_each xs body).
Proof.
  intros H. induction xs as [|x xs IH]; [apply emits_ret|].
  cbn [for_each]. apply emits_bind; [apply H | intros _; exact IH].
Qed.

Lemma emits_try_except_all {A} (m h : M stdout A) :
  emits L m -> emits L h -> emits L (try_except_all m h).
Proof.
  intros Hm Hh out. destruct (Hm out) as (a1 & E1 & F1).
  unfold try_except_all.
  destruct (m out) as [[e|a] out1]; cbn in E1; subst out1.
  - destruct (Hh (out ++ a1)) as (a2 & E2 & F2).
    exists (a1 ++ a2). rewrite E2, app_assoc. split; [reflexivity|].
    apply Forall_app. split; assumption.
  - exists a1. split; [reflexivity | exact F1].
Qed.

End Rules.





(** [ends_alike R m m']: from any two outputs, [m] and [m'] end the
    same way: both raise the same exception, or both return, with
    values related by [R]. What they print may differ. *)
Definition ends_alike {A A'} (R : A -> A' -> Prop)
    (m : M stdout A) (m' : M stdout A') : Prop :=
  forall out out',
    match fst (m out), fst (m' out') with
    | inl e, inl e' => e = e'
    | inr a, inr a' => R a a'
    | _, _ => False
    end.

Lemma alike_ret {A} (a : A) : ends_alike eq (ret a) (ret a).
Proof. intros out out'. reflexivity. Qed.

Lemma alike_lift {A} (x : E A) : ends_alike eq (lift x) (lift x).
Proof. intros out out'. cbn. destruct x; reflexivity. Qed.

Lemma alike_print (n n' : nat) (vs vs' : list value) :
  ends_alike eq (print n vs) (print n' vs').
Proof. intros out out'. reflexivity. Qed.

Lemma alike_bind {A A' C C'} (R : A -> A' -> Prop) (Q : C -> C' -> Prop)
    (m : M stdout A) (m' : M stdout A')
    (k : A -> M stdout C) (k' : A' -> M stdout C') :
  ends_alike R m m' ->
  (forall a a', R a a' -> ends_alike Q (k a) (k' a')) ->
  ends_alike Q (bind m k) (bind m' k').
Proof.
  intros Hm Hk out out'. specialize (Hm out out'). cbn.
  destruct (m out) as [[e|a] o], (m' out') as [[e'|a'] o']; cbn in *;
    try contradiction; [exact Hm|].
  apply (Hk a a' Hm).
Qed.

Lemma alike_if {A} (c : bool) (m1 m2 m1' m2' : M stdout A) :
  ends_alike eq m1 m1' -> ends_alike eq m2 m2' ->
  ends_alike eq (if c then m1 else m2) (if c then m1' else m2').
Proof. destruct c; auto. Qed.

Lemma alike_when (c : bool) (m m' : M stdout unit) :
  ends_alike eq m m' -> ends_alike eq (when c m) (when c m').
Proof. intros H. destruct c; [exact H | apply alike_ret]. Qed.

Lemma alike_for_each {A} (xs : list A) (body body' : A -> M stdout unit) :
  (forall x, ends_alike eq (body x) (body' x)) ->
  ends_alike eq (for_each xs body) (for_each xs body').
Proof.
  intros H. induction xs as [|x xs IH]; [apply alike_ret|].
  cbn [for_each]. apply (alike_bind eq); [apply H | intros _ _ _; exact IH].
Qed.

Ltac alike_tac :=
  repeat first
    [ apply (alike_bind eq); [|intros ? ? <-]
    | apply alike_print
    | apply alike_lift
    | apply alike_ret
    | apply alike_when
    | apply alike_if
    | apply alike_for_each; intros ? ].

(** The rules applied to a statement written with the notations of the
    scripts; what is left are the side conditions on line numbers. *)
Ltac emits_tac :=
  repeat first
    [ apply emits_bind; [|intros ?]
    | apply emits_print
    | apply emits_lift
    | apply emits_ret
    | apply emits_when
    | apply emits_if
    | apply emits_for_each; intros ?
    | apply emits_try_except_all ].

End Output.

(** ** Sorting by a float key *)

Module SortFacts.
Import Py Common Stmt.

Section ByKey.
Context {A : Type}.
Variable key : A -> float.

Definition lt (a b : A) : bool := PrimFloat.ltb (key a) (key b).

(** No key of the list is NaN. *)
Definition ordered_keys (l : list A) : Prop :=
  Forall (fun a => PrimFloat.is_nan (key a) = false) l.

Definition ascending (l : list A) : Prop :=
  StronglySorted (fun a b => PrimFloat.leb (key a) (key b) = true) l.

Definition descending (l : list A) : Prop :=
  StronglySorted (fun a b => PrimFloat.leb (key b) (key a) = true) l.

(** The elements whose key equals [v], in the order of the list. *)
Definition with_key (v : float) (l : list A) : list A :=
  filter (fun a => PrimFloat.eqb (key a) v) l.

Lemma insert_perm (x : A) (l : list A) : Permutation (insert lt x l) (x :: l).
Proof.
  induction l as [|y l IH]; [reflexivity|]. cbn [insert].
  destruct (lt y x); [|reflexivity].
  rewrite IH. apply perm_swap.
Qed.

Lemma isort_perm (l : list A) : Permutation (isort lt l) l.
Proof.
  induction l as [|x l IH]; [reflexivity|]. cbn [isort].
  rewrite insert_perm. constructor. exact IH.
Qed.

Lemma sorted_perm (reverse : bool) (l : list A) :
  Permutation (sorted lt reverse l) l.
Proof.
  unfold sorted. destruct reverse; [|apply isort_perm].
  rewrite <- Permutation_rev, isort_perm. symmetry. apply Permutation_rev.
Qed.

Lemma insert_ascending (x : A) (l : list A) :
  PrimFloat.is_nan (key x) = false -> ordered_keys l ->
  ascending l -> ascending (insert lt x l).
Proof.
  intros Hx Hl Hs. induction Hs as [|y l Hs IH Hy]; cbn [insert].
  - repeat constructor.
  - inversion Hl as [|? ? Hny Hl']; subst.
    unfold lt at 1. destruct (PrimFloat.ltb (key y) (key x)) eqn:L.
    + constructor; [apply IH; exact Hl'|].
      apply (Permutation_Forall (Permutation_sym (insert_perm x l))).
      constructor; [apply FloatOrder.ltb_leb; exact L | exact Hy].
    + assert (PrimFloat.leb (key x) (key y) = true) as Hxy
        by (apply FloatOrder.not_ltb_leb; assumption).
      constructor; [constructor; assumption|].
      constructor; [exact Hxy|].
      rewrite Forall_forall in *. intros z Hz.
      exact (FloatOrder.leb_trans _ _ _ Hxy (Hy z Hz)).
Qed.

Lemma isort_ascending (l : list A) :
  ordered_keys l -> ascending (isort lt l).
Proof.
  intros Hl. induction Hl as [|x l Hx Hl IH]; [constructor|]. cbn [isort].
  apply insert_ascending; [exact Hx | | exact IH].
  exact (Permutation_Forall (Permutation_sym (isort_perm l)) Hl).
Qed.

Lemma ascending_rev (l : list A) : ascending l -> descending (rev l).
Proof.
  intros Hs. induction Hs as [|x l Hs IH Hx]; [constructor|]. cbn.
  assert (forall m, descending m ->
            Forall (fun y => PrimFloat.leb (key x) (key y) = true) m ->
            descending (m ++ [x])) as Happ.
  { intros m Hm. induction Hm as [|y m Hm IHm Hy]; intros Hall; cbn.
    - repeat constructor.
    - inversion Hall as [|? ? Hxy Hall']; subst.
      constructor; [apply IHm; exact Hall'|].
      apply Forall_app. split; [exact Hy | repeat constructor; exact Hxy]. }
  apply Happ; [exact IH | apply Forall_rev; exact Hx].
Qed.

Lemma sorted_descending (l : list A) :
  ordered_keys l -> descending (sorted lt true l).
Proof.
  intros Hl. unfold sorted. apply ascending_rev, isort_ascending.
  apply Forall_rev. exact Hl.
Qed.

(** Stability: the elements picked by [p] keep their order, as soon as
    no two of them compare strictly. *)
Lemma filter_insert (p : A -> bool) (x : A) (l : list A) :
  (forall y, p x = true -> p y = true -> lt y x = false) ->
  filter p (insert lt x l) = filter p (x :: l).
Proof.
  intros Hp. induction l as [|y l IH]; [reflexivity|]. cbn [insert].
  destruct (lt y x) eqn:L; [|reflexivity].
  cbn [filter] in *. rewrite IH.
  destruct (p x) eqn:Px, (p y) eqn:Py; try reflexivity.
  rewrite (Hp y eq_refl Py) in L. discriminate.
Qed.

Lemma filter_isort (p : A -> bool) (l : list A) :
  (forall x y, p x = true -> p y = true -> lt y x = false) ->
  filter p (isort lt l) = filter p l.
Proof.
  intros Hp. induction l as [|x l IH]; [reflexivity|]. cbn [isort].
  rewrite filter_insert by (intros y; apply Hp).
  cbn. rewrite IH. reflexivity.
Qed.

Lemma sorted_stable (reverse : bool) (v : float) (l : list A) :
  with_key v (sorted lt reverse l) = with_key v l.
Proof.
  assert (forall x y, PrimFloat.eqb (key x) v = true ->
            PrimFloat.eqb (key y) v = true -> lt y x = false) as Hp.
  { intros x y Hx Hy. unfold lt.
    apply FloatOrder.eqb_sym in Hx.
    exact (proj1 (FloatOrder.eqb_not_ltb _ _ (FloatOrder.eqb_trans _ _ _ Hy Hx))). }
  unfold with_key, sorted. destruct reverse.
  - rewrite filter_rev, filter_isort, filter_rev, rev_involutive by exact Hp.
    reflexivity.
  - apply filter_isort. exact Hp.
Qed.

(** The first [k] of a list keep, for every key, the first elements of
    the list with that key. *)
Lemma with_key_firstn (v : float) (k : nat) (l : list A) :
  exists rest, with_key v l = with_key v (firstn k l) ++ rest.
Proof.
  exists (with_key v (skipn k l)). unfold with_key.
  rewrite <- filter_app, firstn_skipn. reflexivity.
Qed.

(** [top] is the first [k] elements of the stable descending sort of
    [input]. *)
Definition top_k (k : nat) (input top : list A) : Prop :=
  exists all,
    top = firstn k all /\
    Permutation all input /\
    descending all /\
    (forall v, with_key v all = with_key v input) /\
    (forall v, exists rest, with_key v input = with_key v top ++ rest).

Lemma top_k_sorted (k : nat) (input : list A) :
  ordered_keys input -> top_k k input (firstn k (sorted lt true input)).
Proof.
  intros H. exists (sorted lt true input).
  split; [reflexivity|]. split; [apply sorted_perm|].
  split; [apply sorted_descending; exact H|].
  split; [intros v; apply sorted_stable|].
  intros v. rewrite <- (sorted_stable true v input). apply with_key_firstn.
Qed.

End ByKey.

(** *** Minimum, maximum and median of a list of floats *)

Lemma py_min_spec (l : list float) (lo : float) :
  SortFacts.ordered_keys (fun x => x) l -> py_min l = inr lo ->
  In lo l /\ Forall (fun x => PrimFloat.leb lo x = true) l.
Proof.
  destruct l as [|x l]; [discriminate|]. cbn. intros Hl H.
  inversion H as [E]; clear H. inversion Hl as [|? ? Hx Hl']; subst.
  assert (forall seen m,
    In m seen -> PrimFloat.is_nan m = false ->
    Forall (fun y => PrimFloat.leb m y = true) seen ->
    let r := fold_left (fun m y => if PrimFloat.ltb y m then y else m) l m in
    In r (seen ++ l) /\ Forall (fun y => PrimFloat.leb r y = true) (seen ++ l))
    as G.
  { clear Hx Hl. induction Hl' as [|y l Hy _ IH]; intros seen m Hin Hm Hall; cbn.
    - rewrite app_nil_r. split; assumption.
    - replace (seen ++ y :: l) with ((seen ++ [y]) ++ l)
        by (rewrite <- app_assoc; reflexivity).
      destruct (PrimFloat.ltb y m) eqn:L.
      + apply IH.
        * apply in_or_app. right. left. reflexivity.
        * exact Hy.
        * apply Forall_app. split.
          -- rewrite Forall_forall in *. intros z Hz.
             exact (FloatOrder.leb_trans _ _ _ (FloatOrder.ltb_leb _ _ L) (Hall z Hz)).
          -- repeat constructor. apply FloatOrder.leb_refl. exact Hy.
      + apply IH.
        * apply in_or_app. left. exact Hin.
        * exact Hm.
        * apply Forall_app. split; [exact Hall|].
          repeat constructor. apply FloatOrder.not_ltb_leb; assumption. }
  apply (G [x] x); [left; reflexivity | exact Hx |].
  repeat constructor. apply FloatOrder.leb_refl. exact Hx.
Qed.

Lemma py_max_spec (l : list float) (hi : float) :
  SortFacts.ordered_keys (fun x => x) l -> py_max l = inr hi ->
  In hi l /\ Forall (fun x => PrimFloat.leb x hi = true) l.
Proof.
  destruct l as [|x l]; [discriminate|]. cbn. intros Hl H.
  inversion H as [E]; clear H. inversion Hl as [|? ? Hx Hl']; subst.
  assert (forall seen m,
    In m seen -> PrimFloat.is_nan m = false ->
    Forall (fun y => PrimFloat.leb y m = true) seen ->
    let r := fold_left (fun m y => if PrimFloat.ltb m y then y else m) l m in
    In r (seen ++ l) /\ Forall (fun y => PrimFloat.leb y r = true) (seen ++ l))
    as G.
  { clear Hx Hl. induction Hl' as [|y l Hy _ IH]; intros seen m Hin Hm Hall; cbn.
    - rewrite app_nil_r. split; assumption.
    - replace (seen ++ y :: l) with ((seen ++ [y]) ++ l)
        by (rewrite <- app_assoc; reflexivity).
      destruct (PrimFloat.ltb m y) eqn:L.
      + apply IH.
        * apply in_or_app. right. left. reflexivity.
        * exact Hy.
        * apply Forall_app. split.
          -- rewrite Forall_forall in *. intros z Hz.
             exact (FloatOrder.leb_trans _ _ _ (Hall z Hz) (FloatOrder.ltb_leb _ _ L)).
          -- repeat constructor. apply FloatOrder.leb_refl. exact Hy.
      + apply IH.
        * apply in_or_app. left. exact Hin.
        * exact Hm.
        * apply Forall_app. split; [exact Hall|].
          repeat constructor. apply FloatOrder.not_ltb_leb; assumption. }
  apply (G [x] x); [left; reflexivity | exact Hx |].
  repeat constructor. apply FloatOrder.leb_refl. exact Hx.
Qed.

Lemma median_defined (l : list float) :
  l <> [] ->
  exists med,
    median l = inr med /\
    nth_error (sorted PrimFloat.ltb false l) (List.length l / 2) = Some med /\
    In med l.
Proof.
  intros Hne. unfold median, getitem. cbn [sorted].
  assert (List.length (isort PrimFloat.ltb l) = List.length l) as Hlen
    by (apply Permutation_length, (isort_perm (fun x => x))).
  rewrite Hlen.
  destruct (nth_error (isort PrimFloat.ltb l) (List.length l / 2)) as [med|] eqn:E.
  - exists med. repeat split.
    apply nth_error_In in E.
    exact (Permutation_in _ (isort_perm (fun x => x) l) E).
  - apply nth_error_None in E. rewrite Hlen in E.
    destruct l as [|x l]; [contradiction|]. cbn [List.length] in E.
    pose proof (Nat.div_lt (S (List.length l)) 2). lia.
Qed.

End SortFacts.

(** ** The running maximum

    Both read passes keep the largest spread seen so far and the row it
    came from in the same way. The facts are proved once, for a loop
    body seen through three projections of its store. *)

Module Running.
Import Py Stmt.

Section Loop.
Context {S : Type}.
Variable sp : S -> list float.
Variable mx : S -> float.
Variable en : S -> option row.
Variable body : row -> M S unit.

(** [effect r] is the spread that row [r] brings in, if it brings any. *)
Variable effect : row -> option float.

Hypothesis body_spec : forall r s,
  match effect r with
  | None =>
      sp (snd (body r s)) = sp s /\
      mx (snd (body r s)) = mx s /\
      en (snd (body r s)) = en s
  | Some x =>
      fst (body r s) = inr tt /\
      sp (snd (body r s)) = sp s ++ [x] /\
      mx (snd (body r s)) = (if PrimFloat.ltb (mx s) x then x else mx s) /\
      en (snd (body r s)) = (if PrimFloat.ltb (mx s) x then Some r else en s)
  end.

Lemma for_each_inv_in (P : S -> Prop) (xs : list row) :
  (forall x s, In x xs -> P s -> P (snd (body x s))) ->
  forall s, P s -> P (snd (for_each xs body s)).
Proof.
  induction xs as [|x xs IH]; intros Hbody s Hs; [exact Hs|].
  rewrite for_each_cons.
  assert (P (snd (body x s))) as Hx by (apply Hbody; [left; reflexivity | exact Hs]).
  destruct (body x s) as [[e|[]] s']; cbn in *; [exact Hx|].
  apply IH; [|exact Hx].
  intros y t Hy. apply Hbody. right. exact Hy.
Qed.

(** The retained row brought in the running maximum, which is above
    zero and is one of the spreads read; with no row retained the
    running maximum is still the initial [0]. *)
Definition tracked (s : S) : Prop :=
  (en s = None /\ mx s = 0%float) \/
  (exists r, en s = Some r /\ effect r = Some (mx s) /\
             PrimFloat.ltb 0 (mx s) = true /\ In (mx s) (sp s)).

Lemma tracked_step (r : row) (s : S) : tracked s -> tracked (snd (body r s)).
Proof.
  intros H. pose proof (body_spec r s) as Hb. unfold tracked.
  destruct (effect r) as [x|] eqn:Ex.
  - destruct Hb as (_ & Hsp & Hmx & Hen). rewrite Hsp, Hmx, Hen.
    destruct (PrimFloat.ltb (mx s) x) eqn:L.
    + right. exists r. repeat split; try assumption; try reflexivity.
      * destruct H as [[_ Hz]|(r' & _ & _ & Hpos & _)].
        -- rewrite Hz in L. exact L.
        -- exact (FloatOrder.ltb_trans _ _ _ Hpos L).
      * apply in_or_app. right. left. reflexivity.
    + destruct H as [H|(r' & H1 & H2 & H3 & H4)]; [left; exact H|].
      right. exists r'. repeat split; try assumption.
      apply in_or_app. left. exact H4.
  - destruct Hb as (Hsp & Hmx & Hen). rewrite Hsp, Hmx, Hen. exact H.
Qed.

Lemma tracked_loop (rows : list row) (s : S) :
  tracked s -> tracked (snd (for_each rows body s)).
Proof.
  apply for_each_inv. intros x t. apply tracked_step.
Qed.

(** With every spread read at most zero, no row is retained. *)
Lemma none_retained (s : S) :
  tracked s ->
  Forall (fun x => PrimFloat.leb x 0 = true) (sp s) ->
  en s = None.
Proof.
  intros [[H _]|(r & _ & _ & Hpos & Hin)] Hall; [exact H|].
  rewrite Forall_forall in Hall. specialize (Hall _ Hin).
  apply FloatOrder.leb_not_ltb in Hall. congruence.
Qed.

(** The first row that brings in the largest spread, when that spread
    is above the running maximum the loop starts from, is the row
    retained: the rows before it bring in nothing that is as large, the
    rows after it nothing that is larger. *)
Lemma first_max_retained (pre post : list row) (r : row) (x : float) (s0 : S) :
  effect r = Some x ->
  PrimFloat.ltb (mx s0) x = true ->
  (forall r' x', In r' pre -> effect r' = Some x' -> PrimFloat.leb x x' = false) ->
  (forall r' x', In r' post -> effect r' = Some x' -> PrimFloat.ltb x x' = false) ->
  fst (for_each pre body s0) = inr tt ->
  en (snd (for_each (pre ++ r :: post) body s0)) = Some r /\
  mx (snd (for_each (pre ++ r :: post) body s0)) = x.
Proof.
  intros Hr Hlt Hpre Hpost Hok.
  destruct (FloatOrder.ltb_true_nan _ _ Hlt) as [_ Hx].
  assert (PrimFloat.ltb (mx (snd (for_each pre body s0))) x = true) as Hbelow.
  { apply (for_each_inv_in (fun s => PrimFloat.ltb (mx s) x = true)); [|exact Hlt].
    intros r' s Hin Hs. pose proof (body_spec r' s) as Hb.
    destruct (effect r') as [x'|] eqn:Er.
    - destruct Hb as (_ & _ & Hmx & _). rewrite Hmx.
      destruct (PrimFloat.ltb (mx s) x') eqn:L; [|exact Hs].
      destruct (FloatOrder.ltb_true_nan _ _ L) as [_ Hx'].
      specialize (Hpre _ _ Hin Er).
      destruct (PrimFloat.ltb x' x) eqn:L'; [reflexivity|].
      rewrite (FloatOrder.not_ltb_leb _ _ Hx Hx' L') in Hpre. discriminate.
    - destruct Hb as (_ & Hmx & _). rewrite Hmx. exact Hs. }
  rewrite for_each_app.
  destruct (for_each pre body s0) as [[e|[]] s1]; cbn in Hok, Hbelow;
    [discriminate|].
  rewrite for_each_cons.
  pose proof (body_spec r s1) as Hb. rewrite Hr in Hb.
  destruct Hb as (Hfst & _ & Hmx & Hen). rewrite Hbelow in Hmx, Hen.
  destruct (body r s1) as [[e|[]] s2]; cbn in Hfst, Hmx, Hen; [discriminate|].
  apply (for_each_inv_in (fun s => en s = Some r /\ mx s = x));
    [|split; assumption].
  intros r' s Hin [Hs1 Hs2]. pose proof (body_spec r' s) as Hb.
  destruct (effect r') as [x'|] eqn:Er.
  - destruct Hb as (_ & _ & Hmx' & Hen'). rewrite Hmx', Hen', Hs2.
    rewrite (Hpost _ _ Hin Er). split; [exact Hs1 | reflexivity].
  - destruct Hb as (_ & Hmx' & Hen'). rewrite Hmx', Hen'. split; assumption.
Qed.

End Loop.
End Running.

(** ** The read pass of the defensive script *)

Module V2Facts.
Import Py Common Stmt V2.
Local Open Scope py_scope.

Section Facts.
Variable B : Builtins.

Definition bump (st : state) : state :=
  set_total_scans (total_scans st + 1) st.

(** The store after lines 43-68. *)
Definition update (row : row) (f : fields) (st : state) : state := {|
  spreads := spreads st ++ [spread f];
  eth_prices := eth_prices st ++ [eth_price f];
  gas_prices := gas_prices st ++ [gas_gwei f];
  opportunities :=
    if has_opp f =? 1 then opportunities st + 1 else opportunities st;
  total_scans := total_scans st;
  reject_reasons :=
    if truthy (reject_reason f)
    then dict_incr (reject_reasons st) (reject_reason f)
    else reject_reasons st;
  pair_spreads := dict_append (pair_spreads st) (pair f) (spread f);
  max_spread_entry :=
    if PrimFloat.ltb (max_spread st) (spread f) then Some row
    else max_spread_entry st;
  max_spread :=
    if PrimFloat.ltb (max_spread st) (spread f) then spread f
    else max_spread st;
  time_spreads := time_spreads st ++ [f];
  high_spread_cases :=
    if PrimFloat.leb 0.17 (spread f) && (has_opp f =? 0)
    then high_spread_cases st ++
         [{| case_timestamp := timestamp f; case_pair := pair f;
             case_spread := spread f;
             case_reject_reason := reject_reason f;
             case_eth_price := eth_price f;
             case_gas_gwei := gas_gwei f |}]
    else high_spread_cases st
|}.

Lemma aggregate_spec (row : row) (f : fields) (st : state) :
  aggregate row f st = (inr tt, update row f st).
Proof.
  unfold aggregate, update, when, modify, get. cbn.
  destruct (has_opp f =? 1), (truthy (reject_reason f)),
    (PrimFloat.leb 0.17 (spread f)), (has_opp f =? 0); cbn;
  destruct (PrimFloat.ltb (max_spread st) (spread f)); reflexivity.
Qed.

Lemma convert_raises (row : row) :
  only (fun e => e = ValueError \/ e = IndexError) (convert B row).
Proof. unfold convert, to_int, to_float. only_tac. Qed.

(** One row of the loop, as a function on stores. *)
Definition step (row : row) (st : state) : state :=
  if len row <? 29 then st
  else match convert B row with
       | inl _ => bump st
       | inr f => update row f (bump st)
       end.

Lemma process_row_spec (row : row) (st : state) :
  process_row B row st = (inr tt, step row st).
Proof.
  unfold process_row, step.
  destruct (len row <? 29); [reflexivity|].
  pose proof (convert_raises row) as Hc.
  destruct (convert B row) as [e|f]; unfold try_except, lift, modify;
    cbn [bind Monad_M].
  - destruct (Hc e eq_refl) as [-> | ->]; reflexivity.
  - fold (bump st). rewrite aggregate_spec. reflexivity.
Qed.

Definition run (data : list row) (st : state) : state :=
  fold_left (fun s r => step r s) data st.

Lemma read_pass_spec (header : row) (data : list row) :
  read_pass B (header :: data) init = (inr tt, run data init).
Proof. apply for_each_fold. apply process_row_spec. Qed.

Lemma truthy_false (s : string) : truthy s = false -> s = ""%string.
Proof. destruct s; [reflexivity | discriminate]. Qed.

Lemma truthy_true (s : string) : truthy s = true -> s <> ""%string.
Proof. destruct s; [discriminate | intros _ H; discriminate H]. Qed.

(** The fields of a converted row that are copied from it. *)
Lemma convert_fields (row : row) (f : fields) :
  (len row <? 29) = false -> convert B row = inr f ->
  timestamp f = nth 0 row ""%string /\
  pair f = nth 2 row ""%string /\
  reject_reason f = strip (nth 5 row ""%string).
Proof.
  intros Hlen. unfold convert.
  rewrite !getitem_lt by (apply len_ge; [exact Hlen | lia]).
  assert ((5 <? len row) = true) as -> by (apply Z.ltb_ge in Hlen; apply Z.ltb_lt; lia).
  assert ((27 <? len row) = true) as -> by (apply Z.ltb_ge in Hlen; apply Z.ltb_lt; lia).
  assert ((28 <? len row) = true) as -> by (apply Z.ltb_ge in Hlen; apply Z.ltb_lt; lia).
  cbn [bind ret Monad_E].
  destruct (if truthy (nth 1 row ""%string) then _ else _) as [?|v1];
    [discriminate|].
  destruct (if truthy (nth 3 row ""%string) then _ else _) as [?|v3];
    [discriminate|].
  destruct (if truthy (nth 4 row ""%string) then _ else _) as [?|v4];
    [discriminate|].
  destruct (if truthy (nth 27 row ""%string) then _ else _) as [?|v27];
    [discriminate|].
  destruct (if truthy (nth 28 row ""%string) then _ else _) as [?|v28];
    [discriminate|].
  intros H. inversion H; subst; clear H. cbn.
  repeat split.
  destruct (truthy (nth 5 row ""%string)) eqn:T; [reflexivity|].
  apply truthy_false in T. rewrite T. reflexivity.
Qed.

(** One row leaves the table of reject reasons alone or counts the
    trimmed reason of the row, which is then not empty. *)
Lemma step_reject_reasons (row : row) (st : state) :
  reject_reasons (step row st) = reject_reasons st \/
  (strip (nth 5 row ""%string) <> ""%string /\
   reject_reasons (step row st) =
     dict_incr (reject_reasons st) (strip (nth 5 row ""%string))).
Proof.
  unfold step. destruct (len row <? 29) eqn:Hlen; [left; reflexivity|].
  destruct (convert B row) as [e|f] eqn:Hc; [left; reflexivity|].
  destruct (convert_fields row f Hlen Hc) as (_ & _ & Hr).
  cbn. destruct (truthy (reject_reason f)) eqn:T; [|left; reflexivity].
  right. rewrite <- Hr. split; [apply truthy_true; exact T | reflexivity].
Qed.

(** The spread that a row brings into the aggregates: none for a row
    that is too short or that does not convert. *)
Definition spread_of (row : row) : option float :=
  if len row <? 29 then None
  else match convert B row with
       | inr f => Some (spread f)
       | inl _ => None
       end.

Lemma running_body (r : row) (s : state) :
  match spread_of r with
  | None =>
      spreads (snd (process_row B r s)) = spreads s /\
      max_spread (snd (process_row B r s)) = max_spread s /\
      max_spread_entry (snd (process_row B r s)) = max_spread_entry s
  | Some x =>
      fst (process_row B r s) = inr tt /\
      spreads (snd (process_row B r s)) = spreads s ++ [x] /\
      max_spread (snd (process_row B r s))
        = (if PrimFloat.ltb (max_spread s) x then x else max_spread s) /\
      max_spread_entry (snd (process_row B r s))
        = (if PrimFloat.ltb (max_spread s) x then Some r else max_spread_entry s)
  end.
Proof.
  rewrite process_row_spec. unfold spread_of, step.
  destruct (len r <? 29); [repeat split|].
  destruct (convert B r) as [e|f]; repeat split.
Qed.

(** With no row retained, the report prints nothing of lines 139-145. *)
Lemma report_without_top_case (st : state) :
  max_spread_entry st = None ->
  Output.emits (fun n => ~ (139 <= n <= 145)%nat) (report B st).
Proof.
  intros Hnone.
  unfold report, print_top_case, print_pairs, print_rejects,
    print_distribution, print_top20, print_high, print_conclusion, hours.
  rewrite Hnone. cbv zeta.
  Output.emits_tac; lia.
Qed.

(** The statistics of lines 73-94 never raise. *)
Lemma summary_ok (l : list float) : exists v, summary B l = inr v.
Proof.
  unfold summary. destruct l as [|x l]; [eexists; reflexivity|].
  cbn [nonempty]. unfold float_div_int.
  assert ((len (x :: l) =? 0) = false) as ->
    by (apply Z.eqb_neq; unfold len; cbn [List.length]; lia).
  cbn. eexists. reflexivity.
Qed.

Lemma median_spread_ok (l : list float) : exists v, median_spread l = inr v.
Proof.
  unfold median_spread. destruct l as [|x l]; [eexists; reflexivity|].
  cbn [nonempty].
  destruct (SortFacts.median_defined (x :: l)) as (med & H & _);
    [discriminate | exists med; exact H].
Qed.

(** The duration as a function of the two time stamps: zero as soon as
    one of them is not read or the difference is not defined. *)
Definition hours_of (first_time last_time : string) : float :=
  match fromisoformat B (replace "Z" "+00:00" first_time),
        fromisoformat B (replace "Z" "+00:00" last_time) with
  | Some first_dt, Some last_dt =>
      match dt_sub B last_dt first_dt with
      | Some duration => PrimFloat.div (total_seconds B duration) (float_of_Z 3600)
      | None => 0%float
      end
  | _, _ => 0%float
  end.



(** The library [B] with other [datetime] operations. *)
Definition with_datetime (D T : Type) (iso : string -> option D)
    (sub : D -> D -> option T) (secs : T -> float) : Builtins := {|
  py_float := py_float B;
  py_int := py_int B;
  py_sum := py_sum B;
  datetime := D;
  timedelta := T;
  fromisoformat := iso;
  dt_sub := sub;
  total_seconds := secs
|}.


Lemma hours_total (B' : Builtins) (ts : list fields) (out : stdout) :
  exists h, hours B' ts out = (inr h, out).
Proof.
  destruct ts as [|f ts]; [eexists; reflexivity|].
  unfold hours. cbn [nonempty]. unfold getitem, getlast.
  rewrite (nth_error_last (f :: ts) f) by discriminate.
  cbn [nth_error of_option]. unfold lift, try_except_all.
  cbn [bind Monad_M].
  destruct (duration_hours B' _ _); eexists; reflexivity.
Qed.

(** How the report ends does not depend on the [datetime] operations:
    they only decide the number printed on line 116. *)
Lemma report_ends_alike D T iso sub secs (st : state) :
  Output.ends_alike eq (report B st)
    (report (with_datetime D T iso sub secs) st).
Proof.
  unfold report, print_top_case, print_pairs, print_rejects,
    print_distribution, print_top20, print_high, print_conclusion,
    summary, to_float.
  cbn [with_datetime py_sum py_float py_int].
  do 4 (apply (Output.alike_bind eq); [apply Output.alike_lift | intros ? ? <-]).
  apply (Output.alike_bind (fun _ _ => True)).
  { intros out out'.
    destruct (hours_total B (time_spreads st) out) as [h ->].
    destruct (hours_total (with_datetime D T iso sub secs) (time_spreads st) out')
      as [h' ->].
    exact I. }
  intros h h' _. cbv zeta.
  destruct (max_spread_entry st); Output.alike_tac.
Qed.

End Facts.
End V2Facts.

(** ** The read pass of the strict script *)

Module V1Facts.
Import Py Common Stmt V1.
Local Open Scope py_scope.

Section Facts.
Variable B : Builtins.

Definition bump (st : state) : state :=
  set_total_scans (total_scans st + 1) st.

(** The store after lines 34-47. *)
Definition update (row : row) (f : entry) (has_opp : Z) (st : state)
    : state := {|
  spreads := spreads st ++ [spread f];
  eth_prices := eth_prices st ++ [eth_price f];
  opportunities :=
    if has_opp =? 1 then opportunities st + 1 else opportunities st;
  total_scans := total_scans st;
  reject_reasons :=
    if truthy (reject_reason f)
    then dict_incr (reject_reasons st) (reject_reason f)
    else reject_reasons st;
  pair_spreads := dict_append (pair_spreads st) (pair f) (spread f);
  max_spread_entry :=
    if PrimFloat.ltb (max_spread st) (spread f) then Some row
    else max_spread_entry st;
  max_spread :=
    if PrimFloat.ltb (max_spread st) (spread f) then spread f
    else max_spread st;
  time_spreads := time_spreads st ++ [f]
|}.

Lemma strict_aggregate_spec (row : row) (f : entry) (h : Z) (st : state) :
  aggregate row f h st = (inr tt, update row f h st).
Proof.
  unfold aggregate, update, when, modify, get. cbn.
  destruct (h =? 1), (truthy (reject_reason f)); cbn;
  destruct (PrimFloat.ltb (max_spread st) (spread f)); reflexivity.
Qed.

(** What one row does: nothing to a short row; a raise after the
    count when a conversion fails; the updates otherwise. *)
Definition step (row : row) (st : state) : (exn + unit) * state :=
  if len row <? 29 then (inr tt, st)
  else match convert B row with
       | inl e => (inl e, bump st)
       | inr c => (inr tt, update row (fst c) (snd c) (bump st))
       end.

Lemma strict_process_row_spec (row : row) (st : state) :
  process_row B row st = step row st.
Proof.
  unfold process_row, step.
  destruct (len row <? 29); [reflexivity|].
  destruct (convert B row) as [e|c]; unfold lift, modify; cbn [bind Monad_M].
  - reflexivity.
  - fold (bump st). rewrite strict_aggregate_spec. reflexivity.
Qed.

(** A row that the strict script cannot convert: the spread, the
    opportunity flag or the ETH price is not a number. *)
Definition malformed (row : row) : Prop :=
  py_float B (nth 3 row ""%string) = None \/
  py_int B (nth 4 row ""%string) = None \/
  py_float B (nth 27 row ""%string) = None.

Lemma convert_long (row : row) :
  (len row <? 29) = false ->
  (malformed row /\ convert B row = inl ValueError) \/
  (~ malformed row /\ exists c, convert B row = inr c).
Proof.
  intros Hlen. unfold convert, malformed.
  rewrite !getitem_lt by (apply len_ge; [exact Hlen | lia]).
  unfold to_float, to_int. cbn [bind ret Monad_E].
  destruct (py_float B (nth 3 row ""%string)); cbn; [|left; auto].
  destruct (py_int B (nth 4 row ""%string)); cbn; [|left; auto].
  destruct (py_float B (nth 27 row ""%string)); cbn; [|left; auto].
  right. split; [|eexists; reflexivity].
  intros [H|[H|H]]; discriminate H.
Qed.

Definition bad (row : row) : Prop := 29 <= len row /\ malformed row.

(** The loop stops at the first bad row, with that row counted. *)
Lemma read_pass_stops (rows : list row) (s : state) :
  Exists bad rows ->
  exists pre row post st,
    rows = pre ++ row :: post /\ bad row /\
    for_each pre (process_row B) s = (inr tt, st) /\
    for_each rows (process_row B) s = (inl ValueError, bump st).
Proof.
  revert s. induction rows as [|r rows IH]; intros s Hex.
  - inversion Hex.
  - destruct (len r <? 29) eqn:Hlen.
    + assert (Exists bad rows) as Hrest.
      { inversion Hex as [? ? [Hl _]|]; subst; [|assumption].
        apply Z.ltb_lt in Hlen. lia. }
      destruct (IH s Hrest) as (pre & row & post & st & -> & Hbad & Hpre & Hall).
      exists (r :: pre), row, post, st.
      split; [reflexivity|]. split; [exact Hbad|]. split.
      * rewrite for_each_cons, strict_process_row_spec. unfold step. rewrite Hlen. exact Hpre.
      * rewrite for_each_cons, strict_process_row_spec. unfold step. rewrite Hlen. exact Hall.
    + destruct (convert_long r Hlen) as [[Hm Hc]|[Hm [c Hc]]].
      * exists [], r, rows, s.
        split; [reflexivity|]. split; [|split; [reflexivity|]].
        -- split; [apply Z.ltb_ge in Hlen; exact Hlen | exact Hm].
        -- rewrite for_each_cons, strict_process_row_spec. unfold step. rewrite Hlen, Hc.
           reflexivity.
      * assert (Exists bad rows) as Hrest.
        { inversion Hex as [? ? [_ Hb]|]; subst; [contradiction|assumption]. }
        destruct (IH (update r (fst c) (snd c) (bump s)) Hrest)
          as (pre & row & post & st & -> & Hbad & Hpre & Hall).
        exists (r :: pre), row, post, st.
      split; [reflexivity|]. split; [exact Hbad|]. split.
        -- rewrite for_each_cons, strict_process_row_spec. unfold step. rewrite Hlen, Hc.
           exact Hpre.
        -- rewrite for_each_cons, strict_process_row_spec. unfold step. rewrite Hlen, Hc.
           exact Hall.
Qed.

Lemma strict_convert_fields (row : row) (c : entry * Z) :
  (len row <? 29) = false -> convert B row = inr c ->
  timestamp (fst c) = nth 0 row ""%string /\
  pair (fst c) = nth 2 row ""%string /\
  reject_reason (fst c) = strip (nth 5 row ""%string) /\
  py_float B (nth 3 row ""%string) = Some (spread (fst c)).
Proof.
  intros Hlen. unfold convert.
  rewrite !getitem_lt by (apply len_ge; [exact Hlen | lia]).
  unfold to_float, to_int. cbn [bind ret Monad_E].
  destruct (py_float B (nth 3 row ""%string)); cbn; [|discriminate].
  destruct (py_int B (nth 4 row ""%string)); cbn; [|discriminate].
  destruct (py_float B (nth 27 row ""%string)); cbn; [|discriminate].
  intros H. inversion H; subst; clear H. cbn.
  repeat split.
  destruct (truthy (nth 5 row ""%string)) eqn:T; [reflexivity|].
  apply V2Facts.truthy_false in T. rewrite T. reflexivity.
Qed.

Lemma strict_step_reject_reasons (row : row) (st : state) :
  reject_reasons (snd (step row st)) = reject_reasons st \/
  (strip (nth 5 row ""%string) <> ""%string /\
   reject_reasons (snd (step row st)) =
     dict_incr (reject_reasons st) (strip (nth 5 row ""%string))).
Proof.
  unfold step. destruct (len row <? 29) eqn:Hlen; [left; reflexivity|].
  destruct (convert B row) as [e|c] eqn:Hc; [left; reflexivity|].
  destruct (strict_convert_fields row c Hlen Hc) as (_ & _ & Hr & _).
  cbn. destruct (truthy (reject_reason (fst c))) eqn:T; [|left; reflexivity].
  right. rewrite <- Hr.
  split; [apply V2Facts.truthy_true; exact T | reflexivity].
Qed.

(** The spread that a row brings into the aggregates: none for a row
    that is too short or that does not convert. *)
Definition spread_of (row : row) : option float :=
  if len row <? 29 then None
  else match convert B row with
       | inr c => Some (spread (fst c))
       | inl _ => None
       end.

Lemma strict_running_body (r : row) (s : state) :
  match spread_of r with
  | None =>
      spreads (snd (process_row B r s)) = spreads s /\
      max_spread (snd (process_row B r s)) = max_spread s /\
      max_spread_entry (snd (process_row B r s)) = max_spread_entry s
  | Some x =>
      fst (process_row B r s) = inr tt /\
      spreads (snd (process_row B r s)) = spreads s ++ [x] /\
      max_spread (snd (process_row B r s))
        = (if PrimFloat.ltb (max_spread s) x then x else max_spread s) /\
      max_spread_entry (snd (process_row B r s))
        = (if PrimFloat.ltb (max_spread s) x then Some r else max_spread_entry s)
  end.
Proof.
  rewrite strict_process_row_spec. unfold spread_of, step.
  destruct (len r <? 29); [repeat split|].
  destruct (convert B r) as [e|c]; repeat split.
Qed.

(** With no row retained, the report prints nothing of lines 77-84. *)
Lemma strict_report_without_top_case (st : state) :
  max_spread_entry st = None ->
  Output.emits (fun n => ~ (77 <= n <= 84)%nat) (report B st).
Proof.
  intros Hnone.
  unfold report, print_top_case, print_pairs, print_rejects,
    print_distribution, print_top10.
  rewrite Hnone. cbv zeta.
  Output.emits_tac; lia.
Qed.

End Facts.
End V1Facts.

(** ** The spread distribution *)

Module Histogram.
Import Py Common Stmt.

Definition label (r : string * float * float) : string := fst (fst r).
Definition low (r : string * float * float) : float := snd (fst r).
Definition high (r : string * float * float) : float := snd r.

(** [s] lies in the half-open interval of the range [r]. *)
Definition holds (s : float) (r : string * float * float) : bool :=
  PrimFloat.leb (low r) s && PrimFloat.ltb s (high r).

(** The label of the first range, in the order of the list, that holds
    [s]. *)
Definition bucket_of (ranges : list (string * float * float)) (s : float)
    : option string :=
  option_map label (find (holds s) ranges).

Definition in_bucket (ranges : list (string * float * float)) (s : float)
    : bool :=
  match bucket_of ranges s with Some _ => true | None => false end.

(** The sum of the counts that the report prints, one per range. *)
Definition total (ranges : list (string * float * float)) (counts : dict Z)
    : Z :=
  fold_right Z.add 0 (map (fun r => count_of counts (label r)) ranges).

Lemma count_one_bucket ranges s counts :
  count_one ranges s counts =
  match bucket_of ranges s with
  | Some l => dict_incr counts l
  | None => counts
  end.
Proof.
  unfold bucket_of. induction ranges as [|[[l lo] hi] ranges IH]; [reflexivity|].
  cbn [count_one find]. unfold holds at 1, low, high. cbn [fst snd].
  destruct (PrimFloat.leb lo s && PrimFloat.ltb s hi); [reflexivity | exact IH].
Qed.

Lemma bucket_of_in ranges s l :
  bucket_of ranges s = Some l ->
  exists r, In r ranges /\ label r = l /\ holds s r = true.
Proof.
  unfold bucket_of. destruct (find (holds s) ranges) as [r|] eqn:E; [|discriminate].
  intros H. inversion H. apply find_some in E. exists r. tauto.
Qed.

Lemma count_of_incr counts l l' :
  count_of (dict_incr counts l) l' =
  count_of counts l' + (if String.eqb l l' then 1 else 0).
Proof.
  unfold count_of, dict_incr. rewrite dict_get_set.
  destruct (String.eqb l l') eqn:E.
  - apply String.eqb_eq in E. subst l'. reflexivity.
  - lia.
Qed.

Lemma total_incr_out ranges counts l :
  ~ In l (map label ranges) ->
  total ranges (dict_incr counts l) = total ranges counts.
Proof.
  unfold total. induction ranges as [|r ranges IH]; [reflexivity|].
  cbn. intros H. rewrite count_of_incr.
  destruct (String.eqb l (label r)) eqn:E.
  - apply String.eqb_eq in E. exfalso. apply H. left. symmetry. exact E.
  - rewrite IH by tauto. lia.
Qed.

Lemma total_incr ranges counts l :
  NoDup (map label ranges) -> In l (map label ranges) ->
  total ranges (dict_incr counts l) = total ranges counts + 1.
Proof.
  unfold total. induction ranges as [|r ranges IH]; [intros _ []|].
  cbn. intros Hnd Hin. inversion Hnd as [|? ? Hnot Hnd']; subst.
  rewrite count_of_incr. destruct (String.eqb l (label r)) eqn:E.
  - apply String.eqb_eq in E. subst l.
    pose proof (total_incr_out ranges counts (label r) Hnot) as H.
    unfold total in H. rewrite H. lia.
  - destruct Hin as [Hin|Hin].
    + apply String.eqb_neq in E. congruence.
    + rewrite IH by assumption. lia.
Qed.

Lemma count_of_init ranges l : count_of (init_counts ranges) l = 0.
Proof.
  unfold init_counts.
  assert (forall d, count_of d l = 0 ->
            count_of (fold_left (fun d r => dict_set d (fst (fst r)) 0) ranges d) l = 0)
    as H.
  { induction ranges as [|r ranges IH]; intros d Hd; [exact Hd|].
    cbn. apply IH. unfold count_of in *. rewrite dict_get_set.
    destruct (String.eqb (fst (fst r)) l); [reflexivity | exact Hd]. }
  apply H. reflexivity.
Qed.

Lemma total_init ranges : total ranges (init_counts ranges) = 0.
Proof.
  unfold total. generalize (init_counts ranges) (count_of_init ranges).
  intros c Hc. induction ranges as [|r rest IH]; [reflexivity|].
  cbn. rewrite Hc, IH. reflexivity.
Qed.

Lemma total_count_one ranges s counts :
  NoDup (map label ranges) ->
  total ranges (count_one ranges s counts) =
  total ranges counts + (if in_bucket ranges s then 1 else 0).
Proof.
  intros Hnd. rewrite count_one_bucket. unfold in_bucket.
  destruct (bucket_of ranges s) as [l|] eqn:E; [|lia].
  apply total_incr; [exact Hnd|].
  destruct (bucket_of_in _ _ _ E) as (r & Hin & <- & _).
  apply in_map. exact Hin.
Qed.

Lemma total_histogram ranges spreads :
  NoDup (map label ranges) ->
  total ranges (histogram ranges spreads) =
  len (filter (in_bucket ranges) spreads).
Proof.
  intros Hnd. unfold histogram.
  assert (forall c,
    total ranges (fold_left (fun counts s => count_one ranges s counts) spreads c)
    = total ranges c + len (filter (in_bucket ranges) spreads)) as H.
  { induction spreads as [|s spreads IH]; intros c; [cbn; lia|].
    cbn [fold_left filter]. rewrite IH, total_count_one by exact Hnd.
    unfold len. destruct (in_bucket ranges s); cbn [List.length]; lia. }
  rewrite H, total_init. lia.
Qed.

(** A spread below every floor, or at or above every ceiling, is in no
    bucket. *)
Lemma below_floor ranges s :
  Forall (fun r => PrimFloat.leb 0 (low r) = true) ranges ->
  PrimFloat.ltb s 0 = true -> bucket_of ranges s = None.
Proof.
  intros Hall Hs. unfold bucket_of.
  destruct (find (holds s) ranges) as [r|] eqn:E; [|reflexivity].
  apply find_some in E. destruct E as [Hin Hh].
  rewrite Forall_forall in Hall. specialize (Hall _ Hin).
  unfold holds in Hh. apply andb_prop in Hh. destruct Hh as [Hlo _].
  pose proof (FloatOrder.leb_ltb_trans _ _ _ Hlo Hs) as H.
  apply FloatOrder.leb_not_ltb in Hall. congruence.
Qed.

Lemma above_ceiling ranges s :
  Forall (fun r => PrimFloat.leb (high r) 999 = true) ranges ->
  PrimFloat.leb 999 s = true -> bucket_of ranges s = None.
Proof.
  intros Hall Hs. unfold bucket_of.
  destruct (find (holds s) ranges) as [r|] eqn:E; [|reflexivity].
  apply find_some in E. destruct E as [Hin Hh].
  rewrite Forall_forall in Hall. specialize (Hall _ Hin).
  unfold holds in Hh. apply andb_prop in Hh. destruct Hh as [_ Hhi].
  pose proof (FloatOrder.leb_ltb_trans _ _ _ Hs Hhi) as H.
  apply FloatOrder.leb_not_ltb in Hall. congruence.
Qed.

(** What C5 says of a list of ranges. *)
Definition counts_each_spread_once (ranges : list (string * float * float))
    : Prop :=
  (forall s counts,
     count_one ranges s counts =
     match bucket_of ranges s with
     | Some l => dict_incr counts l
     | None => counts
     end) /\
  (forall s counts,
     total ranges (count_one ranges s counts) =
     total ranges counts + (if in_bucket ranges s then 1 else 0)) /\
  (forall s counts,
     PrimFloat.ltb s 0 = true \/ PrimFloat.leb 999 s = true ->
     count_one ranges s counts = counts) /\
  (forall spreads,
     Forall (fun s => in_bucket ranges s = true) spreads ->
     total ranges (histogram ranges spreads) = len spreads).

Lemma counts_each_spread_once_intro ranges :
  NoDup (map label ranges) ->
  Forall (fun r => PrimFloat.leb 0 (low r) = true) ranges ->
  Forall (fun r => PrimFloat.leb (high r) 999 = true) ranges ->
  counts_each_spread_once ranges.
Proof.
  intros Hnd Hlo Hhi. split; [|split; [|split]].
  - intros s counts. apply count_one_bucket.
  - intros s counts. apply total_count_one. exact Hnd.
  - intros s counts H. rewrite count_one_bucket.
    destruct H as [H|H];
      [rewrite (below_floor _ _ Hlo H) | rewrite (above_ceiling _ _ Hhi H)];
      reflexivity.
  - intros spreads Hall. rewrite total_histogram by exact Hnd.
    f_equal. induction Hall as [|s l Hs _ IH]; [reflexivity|].
    cbn. rewrite Hs, IH. reflexivity.
Qed.

End Histogram.

(** ** Reports that differ in the duration only *)

Module SameReport.
Import Py Common Stmt V2 V2Facts.
Local Open Scope py_scope.











Section Facts.
Variable B : Builtins.



End Facts.
End SameReport.

(** ** The claims *)

(** C8. In the strict script a row of 29 or more fields whose spread,
    opportunity flag or ETH price is not a number makes the run raise
    at the first such row: the rows before it were read, the row itself
    was counted, and the script ends with [ValueError] having printed
    nothing. *)
Theorem strict_run_fails_fast (B : Py.Builtins) (rows : list Py.row) :
  Exists (fun row => 29 <= Py.len row /\ V1Facts.malformed B row) rows ->
  exists pre row post st,
    rows = pre ++ row :: post /\
    29 <= Py.len row /\ V1Facts.malformed B row /\
    V1.read_pass B pre V1.init = (inr tt, st) /\
    V1.read_pass B rows V1.init = (inl Py.ValueError, V1Facts.bump st) /\
    V1.main B rows = (inl Py.ValueError, []).
Proof.
  intros Hex.
  destruct (V1Facts.read_pass_stops B rows V1.init Hex)
    as (pre & row & post & st & E & [Hlen Hbad] & Hpre & Hall).
  exists pre, row, post, st. repeat split; try assumption.
  unfold V1.main, V1.read_pass. rewrite Hall. reflexivity.
Qed.

Lemma strict_run_fails_fast_witness :
  exists pre row post st,
    [ Sample.mkrow "2025-12-17T05:07:34.807Z" "1" "WETH/USDT" "0.5" "0" "" "3000.5" "1.2";
      Sample.mkrow "2025-12-17T05:07:35.807Z" "2" "WETH/USDC" "n/a" "0" "" "3000.5" "1.2";
      Sample.mkrow "2025-12-17T05:07:36.807Z" "3" "WETH/DAI" "0.1" "0" "" "3000.5" "1.2"
    ]%string = pre ++ row :: post /\
    29 <= Py.len row /\ V1Facts.malformed Sample.builtins row /\
    V1.read_pass Sample.builtins pre V1.init = (inr tt, st) /\
    V1.read_pass Sample.builtins (pre ++ row :: post) V1.init
      = (inl Py.ValueError, V1Facts.bump st) /\
    V1.main Sample.builtins (pre ++ row :: post) = (inl Py.ValueError, []).
Proof.
  destruct (strict_run_fails_fast Sample.builtins
    [ Sample.mkrow "2025-12-17T05:07:34.807Z" "1" "WETH/USDT" "0.5" "0" "" "3000.5" "1.2";
      Sample.mkrow "2025-12-17T05:07:35.807Z" "2" "WETH/USDC" "n/a" "0" "" "3000.5" "1.2";
      Sample.mkrow "2025-12-17T05:07:36.807Z" "3" "WETH/DAI" "0.1" "0" "" "3000.5" "1.2"
    ]%string) as (pre & row & post & st & E & H).
  - apply Exists_cons_tl. apply Exists_cons_hd. split.
    + vm_compute. discriminate.
    + left. vm_compute. reflexivity.
  - exists pre, row, post, st. rewrite <- E. split; [reflexivity | exact H].
Defined.

(** C1, as the code has it. In the defensive script a row of 29 or more
    fields on which a conversion of lines 34-41 raises is counted in
    [total_scans], which line 31 increments before the [try], and
    changes nothing else: no list, table or maximum is touched, no
    exception leaves the loop body, and the loop goes on with the rows
    that follow from the store so obtained. *)
Theorem defensive_skips_bad_row (B : Py.Builtins) (row : Py.row)
    (rest : list Py.row) (e : Py.exn) (st : V2.state) :
  29 <= Py.len row ->
  V2.convert B row = inl e ->
  V2.process_row B row st
    = (inr tt, V2.set_total_scans (V2.total_scans st + 1) st) /\
  Py.for_each (row :: rest) (V2.process_row B) st
    = Py.for_each rest (V2.process_row B)
        (V2.set_total_scans (V2.total_scans st + 1) st).
Proof.
  intros Hlen Hc.
  assert (V2.process_row B row st
          = (inr tt, V2.set_total_scans (V2.total_scans st + 1) st)) as H.
  { rewrite V2Facts.process_row_spec. unfold V2Facts.step.
    assert ((Py.len row <? 29) = false) as -> by (apply Z.ltb_ge; exact Hlen).
    rewrite Hc. reflexivity. }
  split; [exact H|].
  rewrite Stmt.for_each_cons, H. reflexivity.
Qed.

Lemma defensive_skips_bad_row_witness :
  V2.process_row Sample.builtins
    (Sample.mkrow "2025-12-17T05:07:35.807Z" "2" "WETH/USDC" "n/a" "0" "" "3000.5" "1.2")
    V2.init
    = (inr tt, V2.set_total_scans (V2.total_scans V2.init + 1) V2.init) /\
  Py.for_each
    [ Sample.mkrow "2025-12-17T05:07:35.807Z" "2" "WETH/USDC" "n/a" "0" "" "3000.5" "1.2";
      Sample.mkrow "2025-12-17T05:07:36.807Z" "3" "WETH/DAI" "0.1" "0" "" "3000.5" "1.2" ]
    (V2.process_row Sample.builtins) V2.init
    = Py.for_each
        [ Sample.mkrow "2025-12-17T05:07:36.807Z" "3" "WETH/DAI" "0.1" "0" "" "3000.5" "1.2" ]
        (V2.process_row Sample.builtins)
        (V2.set_total_scans (V2.total_scans V2.init + 1) V2.init).
Proof.
  apply (defensive_skips_bad_row Sample.builtins _ _ Py.ValueError).
  - vm_compute. discriminate.
  - vm_compute. reflexivity.
Defined.

(** C1, as the claim has it, fails: a row of 29 fields whose spread is
    not a number is counted in [total_scans]. *)
Lemma defensive_counts_bad_row :
  29 <= Py.len
    (Sample.mkrow "2025-12-17T05:07:35.807Z" "2" "WETH/USDC" "n/a" "0" "" "3000.5" "1.2") /\
  V2.convert Sample.builtins
    (Sample.mkrow "2025-12-17T05:07:35.807Z" "2" "WETH/USDC" "n/a" "0" "" "3000.5" "1.2")
    = inl Py.ValueError /\
  V2.total_scans
    (snd (V2.read_pass Sample.builtins [Sample.header] V2.init)) = 0 /\
  V2.total_scans
    (snd (V2.read_pass Sample.builtins
       [ Sample.header;
         Sample.mkrow "2025-12-17T05:07:35.807Z" "2" "WETH/USDC" "n/a" "0" "" "3000.5" "1.2" ]
       V2.init)) = 1.
Proof.
  split; [vm_compute; discriminate|].
  repeat split; vm_compute; reflexivity.
Qed.

(** C6. In both scripts the table of reject reasons never has the empty
    string as a key, whatever rows were read and whether or not the
    strict script raised on the way: every key is the sixth field of a
    row of the input with its white space trimmed, and is not empty; a
    row whose trimmed reason is empty leaves the table as it was. *)
Theorem reject_table_has_no_empty_key (B : Py.Builtins) (rows : list Py.row) :
  let t1 := V1.reject_reasons (snd (V1.read_pass B rows V1.init)) in
  let t2 := V2.reject_reasons (snd (V2.read_pass B rows V2.init)) in
  ~ In ""%string (Py.keys t1) /\
  ~ In ""%string (Py.keys t2) /\
  (forall k, In k (Py.keys t1) \/ In k (Py.keys t2) ->
     k <> ""%string /\
     exists row, In row rows /\ k = Py.strip (nth 5 row ""%string)) /\
  (forall row st1 st2,
     Py.strip (nth 5 row ""%string) = ""%string ->
     V1.reject_reasons (snd (V1.process_row B row st1)) = V1.reject_reasons st1 /\
     V2.reject_reasons (snd (V2.process_row B row st2)) = V2.reject_reasons st2).
Proof.
  intros t1 t2.
  assert (forall k, In k (Py.keys t1) ->
            exists row, In row rows /\ k = Py.strip (nth 5 row ""%string)
                        /\ k <> ""%string) as H1.
  { intros k Hk. subst t1. unfold V1.read_pass in Hk.
    apply (Stmt.table_keys V1.reject_reasons) in Hk.
    - destruct Hk as [[]|Hk]. exact Hk.
    - intros row s. rewrite V1Facts.strict_process_row_spec.
      apply V1Facts.strict_step_reject_reasons. }
  assert (forall k, In k (Py.keys t2) ->
            exists row, In row rows /\ k = Py.strip (nth 5 row ""%string)
                        /\ k <> ""%string) as H2.
  { intros k Hk. subst t2. destruct rows as [|header data]; [destruct Hk|].
    unfold V2.read_pass in Hk.
    apply (Stmt.table_keys V2.reject_reasons) in Hk.
    - destruct Hk as [[]|(row & Hin & Hrow)].
      exists row. split; [right; exact Hin | exact Hrow].
    - intros row s. rewrite V2Facts.process_row_spec.
      apply V2Facts.step_reject_reasons. }
  split; [|split; [|split]].
  - intros Hk. destruct (H1 _ Hk) as (_ & _ & _ & Hne). apply Hne. reflexivity.
  - intros Hk. destruct (H2 _ Hk) as (_ & _ & _ & Hne). apply Hne. reflexivity.
  - intros k [Hk|Hk]; [destruct (H1 _ Hk) as (row & Hin & E & Hne)
                      | destruct (H2 _ Hk) as (row & Hin & E & Hne)];
      (split; [exact Hne | exists row; split; assumption]).
  - intros row st1 st2 Hrow. split.
    + rewrite V1Facts.strict_process_row_spec.
      destruct (V1Facts.strict_step_reject_reasons B row st1) as [H|[Hne _]];
        [exact H | contradiction].
    + rewrite V2Facts.process_row_spec.
      destruct (V2Facts.step_reject_reasons B row st2) as [H|[Hne _]];
        [exact H | contradiction].
Qed.

(** C4, as the code has it. In both scripts a converted row replaces
    [max_spread_entry] exactly when its spread is strictly greater than
    the running maximum, which starts at 0. So the first row to bring in
    the largest spread is the row retained, and a later row with the
    same spread does not replace it, provided that spread is above 0;
    what happens otherwise is the matter of C10. *)
Theorem first_largest_spread_is_retained (B : Py.Builtins)
    (header r : Py.row) (pre post : list Py.row) (x : float) :
  PrimFloat.ltb 0 x = true ->
  (forall row f h st,
     V1.max_spread_entry (snd (V1.aggregate row f h st))
       = (if PrimFloat.ltb (V1.max_spread st) (V1.spread f) then Some row
          else V1.max_spread_entry st)) /\
  (forall row f st,
     V2.max_spread_entry (snd (V2.aggregate row f st))
       = (if PrimFloat.ltb (V2.max_spread st) (V2.spread f) then Some row
          else V2.max_spread_entry st)) /\
  (V1Facts.spread_of B r = Some x ->
   (forall r' x', In r' pre -> V1Facts.spread_of B r' = Some x' ->
                  PrimFloat.leb x x' = false) ->
   (forall r' x', In r' post -> V1Facts.spread_of B r' = Some x' ->
                  PrimFloat.ltb x x' = false) ->
   fst (V1.read_pass B pre V1.init) = inr tt ->
   V1.max_spread_entry (snd (V1.read_pass B (pre ++ r :: post) V1.init))
     = Some r) /\
  (V2Facts.spread_of B r = Some x ->
   (forall r' x', In r' pre -> V2Facts.spread_of B r' = Some x' ->
                  PrimFloat.leb x x' = false) ->
   (forall r' x', In r' post -> V2Facts.spread_of B r' = Some x' ->
                  PrimFloat.ltb x x' = false) ->
   V2.max_spread_entry
     (snd (V2.read_pass B (header :: pre ++ r :: post) V2.init))
     = Some r).
Proof.
  intros Hpos. split; [|split; [|split]].
  - intros row f h st. rewrite V1Facts.strict_aggregate_spec. reflexivity.
  - intros row f st. rewrite V2Facts.aggregate_spec. reflexivity.
  - intros Hr Hpre Hpost Hok.
    apply (Running.first_max_retained V1.spreads V1.max_spread
             V1.max_spread_entry (V1.process_row B) (V1Facts.spread_of B)
             (V1Facts.strict_running_body B) pre post r x V1.init);
      assumption.
  - intros Hr Hpre Hpost.
    apply (Running.first_max_retained V2.spreads V2.max_spread
             V2.max_spread_entry (V2.process_row B) (V2Facts.spread_of B)
             (V2Facts.running_body B) pre post r x V2.init);
      try assumption.
    pose proof (V2Facts.read_pass_spec B header pre) as H.
    unfold V2.read_pass in H. rewrite H. reflexivity.
Qed.

Lemma first_largest_spread_is_retained_witness :
  V1.max_spread_entry
    (snd (V1.read_pass Sample.builtins
       [ Sample.mkrow "2025-12-17T05:07:34.807Z" "1" "WETH/DAI" "0.1" "0" "" "3000.5" "1.2";
         Sample.mkrow "2025-12-17T05:07:35.807Z" "1" "WETH/USDT" "0.5" "0" "" "3000.5" "1.2";
         Sample.mkrow "2025-12-17T05:07:36.807Z" "1" "WETH/USDC" "0.5" "0" "" "3000.5" "1.2";
         Sample.mkrow "2025-12-17T05:07:37.807Z" "2" "WETH/DAI" "0.3" "0" "" "3000.5" "1.2" ]
       V1.init))
    = Some (Sample.mkrow "2025-12-17T05:07:35.807Z" "1" "WETH/USDT" "0.5" "0" "" "3000.5" "1.2") /\
  V2.max_spread_entry
    (snd (V2.read_pass Sample.builtins
       [ Sample.header;
         Sample.mkrow "2025-12-17T05:07:34.807Z" "1" "WETH/DAI" "0.1" "0" "" "3000.5" "1.2";
         Sample.mkrow "2025-12-17T05:07:35.807Z" "1" "WETH/USDT" "0.5" "0" "" "3000.5" "1.2";
         Sample.mkrow "2025-12-17T05:07:36.807Z" "1" "WETH/USDC" "0.5" "0" "" "3000.5" "1.2";
         Sample.mkrow "2025-12-17T05:07:37.807Z" "2" "WETH/DAI" "0.3" "0" "" "3000.5" "1.2" ]
       V2.init))
    = Some (Sample.mkrow "2025-12-17T05:07:35.807Z" "1" "WETH/USDT" "0.5" "0" "" "3000.5" "1.2").
Proof.
  destruct (first_largest_spread_is_retained Sample.builtins Sample.header
    (Sample.mkrow "2025-12-17T05:07:35.807Z" "1" "WETH/USDT" "0.5" "0" "" "3000.5" "1.2")
    [ Sample.mkrow "2025-12-17T05:07:34.807Z" "1" "WETH/DAI" "0.1" "0" "" "3000.5" "1.2" ]
    [ Sample.mkrow "2025-12-17T05:07:36.807Z" "1" "WETH/USDC" "0.5" "0" "" "3000.5" "1.2";
      Sample.mkrow "2025-12-17T05:07:37.807Z" "2" "WETH/DAI" "0.3" "0" "" "3000.5" "1.2" ]
    0.5%float eq_refl) as (_ & _ & H1 & H2).
  split.
  - apply H1.
    + vm_compute. reflexivity.
    + intros r' x' [<-|[]] E; vm_compute in E; inversion E; reflexivity.
    + intros r' x' [<-|[<-|[]]] E; vm_compute in E; inversion E; reflexivity.
    + vm_compute. reflexivity.
  - apply H2.
    + vm_compute. reflexivity.
    + intros r' x' [<-|[]] E; vm_compute in E; inversion E; reflexivity.
    + intros r' x' [<-|[<-|[]]] E; vm_compute in E; inversion E; reflexivity.
Defined.

(** C4, as the claim has it, fails when the largest spread is not above
    0: of two rows whose spread is 0, the largest of the run, neither is
    retained. *)
Lemma tie_at_zero_retains_no_row :
  V1.spreads
    (snd (V1.read_pass Sample.builtins
       [ Sample.mkrow "2025-12-17T05:07:35.807Z" "1" "WETH/USDT" "0.0" "0" "" "3000.5" "1.2";
         Sample.mkrow "2025-12-17T05:07:36.807Z" "1" "WETH/USDC" "0.0" "0" "" "3000.5" "1.2" ]
       V1.init)) = [0%float; 0%float] /\
  V1.max_spread_entry
    (snd (V1.read_pass Sample.builtins
       [ Sample.mkrow "2025-12-17T05:07:35.807Z" "1" "WETH/USDT" "0.0" "0" "" "3000.5" "1.2";
         Sample.mkrow "2025-12-17T05:07:36.807Z" "1" "WETH/USDC" "0.0" "0" "" "3000.5" "1.2" ]
       V1.init)) = None /\
  V2.spreads
    (snd (V2.read_pass Sample.builtins
       [ Sample.header;
         Sample.mkrow "2025-12-17T05:07:35.807Z" "1" "WETH/USDT" "0.0" "0" "" "3000.5" "1.2";
         Sample.mkrow "2025-12-17T05:07:36.807Z" "1" "WETH/USDC" "0.0" "0" "" "3000.5" "1.2" ]
       V2.init)) = [0%float; 0%float] /\
  V2.max_spread_entry
    (snd (V2.read_pass Sample.builtins
       [ Sample.header;
         Sample.mkrow "2025-12-17T05:07:35.807Z" "1" "WETH/USDT" "0.0" "0" "" "3000.5" "1.2";
         Sample.mkrow "2025-12-17T05:07:36.807Z" "1" "WETH/USDC" "0.0" "0" "" "3000.5" "1.2" ]
       V2.init)) = None.
Proof. repeat split; vm_compute; reflexivity. Qed.

(** C10. In both scripts, after any rows have been read, and so at
    every point of the read pass, [max_spread_entry] is [None] or a row
    whose converted spread is strictly above 0. When every spread read
    is at most 0, [max_spread_entry] is [None] at the end of the pass
    and the run prints none of the lines of the top spread case (77-84
    in the strict script, 139-145 in the defensive one), whatever the
    number of rows read. *)
Theorem retained_row_has_positive_spread (B : Py.Builtins)
    (rows : list Py.row) :
  let s1 := snd (V1.read_pass B rows V1.init) in
  let s2 := snd (V2.read_pass B rows V2.init) in
  (forall r, V1.max_spread_entry s1 = Some r ->
     exists x, V1Facts.spread_of B r = Some x /\ PrimFloat.ltb 0 x = true) /\
  (forall r, V2.max_spread_entry s2 = Some r ->
     exists x, V2Facts.spread_of B r = Some x /\ PrimFloat.ltb 0 x = true) /\
  (Forall (fun x => PrimFloat.leb x 0 = true) (V1.spreads s1) ->
   V1.max_spread_entry s1 = None /\
   forall p, In p (snd (V1.main B rows)) -> ~ (77 <= Py.line p <= 84)%nat) /\
  (Forall (fun x => PrimFloat.leb x 0 = true) (V2.spreads s2) ->
   V2.max_spread_entry s2 = None /\
   forall p, In p (snd (V2.main B rows)) -> ~ (139 <= Py.line p <= 145)%nat).
Proof.
  intros s1 s2.
  assert (Running.tracked V1.spreads V1.max_spread V1.max_spread_entry
            (V1Facts.spread_of B) s1) as T1.
  { apply (Running.tracked_loop _ _ _ _ _ (V1Facts.strict_running_body B)).
    left. split; reflexivity. }
  assert (Running.tracked V2.spreads V2.max_spread V2.max_spread_entry
            (V2Facts.spread_of B) s2) as T2.
  { subst s2. destruct rows as [|header data].
    - left. split; reflexivity.
    - apply (Running.tracked_loop _ _ _ _ _ (V2Facts.running_body B)).
      left. split; reflexivity. }
  split; [|split; [|split]].
  - intros r Hr. destruct T1 as [[H _]|(r' & H & He & Hpos & _)]; [congruence|].
    rewrite H in Hr. inversion Hr; subst r'. eauto.
  - intros r Hr. destruct T2 as [[H _]|(r' & H & He & Hpos & _)]; [congruence|].
    rewrite H in Hr. inversion Hr; subst r'. eauto.
  - intros Hall.
    pose proof (Running.none_retained _ _ _ _ s1 T1 Hall) as Hnone.
    split; [exact Hnone|].
    intros p Hp. unfold V1.main in Hp. fold s1 in Hnone.
    destruct (V1.read_pass B rows V1.init) as [[e|u] st] eqn:E;
      [destruct Hp|].
    subst s1. cbn in Hnone.
    destruct (V1Facts.strict_report_without_top_case B st Hnone [])
      as (added & Eq & Hl).
    rewrite Eq in Hp. cbn in Hp. rewrite Forall_forall in Hl. apply Hl, Hp.
  - intros Hall.
    pose proof (Running.none_retained _ _ _ _ s2 T2 Hall) as Hnone.
    split; [exact Hnone|].
    intros p Hp. unfold V2.main in Hp.
    destruct (V2.read_pass B rows V2.init) as [[e|u] st] eqn:E;
      [destruct Hp|].
    subst s2. cbn in Hnone.
    destruct (V2Facts.report_without_top_case B st Hnone [])
      as (added & Eq & Hl).
    rewrite Eq in Hp. cbn in Hp. rewrite Forall_forall in Hl. apply Hl, Hp.
Qed.

Lemma retained_row_has_positive_spread_witness :
  (V1.max_spread_entry
     (snd (V1.read_pass Sample.builtins
        [ Sample.mkrow "2025-12-17T05:07:35.807Z" "1" "WETH/USDT" "0.0" "0" "" "3000.5" "1.2";
          Sample.mkrow "2025-12-17T05:07:36.807Z" "1" "WETH/USDC" "-0.05" "0" "" "3000.5" "1.2" ]
        V1.init)) = None /\
   forall p,
     In p (snd (V1.main Sample.builtins
        [ Sample.mkrow "2025-12-17T05:07:35.807Z" "1" "WETH/USDT" "0.0" "0" "" "3000.5" "1.2";
          Sample.mkrow "2025-12-17T05:07:36.807Z" "1" "WETH/USDC" "-0.05" "0" "" "3000.5" "1.2" ])) ->
     ~ (77 <= Py.line p <= 84)%nat) /\
  (V2.max_spread_entry
     (snd (V2.read_pass Sample.builtins
        [ Sample.header;
          Sample.mkrow "2025-12-17T05:07:35.807Z" "1" "WETH/USDT" "0.0" "0" "" "3000.5" "1.2";
          Sample.mkrow "2025-12-17T05:07:36.807Z" "1" "WETH/USDC" "-0.05" "0" "" "3000.5" "1.2" ]
        V2.init)) = None /\
   forall p,
     In p (snd (V2.main Sample.builtins
        [ Sample.header;
          Sample.mkrow "2025-12-17T05:07:35.807Z" "1" "WETH/USDT" "0.0" "0" "" "3000.5" "1.2";
          Sample.mkrow "2025-12-17T05:07:36.807Z" "1" "WETH/USDC" "-0.05" "0" "" "3000.5" "1.2" ])) ->
     ~ (139 <= Py.line p <= 145)%nat).
Proof.
  split.
  - apply (retained_row_has_positive_spread Sample.builtins
      [ Sample.mkrow "2025-12-17T05:07:35.807Z" "1" "WETH/USDT" "0.0" "0" "" "3000.5" "1.2";
        Sample.mkrow "2025-12-17T05:07:36.807Z" "1" "WETH/USDC" "-0.05" "0" "" "3000.5" "1.2" ]).
    vm_compute. repeat constructor.
  - apply (retained_row_has_positive_spread Sample.builtins
      [ Sample.header;
        Sample.mkrow "2025-12-17T05:07:35.807Z" "1" "WETH/USDT" "0.0" "0" "" "3000.5" "1.2";
        Sample.mkrow "2025-12-17T05:07:36.807Z" "1" "WETH/USDC" "-0.05" "0" "" "3000.5" "1.2" ]).
    vm_compute. repeat constructor.
Defined.

(** C5. In both scripts the inner loop of the spread distribution counts
    a spread in the first range [[low, high)] of the list that holds it
    and in no other, so one spread adds at most one to the counts; a
    spread below 0 or at or above 999 is counted in no range; and when
    every spread is in some range the counts printed add up to the
    number of spreads. *)
Theorem histogram_counts_each_spread_once :
  Histogram.counts_each_spread_once V1.spread_ranges /\
  Histogram.counts_each_spread_once V2.spread_ranges.
Proof.
  split; apply Histogram.counts_each_spread_once_intro;
    try (repeat constructor);
    try (cbn; intuition discriminate).
Qed.

(** C3, as the code has it. For a list of spreads that is not empty
    and holds no NaN, both scripts report as median the element at
    index [n / 2] of the list sorted ascending, where [n] is the
    length: for [n = 2 * k] that is index [k], the upper of the two
    middle elements, and no average is taken; and
    minimum <= median <= maximum. The sorted list is a permutation of
    the spreads, ascending, with equal spreads in the order they have
    in the list: there is one such list, the one [sorted] returns. *)
Theorem median_is_upper_middle (l : list float) :
  l <> [] ->
  Forall (fun x => PrimFloat.is_nan x = false) l ->
  exists med,
    Common.median l = inr med /\
    V2.median_spread l = inr med /\
    nth_error (Py.sorted PrimFloat.ltb false l) (List.length l / 2) = Some med /\
    (forall k, List.length l = (2 * k)%nat ->
       nth_error (Py.sorted PrimFloat.ltb false l) k = Some med) /\
    Permutation (Py.sorted PrimFloat.ltb false l) l /\
    SortFacts.ascending (fun x => x) (Py.sorted PrimFloat.ltb false l) /\
    (forall v,
       SortFacts.with_key (fun x => x) v (Py.sorted PrimFloat.ltb false l)
       = SortFacts.with_key (fun x => x) v l) /\
    exists lo hi,
      Py.py_min l = inr lo /\ Py.py_max l = inr hi /\
      PrimFloat.leb lo med = true /\ PrimFloat.leb med hi = true.
Proof.
  intros Hne Hnan.
  destruct (SortFacts.median_defined l Hne) as (med & Hmed & Hnth & Hin).
  exists med. split; [exact Hmed|]. split.
  { unfold V2.median_spread. destruct l; [contradiction | exact Hmed]. }
  split; [exact Hnth|]. split.
  { intros k Hk. rewrite Hk in Hnth.
    replace (2 * k / 2)%nat with k in Hnth; [exact Hnth|].
    rewrite Nat.mul_comm, Nat.div_mul; [reflexivity | discriminate]. }
  split; [apply (SortFacts.isort_perm (fun x => x))|].
  split; [apply (SortFacts.isort_ascending (fun x => x)); exact Hnan|].
  split; [intros v; apply (SortFacts.sorted_stable (fun x => x) false v l)|].
  destruct l as [|x l]; [contradiction|].
  destruct (Py.py_min (x :: l)) as [e|lo] eqn:Elo; [discriminate|].
  destruct (Py.py_max (x :: l)) as [e|hi] eqn:Ehi; [discriminate|].
  exists lo, hi. split; [reflexivity|]. split; [reflexivity|].
  destruct (SortFacts.py_min_spec _ _ Hnan Elo) as [_ Hlo].
  destruct (SortFacts.py_max_spec _ _ Hnan Ehi) as [_ Hhi].
  rewrite Forall_forall in Hlo, Hhi. split; [apply Hlo | apply Hhi]; exact Hin.
Qed.

Lemma median_is_upper_middle_witness :
  exists med lo hi,
    Common.median [0.4; 0.1; 0.3; 0.2]%float = inr med /\
    Py.py_min [0.4; 0.1; 0.3; 0.2]%float = inr lo /\
    Py.py_max [0.4; 0.1; 0.3; 0.2]%float = inr hi /\
    PrimFloat.leb lo med = true /\ PrimFloat.leb med hi = true.
Proof.
  destruct (median_is_upper_middle [0.4; 0.1; 0.3; 0.2]%float)
    as (med & Hmed & _ & _ & _ & _ & _ & _ & lo & hi & Hlo & Hhi & H1 & H2).
  - discriminate.
  - repeat constructor.
  - exists med, lo, hi. repeat split; assumption.
Defined.

(** The median of [0.4, 0.1, 0.3, 0.2] is 0.3, not 0.25. *)
Example median_of_four :
  Common.median [0.4; 0.1; 0.3; 0.2]%float = inr 0.3%float.
Proof. reflexivity. Qed.

(** C3, as the claim has it, fails on a spread that is NaN, which
    [float] reads from the text [nan]: minimum, median and maximum are
    then all NaN, and NaN is not at most NaN. *)
Lemma median_of_nan_is_not_between :
  V2.spreads
    (snd (V2.read_pass Sample.builtins
       [ Sample.header;
         Sample.mkrow "2025-12-17T05:07:35.807Z" "1" "WETH/USDT" "nan" "0" "" "3000.5" "1.2" ]
       V2.init)) = [PrimFloat.nan] /\
  Common.median [PrimFloat.nan] = inr PrimFloat.nan /\
  Py.py_min [PrimFloat.nan] = inr PrimFloat.nan /\
  Py.py_max [PrimFloat.nan] = inr PrimFloat.nan /\
  PrimFloat.leb PrimFloat.nan PrimFloat.nan = false.
Proof. repeat split; vm_compute; reflexivity. Qed.

(** C7, as the code has it. In both scripts the list of largest spreads is the first K
    elements, K = 10 in the strict script and 20 in the defensive one,
    of the records sorted by spread: the sorted list is a permutation of
    the records, is descending, and keeps records of equal spread in
    the order of the input, so that for every spread the records of the
    top K with that spread are the first ones of the input with it, in
    input order. All of this is said of records none of whose spreads
    is NaN: only then do the keys that [sorted] compares form an
    order. *)
Theorem top_k_is_stable_descending_prefix
    (ts1 : list V1.entry) (ts2 : list V2.fields) :
  SortFacts.ordered_keys V1.spread ts1 ->
  SortFacts.ordered_keys V2.spread ts2 ->
  SortFacts.top_k V1.spread 10 ts1 (V1.top10 ts1) /\
  SortFacts.top_k V2.spread 20 ts2 (V2.top20 ts2).
Proof.
  intros H1 H2. split.
  - apply (SortFacts.top_k_sorted V1.spread 10 ts1 H1).
  - apply (SortFacts.top_k_sorted V2.spread 20 ts2 H2).
Qed.

Lemma top_k_is_stable_descending_prefix_witness :
  SortFacts.top_k V1.spread 10
    [ {| V1.timestamp := "2025-12-17T05:07:34"; V1.spread := 0.5;
         V1.pair := "A"; V1.reject_reason := ""; V1.eth_price := 3000 |};
      {| V1.timestamp := "2025-12-17T05:07:35"; V1.spread := 0.1;
         V1.pair := "B"; V1.reject_reason := ""; V1.eth_price := 3000 |};
      {| V1.timestamp := "2025-12-17T05:07:36"; V1.spread := 0.5;
         V1.pair := "C"; V1.reject_reason := ""; V1.eth_price := 3000 |} ]
    (V1.top10
       [ {| V1.timestamp := "2025-12-17T05:07:34"; V1.spread := 0.5;
            V1.pair := "A"; V1.reject_reason := ""; V1.eth_price := 3000 |};
         {| V1.timestamp := "2025-12-17T05:07:35"; V1.spread := 0.1;
            V1.pair := "B"; V1.reject_reason := ""; V1.eth_price := 3000 |};
         {| V1.timestamp := "2025-12-17T05:07:36"; V1.spread := 0.5;
            V1.pair := "C"; V1.reject_reason := ""; V1.eth_price := 3000 |} ]) /\
  SortFacts.top_k V2.spread 20
    (V2.time_spreads
       (snd (V2.read_pass Sample.builtins
          [ Sample.header;
            Sample.mkrow "2025-12-17T05:07:34.807Z" "1" "A" "0.5" "0" "" "3000.5" "1.2";
            Sample.mkrow "2025-12-17T05:07:35.807Z" "1" "B" "0.1" "0" "" "3000.5" "1.2";
            Sample.mkrow "2025-12-17T05:07:36.807Z" "1" "C" "0.5" "0" "" "3000.5" "1.2" ]
          V2.init)))
    (V2.top20
       (V2.time_spreads
          (snd (V2.read_pass Sample.builtins
             [ Sample.header;
               Sample.mkrow "2025-12-17T05:07:34.807Z" "1" "A" "0.5" "0" "" "3000.5" "1.2";
               Sample.mkrow "2025-12-17T05:07:35.807Z" "1" "B" "0.1" "0" "" "3000.5" "1.2";
               Sample.mkrow "2025-12-17T05:07:36.807Z" "1" "C" "0.5" "0" "" "3000.5" "1.2" ]
             V2.init)))).
Proof.
  apply top_k_is_stable_descending_prefix.
  - repeat constructor.
  - vm_compute. repeat constructor.
Defined.

(** C7, as the claim has it, fails on a spread that is NaN. Of the
    spreads 1.0, NaN, 2.0 in this order, no spread compares below the
    one after it, so the sort with [reverse=True] finds the reversed
    list already sorted and gives the input back: the record of spread
    1.0 comes out before the record of spread 2.0. *)
Lemma top_k_with_nan_is_not_descending :
  map V1.spread
    (V1.top10
       (V1.time_spreads
          (snd (V1.read_pass Sample.builtins
             [ Sample.mkrow "2025-12-17T05:07:34.807Z" "1" "A" "1.0" "0" "" "3000.5" "1.2";
               Sample.mkrow "2025-12-17T05:07:35.807Z" "1" "B" "nan" "0" "" "3000.5" "1.2";
               Sample.mkrow "2025-12-17T05:07:36.807Z" "1" "C" "2.0" "0" "" "3000.5" "1.2" ]
             V1.init))))
  = [1%float; PrimFloat.nan; 2%float] /\
  map V2.spread
    (V2.top20
       (V2.time_spreads
          (snd (V2.read_pass Sample.builtins
             [ Sample.header;
               Sample.mkrow "2025-12-17T05:07:34.807Z" "1" "A" "1.0" "0" "" "3000.5" "1.2";
               Sample.mkrow "2025-12-17T05:07:35.807Z" "1" "B" "nan" "0" "" "3000.5" "1.2";
               Sample.mkrow "2025-12-17T05:07:36.807Z" "1" "C" "2.0" "0" "" "3000.5" "1.2" ]
             V2.init))))
  = [1%float; PrimFloat.nan; 2%float] /\
  PrimFloat.ltb 1 2 = true.
Proof. repeat split; vm_compute; reflexivity. Qed.

(** The two records of spread 0.5 come out in input order, [A] before
    [C], ahead of the record of spread 0.1. *)
Example top_k_keeps_input_order :
  map V2.pair
    (V2.top20
       (V2.time_spreads
          (snd (V2.read_pass Sample.builtins
             [ Sample.header;
               Sample.mkrow "2025-12-17T05:07:34.807Z" "1" "A" "0.5" "0" "" "3000.5" "1.2";
               Sample.mkrow "2025-12-17T05:07:35.807Z" "1" "B" "0.1" "0" "" "3000.5" "1.2";
               Sample.mkrow "2025-12-17T05:07:36.807Z" "1" "C" "0.5" "0" "" "3000.5" "1.2" ]
             V2.init))))
  = ["A"; "C"; "B"]%string.
Proof. vm_compute. reflexivity. Qed.




(** Two records one hour apart give a duration of 1; a first time stamp
    that is no ISO date gives 0, and the run still ends normally. *)
Example duration_of_one_hour :
  V2Facts.hours_of Sample.builtins
    "2025-12-17T05:07:34.807Z" "2025-12-17T06:07:34.807Z" = 1%float /\
  V2Facts.hours_of Sample.builtins
    "17/12/2025 05:07" "2025-12-17T06:07:34.807Z" = 0%float /\
  fst (V2.main Sample.builtins
    [ Sample.header;
      Sample.mkrow "17/12/2025 05:07" "1" "WETH/USDT" "0.5" "0" "" "3000.5" "1.2";
      Sample.mkrow "2025-12-17T06:07:34.807Z" "2" "WETH/USDC" "0.1" "0" "" "3000.5" "1.2" ])
  = inr tt.
Proof. repeat split; vm_compute; reflexivity. Qed.

(** C2 does not hold of the code. When no row of 29 or more fields
    follows the header, [total_scans] is 0 and the table of reject
    reasons is empty, so line 164 divides by zero: the run raises
    [ZeroDivisionError] after it has printed lines 110-163, and the
    distribution, the largest spreads and the conclusion are never
    printed. On an empty file [next(reader)] on line 25 raises
    [StopIteration] before anything is printed. *)
Theorem defensive_report_fails_without_rows (B : Py.Builtins)
    (header : Py.row) (data : list Py.row) :
  Forall (fun row => Py.len row < 29) data ->
  V2.main B [] = (inl Py.StopIteration, []) /\
  V2.main B (header :: data) =
  (inl Py.ZeroDivisionError,
   [ Py.P 110 []; Py.P 111 []; Py.P 112 [];
     Py.P 113 [Py.VS "N/A"; Py.VS "N/A"];
     Py.P 114 [Py.VI 0]; Py.P 115 [Py.VI 0]; Py.P 116 [Py.VF 0];
     Py.P 117 [Py.VI 0]; Py.P 118 [Py.VF 0];
     Py.P 120 []; Py.P 121 [Py.VF 0]; Py.P 122 [Py.VF 0];
     Py.P 123 [Py.VF 0]; Py.P 124 [Py.VF 0];
     Py.P 126 []; Py.P 127 [Py.VF 0]; Py.P 128 [Py.VF 0; Py.VF 0];
     Py.P 133 []; Py.P 134 [Py.VF 0]; Py.P 135 [Py.VF 0; Py.VF 0];
     Py.P 137 []; Py.P 147 []; Py.P 155 []; Py.P 162 [];
     Py.P 163 [Py.VI 0; Py.VI 0] ]).
Proof.
  intros Hshort. split; [reflexivity|].
  unfold V2.main. rewrite V2Facts.read_pass_spec.
  assert (V2Facts.run B data V2.init = V2.init) as ->.
  { unfold V2Facts.run. generalize V2.init.
    induction Hshort as [|r data Hr _ IH]; intros st; [reflexivity|].
    cbn [fold_left]. unfold V2Facts.step at 2.
    assert ((Py.len r <? 29) = true) as -> by (apply Z.ltb_lt; exact Hr).
    apply IH. }
  vm_compute. reflexivity.
Qed.

Lemma defensive_report_fails_without_rows_witness :
  V2.main Sample.builtins [] = (inl Py.StopIteration, []) /\
  fst (V2.main Sample.builtins [Sample.header; []; ["not"; "a"; "record"]%string])
    = inl Py.ZeroDivisionError.
Proof.
  destruct (defensive_report_fails_without_rows Sample.builtins Sample.header
    [[]; ["not"; "a"; "record"]%string]) as [H0 H1].
  - repeat constructor.
  - split; [exact H0 | rewrite H1; reflexivity].
Defined.

(** The report also fails on a record that was read: an empty ETH
    price converts to 0.0 on line 40, but line 144 passes the same
    field to [float] with no guard. *)
Example defensive_report_fails_on_empty_price :
  V2.eth_prices
    (snd (V2.read_pass Sample.builtins
       [ Sample.header;
         Sample.mkrow "2025-12-17T05:07:35.807Z" "1" "WETH/USDT" "0.5" "0" "" "" "1.2" ]
       V2.init)) = [0%float] /\
  fst (V2.main Sample.builtins
    [ Sample.header;
      Sample.mkrow "2025-12-17T05:07:35.807Z" "1" "WETH/USDT" "0.5" "0" "" "" "1.2" ])
  = inl Py.ValueError.
Proof. split; vm_compute; reflexivity. Qed.

(** When every data row has 29 fields and none converts, the run ends
    normally with every statistic at 0; [total_scans] counts the rows. *)
Example defensive_report_on_malformed_rows :
  fst (V2.main Sample.builtins
    [ Sample.header;
      Sample.mkrow "2025-12-17T05:07:35.807Z" "1" "WETH/USDT" "n/a" "0" "" "3000.5" "1.2" ])
  = inr tt /\
  In (Py.P 114 [Py.VI 1])
    (snd (V2.main Sample.builtins
       [ Sample.header;
         Sample.mkrow "2025-12-17T05:07:35.807Z" "1" "WETH/USDT" "n/a" "0" "" "3000.5" "1.2" ])).
Proof. split; vm_compute; [reflexivity | tauto]. Qed.

(** Of the spreads 0.05, 0.17, -0.1, 1000 and 0.5, the defensive script
    counts three: -0.1 and 1000 are in no range. *)
Example histogram_of_five :
  Histogram.total V2.spread_ranges
    (Common.histogram V2.spread_ranges [0.05; 0.17; -0.1; 1000; 0.5]%float) = 3 /\
  map (Histogram.bucket_of V2.spread_ranges) [0.05; 0.17; -0.1; 1000; 0.5]%float
  = [Some "< 0.1%"; Some "0.17~0.2%"; None; None; Some ">= 0.5%"]%string.
Proof. split; vm_compute; reflexivity. Qed.

(** ** Tables filled by a loop *)

Module Tally.
Import Py Common Stmt.

Lemma int_sum_cons (x : Z) (l : list Z) : int_sum (x :: l) = x + int_sum l.
Proof.
  unfold int_sum. cbn [fold_left].
  assert (forall a, fold_left Z.add l a = a + fold_left Z.add l 0) as H.
  { induction l as [|y l IH]; intros a; cbn [fold_left]; [lia|].
    rewrite (IH (a + y)), (IH (0 + y)). lia. }
  rewrite (H (0 + x)). lia.
Qed.

(** Counting a key once more adds one to the sum of the counts, whether
    the key was in the table or not. *)
Lemma int_sum_incr (d : dict Z) (k : string) :
  int_sum (values (dict_incr d k)) = int_sum (values d) + 1.
Proof.
  unfold dict_incr, values. induction d as [|[k' v'] d IH]; [reflexivity|].
  cbn [dict_get dict_set]. destruct (String.eqb k' k); cbn [map snd].
  - rewrite !int_sum_cons. lia.
  - rewrite !int_sum_cons, IH. lia.
Qed.

Lemma Forall_dict_set {V} (Q : V -> Prop) (d : dict V) (k : string) (v : V) :
  Forall (fun kv => Q (snd kv)) d -> Q v ->
  Forall (fun kv => Q (snd kv)) (dict_set d k v).
Proof.
  intros Hd Hv. induction Hd as [|[k' v'] d Hkv Hd IH]; cbn [dict_set].
  - repeat constructor. exact Hv.
  - destruct (String.eqb k' k); constructor; assumption.
Qed.

Lemma dict_get_Forall {V} (Q : V -> Prop) (d : dict V) (k : string) (v : V) :
  Forall (fun kv => Q (snd kv)) d -> dict_get d k = Some v -> Q v.
Proof.
  intros Hd. induction Hd as [|[k' v'] d Hkv Hd IH]; cbn [dict_get];
    [discriminate|].
  destruct (String.eqb k' k); [|exact IH].
  intros H. inversion H; subst. exact Hkv.
Qed.

(** The keys of a table stay distinct. *)
Lemma NoDup_dict_set {V} (d : dict V) (k : string) (v : V) :
  NoDup (keys d) -> NoDup (keys (dict_set d k v)).
Proof.
  unfold keys. intros Hd. induction d as [|[k' v'] d IH]; cbn [dict_set map fst].
  - repeat constructor. intros [].
  - inversion Hd as [|? ? Hnot Hd']; subst.
    destruct (String.eqb k' k) eqn:E; cbn [map fst].
    + constructor; assumption.
    + constructor; [|apply IH; exact Hd'].
      intros Hin. apply keys_dict_set in Hin. destruct Hin as [->|Hin].
      * rewrite String.eqb_refl in E. discriminate.
      * apply Hnot. exact Hin.
Qed.

(** The list kept under a key, empty when the key is absent. *)
Definition items {A} (d : dict (list A)) (k : string) : list A :=
  match dict_get d k with Some l => l | None => [] end.

Lemma items_append {A} (d : dict (list A)) (k k' : string) (x : A) :
  items (dict_append d k x) k' =
  items d k' ++ (if String.eqb k k' then [x] else []).
Proof.
  unfold items, dict_append. rewrite dict_get_set.
  destruct (String.eqb k k') eqn:E.
  - apply String.eqb_eq in E. subst k'. reflexivity.
  - symmetry. apply app_nil_r.
Qed.

(** A loop over [xs] whose body returns on every element returns. *)
Lemma for_each_returns {A} (xs : list A) (body : A -> M stdout unit) :
  (forall x out, In x xs -> fst (body x out) = inr tt) ->
  forall out, fst (for_each xs body out) = inr tt.
Proof.
  induction xs as [|x xs IH]; intros H out; [reflexivity|].
  rewrite for_each_cons. specialize (H x out (or_introl eq_refl)) as Hx.
  destruct (body x out) as [[e|[]] out']; cbn in Hx; [discriminate|].
  apply IH. intros y o Hy. apply H. right. exact Hy.
Qed.

(** A loop whose body prints one record per element and returns. *)
Lemma for_each_prints {A} (xs : list A) (body : A -> M stdout unit)
    (g : A -> printed) :
  (forall x out, body x out = (inr tt, out ++ [g x])) ->
  forall out, for_each xs body out = (inr tt, out ++ map g xs).
Proof.
  intros H. induction xs as [|x xs IH]; intros out.
  - cbn. rewrite app_nil_r. reflexivity.
  - rewrite for_each_cons, H, IH. cbn [map]. rewrite <- app_assoc. reflexivity.
Qed.

Lemma for_each_prints_many {A} (xs : list A) (body : A -> M stdout unit)
    (g : A -> list printed) :
  (forall x out, body x out = (inr tt, out ++ g x)) ->
  forall out, for_each xs body out = (inr tt, out ++ flat_map g xs).
Proof.
  intros H. induction xs as [|x xs IH]; intros out.
  - cbn. rewrite app_nil_r. reflexivity.
  - rewrite for_each_cons, H, IH. cbn [flat_map]. rewrite <- app_assoc.
    reflexivity.
Qed.

Lemma insert_perm_any {A} (lt : A -> A -> bool) (x : A) (l : list A) :
  Permutation (insert lt x l) (x :: l).
Proof.
  induction l as [|y l IH]; [reflexivity|]. cbn [insert].
  destruct (lt y x); [|reflexivity].
  rewrite IH. apply perm_swap.
Qed.

(** [sorted] returns a permutation of its argument, whatever the
    comparison. *)
Lemma sorted_perm_any {A} (lt : A -> A -> bool) (reverse : bool) (l : list A) :
  Permutation (sorted lt reverse l) l.
Proof.
  assert (forall m, Permutation (isort lt m) m) as H.
  { induction m as [|x m IH]; [reflexivity|]. cbn [isort].
    rewrite insert_perm_any. constructor. exact IH. }
  unfold sorted. destruct reverse; [|apply H].
  rewrite <- Permutation_rev, H. symmetry. apply Permutation_rev.
Qed.

(** [s.split(c)] has a second part exactly when [c] is in [s]. *)
Lemma split_second (c : ascii) (s : string) :
  if contains c s
  then exists a b rest, split c s = a :: b :: rest
  else split c s = [s].
Proof.
  induction s as [|x s IH]; [reflexivity|]. cbn [contains split].
  destruct (Ascii.eqb x c); cbn [orb].
  - destruct (split c s) as [|w ws] eqn:E.
    + destruct (contains c s); [destruct IH as (? & ? & ? & ?)|]; discriminate.
    + exists EmptyString, w, ws. reflexivity.
  - destruct (contains c s).
    + destruct IH as (a & b & rest & ->). exists (String x a), b, rest. reflexivity.
    + rewrite IH. reflexivity.
Qed.

(** No element passes the test exactly when the filtered list is
    empty. *)
Lemma filter_len_zero {A} (p : A -> bool) (l : list A) :
  (len (filter p l) =? 0) = negb (existsb p l).
Proof.
  unfold len. induction l as [|x l IH]; [reflexivity|]. cbn [filter existsb].
  destruct (p x); cbn [orb negb]; [|exact IH].
  apply Z.eqb_neq. cbn [List.length]. lia.
Qed.

Lemma prefix_length (n : nat) (s : string) : (String.length (prefix n s) <= n)%nat.
Proof.
  unfold prefix. revert s. induction n as [|n IH]; intros s.
  - destruct s; cbn; lia.
  - destruct s as [|c s]; cbn; [lia|]. specialize (IH s). lia.
Qed.

End Tally.

(** ** The aggregates of the defensive script *)

Module V2More.
Import Py Common Stmt Tally V2 V2Facts.
Local Open Scope py_scope.

Section Facts.
Variable B : Builtins.

(** The record that a data row brings in, if any: the row has 29 or
    more fields and lines 34-41 convert it. *)
Definition record_of (row : row) : option fields :=
  if len row <? 29 then None
  else match convert B row with
       | inr f => Some f
       | inl _ => None
       end.

(** The records of the data rows, in file order. *)
Definition records (data : list row) : list fields :=
  flat_map (fun row => match record_of row with Some f => [f] | None => [] end)
    data.

(** The element of [high_spread_cases] made of a record. *)
Definition case_of (f : fields) : case := {|
  case_timestamp := timestamp f;
  case_pair := pair f;
  case_spread := spread f;
  case_reject_reason := reject_reason f;
  case_eth_price := eth_price f;
  case_gas_gwei := gas_gwei f
|}.

(** The test of line 56. *)
Definition is_high (f : fields) : bool :=
  PrimFloat.leb 0.17 (spread f) && (has_opp f =? 0).

Lemma step_cases (row : row) (st : state) :
  step B row st =
  if len row <? 29 then st
  else match record_of row with
       | Some f => update row f (bump st)
       | None => bump st
       end.
Proof.
  unfold step, record_of. destruct (len row <? 29); [reflexivity|].
  destruct (convert B row); reflexivity.
Qed.

(** A property of the store that counting a row and taking in a record
    both keep holds after any data rows. *)
Lemma run_inv (Q : state -> Prop) :
  (forall st, Q st -> Q (bump st)) ->
  (forall row f st, Q st -> Q (update row f st)) ->
  forall data st, Q st -> Q (run B data st).
Proof.
  intros Hb Hu data. unfold run.
  induction data as [|row data IH]; intros st Hst; [exact Hst|].
  cbn [fold_left]. apply IH. rewrite step_cases.
  destruct (len row <? 29); [exact Hst|].
  destruct (record_of row); [apply Hu|]; apply Hb; exact Hst.
Qed.

Lemma record_of_short (row : row) :
  (len row <? 29) = true -> record_of row = None.
Proof. intros H. unfold record_of. rewrite H. reflexivity. Qed.

Lemma run_records (data : list row) (st : state) :
  time_spreads (run B data st) = time_spreads st ++ records data /\
  total_scans (run B data st)
    = total_scans st + len (filter (fun row => 29 <=? len row) data).
Proof.
  unfold run. revert st.
  induction data as [|row data IH]; intros st.
  - cbn. rewrite app_nil_r. split; [reflexivity | unfold len; cbn; lia].
  - cbn [fold_left records flat_map filter].
    destruct (IH (step B row st)) as [Ht Hn]. rewrite Ht, Hn.
    rewrite step_cases.
    destruct (len row <? 29) eqn:Hlen.
    + assert ((29 <=? len row) = false) as ->
        by (apply Z.leb_gt; apply Z.ltb_lt; exact Hlen).
      rewrite (record_of_short row Hlen). split; reflexivity.
    + assert ((29 <=? len row) = true) as ->
        by (apply Z.leb_le; apply Z.ltb_ge; exact Hlen).
      destruct (record_of row) as [f|]; cbn [time_spreads total_scans update bump
        set_total_scans app]; unfold len; cbn [List.length].
      * rewrite <- app_assoc. split; [reflexivity | lia].
      * split; [reflexivity | lia].
Qed.

Lemma records_le (data : list row) :
  len (records data) <= len (filter (fun row => 29 <=? len row) data).
Proof.
  unfold len. induction data as [|row data IH]; [cbn; lia|].
  unfold records in *. cbn [flat_map filter]. rewrite length_app.
  destruct (len row <? 29) eqn:Hlen.
  - rewrite (record_of_short row Hlen). unfold len in Hlen.
    assert ((29 <=? Z.of_nat (List.length row)) = false) as ->
      by (apply Z.leb_gt; apply Z.ltb_lt; exact Hlen).
    cbn [List.length]. lia.
  - unfold len in Hlen.
    assert ((29 <=? Z.of_nat (List.length row)) = true) as ->
      by (apply Z.leb_le; apply Z.ltb_ge; exact Hlen).
    destruct (record_of row); cbn [List.length]; lia.
Qed.

(** The parallel lists hold the fields of the records, in order. *)
Definition aligned (st : state) : Prop :=
  spreads st = map spread (time_spreads st) /\
  eth_prices st = map eth_price (time_spreads st) /\
  gas_prices st = map gas_gwei (time_spreads st).

Lemma aligned_run (data : list row) : aligned (run B data init).
Proof.
  apply run_inv.
  - intros st H. exact H.
  - intros row f st (H1 & H2 & H3). unfold aligned. cbn.
    rewrite !map_app, H1, H2, H3. repeat split.
  - repeat split.
Qed.

(** The counter of opportunities and the list of high spreads follow
    the flags of the records. *)
Definition flagged (st : state) : Prop :=
  opportunities st = len (filter (fun f => has_opp f =? 1) (time_spreads st)) /\
  high_spread_cases st = map case_of (filter is_high (time_spreads st)).

Lemma flagged_run (data : list row) : flagged (run B data init).
Proof.
  apply run_inv.
  - intros st H. exact H.
  - intros row f st (H1 & H2). unfold flagged. cbn.
    rewrite !filter_app, map_app, H1, H2. cbn [filter].
    fold (is_high f). unfold len. rewrite length_app.
    destruct (has_opp f =? 1), (is_high f); cbn [List.length map];
      rewrite ?app_nil_r; split; try reflexivity; lia.
  - split; reflexivity.
Qed.

(** The table of reject reasons counts, for each reason, the records
    that carry it. *)
Definition tallied (st : state) : Prop :=
  (forall k,
     count_of (reject_reasons st) k =
     len (filter (fun f => truthy (reject_reason f)
                           && String.eqb (reject_reason f) k)
            (time_spreads st))) /\
  int_sum (values (reject_reasons st)) =
    len (filter (fun f => truthy (reject_reason f)) (time_spreads st)) /\
  NoDup (keys (reject_reasons st)).

Lemma tallied_run (data : list row) : tallied (run B data init).
Proof.
  apply run_inv.
  - intros st H. exact H.
  - intros row f st (H1 & H2 & H3). unfold tallied.
    cbn [update reject_reasons time_spreads].
    split; [|split].
    + intros k. rewrite filter_app. unfold len. rewrite length_app.
      cbn [filter]. specialize (H1 k). unfold len in H1.
      destruct (truthy (reject_reason f)); cbn [andb].
      * rewrite Histogram.count_of_incr, H1.
        destruct (String.eqb (reject_reason f) k); cbn [List.length]; lia.
      * rewrite H1. cbn [List.length]. lia.
    + rewrite filter_app. unfold len in *. rewrite length_app. cbn [filter].
      destruct (truthy (reject_reason f)).
      * rewrite int_sum_incr, H2. cbn [List.length]. lia.
      * rewrite H2. cbn [List.length]. lia.
    + destruct (truthy (reject_reason f)); [apply NoDup_dict_set|]; exact H3.
  - split; [|split]; [intros k; reflexivity | reflexivity | constructor].
Qed.

(** The table of pairs keeps, for each pair, the spreads of its
    records in order; no list in it is empty. *)
Definition grouped (st : state) : Prop :=
  (forall p,
     items (pair_spreads st) p =
     map spread (filter (fun f => String.eqb (pair f) p) (time_spreads st))) /\
  Forall (fun kv => snd kv <> []) (pair_spreads st) /\
  NoDup (keys (pair_spreads st)).

Lemma grouped_run (data : list row) : grouped (run B data init).
Proof.
  apply run_inv.
  - intros st H. exact H.
  - intros row f st (H1 & H2 & H3). unfold grouped.
    cbn [update pair_spreads time_spreads].
    split; [|split].
    + intros p. rewrite items_append, H1, filter_app, map_app. cbn [filter].
      destruct (String.eqb (pair f) p); reflexivity.
    + unfold dict_append. apply (Forall_dict_set (fun l => l <> [])); [exact H2|].
      intros E. apply app_eq_nil in E. destruct E as [_ E]. discriminate.
    + apply NoDup_dict_set. exact H3.
  - split; [|split]; [intros p; reflexivity | constructor | constructor].
Qed.

Lemma len_cons_nonzero {A} (x : A) (l : list A) : (len (x :: l) =? 0) = false.
Proof. apply Z.eqb_neq. unfold len. cbn [List.length]. lia. Qed.

(** Lines 147-153 never raise once no list of the table is empty. *)
Lemma pairs_return (st : state) (out : stdout) :
  Forall (fun kv => snd kv <> []) (pair_spreads st) ->
  fst (print_pairs B st out) = inr tt.
Proof.
  intros Hne. unfold print_pairs, print, modify. cbn [bind Monad_M].
  apply for_each_returns. intros [k l] o Hin.
  assert (l <> []) as Hl.
  { rewrite Forall_forall in Hne.
    apply (Hne (k, l)).
    exact (Permutation_in _ (sorted_perm_any _ false (pair_spreads st)) Hin). }
  destruct l as [|x l]; [contradiction|].
  cbn [snd fst]. unfold lift, float_div_int. rewrite len_cons_nonzero.
  reflexivity.
Qed.

(** Lines 155-164 raise exactly when [total_scans] is zero: every
    branch divides by it. *)
Lemma rejects_end (st : state) (out : stdout) :
  fst (print_rejects st out) =
  if total_scans st =? 0 then inl ZeroDivisionError else inr tt.
Proof.
  unfold print_rejects, print, modify. cbn [bind Monad_M].
  destruct (nonempty (reject_reasons st)) eqn:Hne.
  - destruct (total_scans st =? 0) eqn:Hz.
    + destruct (sorted_by_count_desc (reject_reasons st)) as [|item items] eqn:E.
      * pose proof (Permutation_length
          (sorted_perm_any (fun a b => - snd a <? - snd b) false (reject_reasons st)))
          as Hlen.
        unfold sorted_by_count_desc in E. rewrite E in Hlen.
        destruct (reject_reasons st); [discriminate Hne | discriminate Hlen].
      * rewrite for_each_cons. unfold lift, int_truediv. rewrite Hz. reflexivity.
    + apply for_each_returns. intros item o _.
      unfold lift, int_truediv. rewrite Hz. reflexivity.
  - unfold lift, int_truediv. cbn [bind Monad_M].
    destruct (total_scans st =? 0); reflexivity.
Qed.

(** The time of day shown for a time stamp (lines 193 and 204). *)
Definition time_of (ts : string) : string :=
  if contains "T" ts then prefix 8 (nth 1 (split "T" ts) ""%string)
  else prefix 8 ts.

Lemma time_str_total (ts : string) : time_str ts = inr (time_of ts).
Proof.
  unfold time_str, time_of. pose proof (split_second "T" ts) as H.
  destruct (contains "T" ts); [|reflexivity].
  destruct H as (a & b & rest & ->). reflexivity.
Qed.

(** The record printed on line 196 for the [i]-th largest spread. *)
Definition line_196 (it : Z * fields) : printed :=
  P 196 [VI (fst it); VB (has_opp (snd it) =? 1); VS (pair (snd it));
         VF (spread (snd it)); VS (time_of (timestamp (snd it)));
         VF (eth_price (snd it)); VF (gas_gwei (snd it));
         VS (prefix 35 (or_default (reject_reason (snd it)) "(below spread)"))].

Lemma top20_prints (st : state) (out : stdout) :
  print_top20 st out =
  (inr tt,
   out ++ P 190 [] :: map line_196 (enumerate1 (top20 (time_spreads st)))).
Proof.
  unfold print_top20, print, modify. cbn [bind Monad_M].
  rewrite (for_each_prints _ _ line_196).
  - rewrite <- app_assoc. reflexivity.
  - intros it o. unfold lift. rewrite time_str_total. reflexivity.
Qed.

(** The two records printed on lines 205 and 206 for a high spread. *)
Definition lines_205 (it : Z * case) : list printed :=
  [ P 205 [VI (fst it); VS (case_pair (snd it)); VF (case_spread (snd it));
           VS (time_of (case_timestamp (snd it)));
           VF (case_eth_price (snd it)); VF (case_gas_gwei (snd it))];
    P 206 [VS (or_default (case_reject_reason (snd it)) "(no explicit reject)")] ].

Lemma high_prints (st : state) (out : stdout) :
  print_high st out =
  (inr tt,
   out ++
   if nonempty (high_spread_cases st)
   then P 200 [VI (len (high_spread_cases st))] :: P 201 []
        :: flat_map lines_205 (enumerate1 (top10_high (high_spread_cases st)))
   else []).
Proof.
  unfold print_high, when.
  destruct (nonempty (high_spread_cases st)).
  - unfold print, modify. cbn [bind Monad_M].
    rewrite (for_each_prints_many _ _ lines_205).
    + rewrite <- !app_assoc. reflexivity.
    + intros it o. unfold lift. rewrite time_str_total.
      cbn [bind Monad_M lines_205]. rewrite <- app_assoc. reflexivity.
  - cbn. rewrite app_nil_r. reflexivity.
Qed.

(** Lines 208-230 never raise when the opportunities counted are at
    most the rows counted: line 219 divides by [total_scans] only when
    there is an opportunity. *)
Lemma conclusion_returns (st : state) (avg : float) (out : stdout) :
  0 <= opportunities st <= total_scans st ->
  fst (print_conclusion st avg out) = inr tt.
Proof.
  intros H. unfold print_conclusion, print, modify, lift, int_truediv.
  cbn [bind Monad_M].
  destruct (opportunities st =? 0) eqn:Ho.
  - destruct (nonempty (high_spread_cases st)); reflexivity.
  - assert ((total_scans st =? 0) = false) as ->
      by (apply Z.eqb_neq; apply Z.eqb_neq in Ho; lia).
    destruct (nonempty (high_spread_cases st)); reflexivity.
Qed.

(** The row retained is a data row of 29 or more fields. *)
Lemma retained_is_data_row (data : list row) (st : state) (e : row) :
  max_spread_entry (run B data st) = Some e ->
  max_spread_entry st = Some e \/ (In e data /\ (len e <? 29) = false).
Proof.
  unfold run. revert st. induction data as [|row data IH]; intros st H.
  - left. exact H.
  - cbn [fold_left] in H. destruct (IH _ H) as [Hs|[Hin Hlen]].
    + rewrite step_cases in Hs. destruct (len row <? 29) eqn:L; [left; exact Hs|].
      destruct (record_of row) as [f|]; [|left; exact Hs].
      cbn in Hs. destruct (PrimFloat.ltb (max_spread st) (spread f)).
      * inversion Hs; subst. right. split; [left; reflexivity | exact L].
      * left. exact Hs.
    + right. split; [right; exact Hin | exact Hlen].
Qed.

(** The records that lines 137-143 print for the retained row [e]. *)
Definition top_case_head (e : row) : list printed :=
  [ P 137 [];
    P 139 [VS (nth 2 e ""%string)];
    P 140 [VS (nth 3 e ""%string)];
    P 141 [VS (nth 0 e ""%string)];
    P 142 [VB (String.eqb (nth 4 e ""%string) "1")];
    P 143 [VS (or_default (nth 5 e ""%string) "(spread too small)")] ].

Lemma top_case_prints (st : state) (e : row) (out : stdout) :
  max_spread_entry st = Some e -> (len e <? 29) = false ->
  print_top_case B st out =
  match py_float B (nth 27 e ""%string), py_float B (nth 28 e ""%string) with
  | Some x, Some y =>
      (inr tt, out ++ top_case_head e ++ [P 144 [VF x]; P 145 [VF y]])
  | Some x, None => (inl ValueError, out ++ top_case_head e ++ [P 144 [VF x]])
  | None, _ => (inl ValueError, out ++ top_case_head e)
  end.
Proof.
  intros He Hlen. unfold print_top_case. rewrite He.
  assert (nonempty e = true) as ->.
  { destruct e; [discriminate Hlen | reflexivity]. }
  assert ((5 <? len e) = true) as Hfive
    by (apply Z.ltb_ge in Hlen; apply Z.ltb_lt; lia).
  unfold when, print, modify, lift, to_float.
  rewrite !getitem_lt by (apply len_ge; [exact Hlen | lia]).
  rewrite Hfive. cbn [bind ret Monad_M Monad_E of_option].
  unfold top_case_head.
  destruct (py_float B (nth 27 e ""%string)) as [x|]; cbn [of_option].
  - destruct (py_float B (nth 28 e ""%string)) as [y|]; cbn [of_option];
      rewrite <- !app_assoc; reflexivity.
  - rewrite <- !app_assoc. reflexivity.
Qed.

End Facts.
End V2More.

(** ** The aggregates of the strict script *)

Module V1More.
Import Py Common Stmt Tally V1 V1Facts.
Local Open Scope py_scope.

Section Facts.
Variable B : Builtins.

(** A property of the store that counting a row keeps, and that
    counting a row and taking in its record keeps, holds after any
    rows, whether the loop has raised or not. *)
Lemma strict_loop_inv (Q : state -> Prop) :
  (forall st, Q st -> Q (bump st)) ->
  (forall row f h st, Q st -> Q (update row f h (bump st))) ->
  forall rows st, Q st -> Q (snd (for_each rows (process_row B) st)).
Proof.
  intros Hb Hu. apply for_each_inv. intros row st Hst.
  rewrite strict_process_row_spec. unfold step.
  destruct (len row <? 29); [exact Hst|].
  destruct (convert B row) as [e|c]; cbn [snd]; [apply Hb | apply Hu]; exact Hst.
Qed.

Definition aligned (st : state) : Prop :=
  spreads st = map spread (time_spreads st) /\
  eth_prices st = map eth_price (time_spreads st).

Lemma strict_aligned_loop (rows : list row) :
  aligned (snd (for_each rows (process_row B) init)).
Proof.
  apply strict_loop_inv.
  - intros st H. exact H.
  - intros row f h st (H1 & H2). unfold aligned. cbn.
    rewrite !map_app, H1, H2. split; reflexivity.
  - split; reflexivity.
Qed.

(** Every row counted has brought in a spread, except the row on which
    the loop has raised. *)
Lemma strict_count (rows : list row) (st : state) :
  total_scans st = len (spreads st) ->
  match fst (for_each rows (process_row B) st) with
  | inr _ =>
      total_scans (snd (for_each rows (process_row B) st))
      = len (spreads (snd (for_each rows (process_row B) st)))
  | inl _ =>
      total_scans (snd (for_each rows (process_row B) st))
      = len (spreads (snd (for_each rows (process_row B) st))) + 1
  end.
Proof.
  revert st. induction rows as [|row rows IH]; intros st Hst; [exact Hst|].
  rewrite for_each_cons, strict_process_row_spec. unfold step.
  destruct (len row <? 29); [apply IH; exact Hst|].
  destruct (convert B row) as [e|c]; cbn [fst snd].
  - cbn. lia.
  - apply IH. cbn. unfold len in *. rewrite length_app. cbn [List.length]. lia.
Qed.

(** The rows counted are the rows of 29 or more fields that the loop
    has reached. *)
Lemma strict_total (rows : list row) (st : state) :
  fst (for_each rows (process_row B) st) = inr tt ->
  total_scans (snd (for_each rows (process_row B) st))
  = total_scans st + len (filter (fun row => 29 <=? len row) rows).
Proof.
  revert st. induction rows as [|row rows IH]; intros st.
  - intros _. unfold len. cbn. lia.
  - rewrite for_each_cons, strict_process_row_spec. unfold step.
    cbn [filter]. destruct (len row <? 29) eqn:Hlen.
    + assert ((29 <=? len row) = false) as ->
        by (apply Z.leb_gt; apply Z.ltb_lt; exact Hlen).
      apply IH.
    + assert ((29 <=? len row) = true) as ->
        by (apply Z.leb_le; apply Z.ltb_ge; exact Hlen).
      destruct (convert B row) as [e|c]; [discriminate|].
      intros H. rewrite (IH _ H). cbn. unfold len. cbn [List.length]. lia.
Qed.

(** No list of the table of pairs is empty. *)
Lemma strict_pairs_nonempty (rows : list row) :
  Forall (fun kv => snd kv <> [])
    (pair_spreads (snd (for_each rows (process_row B) init))).
Proof.
  apply (strict_loop_inv
    (fun st => Forall (fun kv => snd kv <> []) (pair_spreads st))).
  - intros st H. exact H.
  - intros row f h st H. cbn [update pair_spreads bump set_total_scans].
    unfold dict_append. apply (Forall_dict_set (fun l => l <> [])); [exact H|].
    intros E. apply app_eq_nil in E. destruct E as [_ E]. discriminate.
  - constructor.
Qed.

Lemma strict_pairs_return (st : state) (out : stdout) :
  Forall (fun kv => snd kv <> []) (pair_spreads st) ->
  fst (print_pairs B st out) = inr tt.
Proof.
  intros Hne. unfold print_pairs, print, modify. cbn [bind Monad_M].
  apply for_each_returns. intros [k l] o Hin.
  assert (l <> []) as Hl.
  { rewrite Forall_forall in Hne.
    apply (Hne (k, l)).
    exact (Permutation_in _ (sorted_perm_any _ false (pair_spreads st)) Hin). }
  destruct l as [|x l]; [contradiction|].
  cbn [snd fst]. unfold lift, float_div_int. rewrite V2More.len_cons_nonzero.
  reflexivity.
Qed.

(** A reject reason is only counted after its row was. *)
Lemma strict_rejects_counted (rows : list row) :
  let st := snd (for_each rows (process_row B) init) in
  reject_reasons st = [] \/ 1 <= total_scans st.
Proof.
  apply (strict_loop_inv
    (fun st => 0 <= total_scans st /\
               (reject_reasons st = [] \/ 1 <= total_scans st))).
  - intros st [H0 _]. cbn. split; [lia | right; lia].
  - intros row f h st [H0 _]. cbn. split; [lia | right; lia].
  - split; [cbn; lia | left; reflexivity].
Qed.

(** Lines 101-109 raise exactly when there are reject reasons and
    [total_scans] is zero. *)
Lemma strict_rejects_end (st : state) (out : stdout) :
  fst (print_rejects st out) =
  if nonempty (reject_reasons st) && (total_scans st =? 0)
  then inl ZeroDivisionError else inr tt.
Proof.
  unfold print_rejects, print, modify. cbn [bind Monad_M].
  destruct (nonempty (reject_reasons st)) eqn:Hne; cbn [andb]; [|reflexivity].
  destruct (total_scans st =? 0) eqn:Hz.
  - destruct (sorted_by_count_desc (reject_reasons st)) as [|item items] eqn:E.
    + pose proof (Permutation_length
        (sorted_perm_any (fun a b => - snd a <? - snd b) false (reject_reasons st)))
        as Hlen.
      unfold sorted_by_count_desc in E. rewrite E in Hlen.
      destruct (reject_reasons st); [discriminate Hne | discriminate Hlen].
    + rewrite for_each_cons. unfold lift, int_truediv. rewrite Hz. reflexivity.
  - apply for_each_returns. intros item o _.
    unfold lift, int_truediv. rewrite Hz. reflexivity.
Qed.

(** The same for a property that depends on the row taken in. *)
Lemma strict_loop_rows (Q : state -> Prop) :
  (forall st, Q st -> Q (bump st)) ->
  (forall row c st,
     (len row <? 29) = false -> convert B row = inr c -> Q st ->
     Q (update row (fst c) (snd c) (bump st))) ->
  forall rows st, Q st -> Q (snd (for_each rows (process_row B) st)).
Proof.
  intros Hb Hu. apply for_each_inv. intros row st Hst.
  rewrite strict_process_row_spec. unfold step.
  destruct (len row <? 29) eqn:Hlen; [exact Hst|].
  destruct (convert B row) as [e|c] eqn:Hc; cbn [snd];
    [apply Hb | apply (Hu row c st Hlen Hc)]; exact Hst.
Qed.

(** The table of reject reasons counts, for each reason, the entries
    that carry it. *)
Definition tallied (st : state) : Prop :=
  (forall k,
     count_of (reject_reasons st) k =
     len (filter (fun f => truthy (reject_reason f)
                           && String.eqb (reject_reason f) k)
            (time_spreads st))) /\
  int_sum (values (reject_reasons st)) =
    len (filter (fun f => truthy (reject_reason f)) (time_spreads st)) /\
  NoDup (keys (reject_reasons st)).

Lemma strict_tallied_loop (rows : list row) :
  tallied (snd (for_each rows (process_row B) init)).
Proof.
  apply strict_loop_inv.
  - intros st H. exact H.
  - intros row f h st (H1 & H2 & H3). unfold tallied.
    cbn [update bump set_total_scans reject_reasons time_spreads].
    split; [|split].
    + intros k. rewrite filter_app. unfold len. rewrite length_app.
      cbn [filter]. specialize (H1 k). unfold len in H1.
      destruct (truthy (reject_reason f)); cbn [andb].
      * rewrite Histogram.count_of_incr, H1.
        destruct (String.eqb (reject_reason f) k); cbn [List.length]; lia.
      * rewrite H1. cbn [List.length]. lia.
    + rewrite filter_app. unfold len in *. rewrite length_app. cbn [filter].
      destruct (truthy (reject_reason f)).
      * rewrite int_sum_incr, H2. cbn [List.length]. lia.
      * rewrite H2. cbn [List.length]. lia.
    + destruct (truthy (reject_reason f)); [apply NoDup_dict_set|]; exact H3.
  - split; [|split]; [intros k; reflexivity | reflexivity | constructor].
Qed.

(** The table of pairs keeps, for each pair, the spreads of its
    entries in order. *)
Definition grouped (st : state) : Prop :=
  (forall p,
     items (pair_spreads st) p =
     map spread (filter (fun f => String.eqb (pair f) p) (time_spreads st))) /\
  NoDup (keys (pair_spreads st)).

Lemma strict_grouped_loop (rows : list row) :
  grouped (snd (for_each rows (process_row B) init)).
Proof.
  apply strict_loop_inv.
  - intros st H. exact H.
  - intros row f h st (H1 & H3). unfold grouped.
    cbn [update bump set_total_scans pair_spreads time_spreads].
    split.
    + intros p. rewrite items_append, H1, filter_app, map_app. cbn [filter].
      destruct (String.eqb (pair f) p); reflexivity.
    + apply NoDup_dict_set. exact H3.
  - split; [intros p; reflexivity | constructor].
Qed.

(** The row retained has 29 or more fields and was converted by lines
    27-32: its ETH price is a number. *)
Lemma strict_retained_converts (rows : list row) (e : row) :
  max_spread_entry (snd (for_each rows (process_row B) init)) = Some e ->
  In e rows /\ (len e <? 29) = false /\
  exists x, py_float B (nth 27 e ""%string) = Some x.
Proof.
  assert (forall rows st,
    max_spread_entry (snd (for_each rows (process_row B) st)) = Some e ->
    max_spread_entry st = Some e \/
    (In e rows /\ (len e <? 29) = false /\
     exists x, py_float B (nth 27 e ""%string) = Some x)) as H.
  { clear rows. induction rows as [|row rows IH]; intros st H.
    - left. exact H.
    - rewrite for_each_cons, strict_process_row_spec in H. unfold step in H.
      destruct (len row <? 29) eqn:L.
      + destruct (IH _ H) as [Hs|(Hin & Hr)]; [left; exact Hs|].
        right. split; [right; exact Hin | exact Hr].
      + destruct (convert_long B row L) as [[Hm Hc]|[Hm [c Hc]]];
          rewrite Hc in H.
        * left. exact H.
        * destruct (IH _ H) as [Hs|(Hin & Hr)].
          -- cbn in Hs.
             destruct (PrimFloat.ltb (max_spread st) (spread (fst c)));
               [|left; exact Hs].
             inversion Hs; subst. right.
             split; [left; reflexivity|]. split; [exact L|].
             unfold malformed in Hm.
             destruct (py_float B (nth 27 e ""%string)) as [x|];
               [exists x; reflexivity | exfalso; apply Hm; auto].
          -- right. split; [right; exact Hin | exact Hr]. }
  intros He. destruct (H rows init He) as [Hs|Hr]; [discriminate Hs | exact Hr].
Qed.

(** The records that lines 75-79 print for the retained row [e]. *)
Definition top_case_head (e : row) : list printed :=
  [ P 75 [];
    P 77 [VS (nth 2 e ""%string)];
    P 78 [VS (nth 3 e ""%string)];
    P 79 [VS (nth 0 e ""%string)] ].

(** The records that lines 81-84 print. *)
Definition top_case_tail (e : row) (y x27 : float) : list printed :=
  [ P 81 [VS (nth 20 e ""%string); VF y];
    P 82 [VB (String.eqb (nth 4 e ""%string) "1")];
    P 83 [VS (or_default (nth 5 e ""%string) "(spread too small)")];
    P 84 [VF x27] ].

Lemma strict_top_case_prints (st : state) (e : row) (x27 : float)
    (out : stdout) :
  max_spread_entry st = Some e -> (len e <? 29) = false ->
  py_float B (nth 27 e ""%string) = Some x27 ->
  print_top_case B st out =
  match py_float B (nth 19 e ""%string), py_float B (nth 21 e ""%string) with
  | Some x, Some y =>
      (inr tt,
       out ++ top_case_head e ++ P 80 [VS (nth 18 e ""%string); VF x]
           :: top_case_tail e y x27)
  | Some x, None =>
      (inl ValueError,
       out ++ top_case_head e ++ [P 80 [VS (nth 18 e ""%string); VF x]])
  | None, _ => (inl ValueError, out ++ top_case_head e)
  end.
Proof.
  intros He Hlen H27. unfold print_top_case. rewrite He.
  assert (nonempty e = true) as ->.
  { destruct e; [discriminate Hlen | reflexivity]. }
  unfold when, print, modify, lift, to_float.
  rewrite !getitem_lt by (apply len_ge; [exact Hlen | lia]).
  cbn [bind ret Monad_M Monad_E of_option].
  unfold top_case_head, top_case_tail.
  destruct (py_float B (nth 19 e ""%string)) as [x|]; cbn [of_option].
  - destruct (py_float B (nth 21 e ""%string)) as [y|]; cbn [of_option];
      rewrite ?H27; cbn [of_option]; rewrite <- !app_assoc; reflexivity.
  - rewrite <- !app_assoc. reflexivity.
Qed.

(** A loop whose body raises [e] on the elements that fail [ok], and
    returns on the others, raises [e] exactly when some element fails. *)
Lemma for_each_raise {A} (ok : A -> bool) (e : exn) (xs : list A)
    (body : A -> M stdout unit) :
  (forall x out, fst (body x out) = if ok x then inr tt else inl e) ->
  forall out,
    fst (for_each xs body out) = if forallb ok xs then inr tt else inl e.
Proof.
  intros H. induction xs as [|x xs IH]; intros out; [reflexivity|].
  rewrite for_each_cons. specialize (H x out). cbn [forallb].
  destruct (body x out) as [[e'|[]] out']; cbn [fst] in H;
    destruct (ok x); try discriminate; cbn [andb].
  - exact H.
  - apply IH.
Qed.

Lemma forallb_enumerate {A} (ok : A -> bool) (l : list A) :
  forallb (fun it => ok (snd it)) (enumerate1 l) = forallb ok l.
Proof.
  unfold enumerate1. generalize 1%nat.
  induction l as [|x l IH]; intros n; [reflexivity|].
  cbn [List.length seq map combine forallb snd]. rewrite IH. reflexivity.
Qed.

(** Lines 134-139 raise [IndexError] exactly when one of the time
    stamps listed has no ['T']: line 137 takes the second part of the
    split with no test. *)
Lemma strict_top10_end (st : state) (out : stdout) :
  fst (print_top10 st out) =
  if forallb (fun f => contains "T" (timestamp f)) (top10 (time_spreads st))
  then inr tt else inl IndexError.
Proof.
  unfold print_top10, print, modify. cbn [bind Monad_M].
  rewrite <- (forallb_enumerate (fun f => contains "T" (timestamp f))).
  apply for_each_raise. intros it o. cbn [snd].
  pose proof (split_second "T" (timestamp (snd it))) as H. unfold lift.
  destruct (contains "T" (timestamp (snd it))).
  - destruct H as (a & b & rest & ->). reflexivity.
  - rewrite H. reflexivity.
Qed.

End Facts.
End V1More.

(** ** The report of the defensive script *)

Module V2Report.
Import Py Common Stmt Tally V2 V2Facts V2More.
Local Open Scope py_scope.

(** [raises_only Q m]: whatever was printed before, the statement [m]
    raises nothing but exceptions in [Q]. *)
Definition raises_only {A} (Q : exn -> Prop) (m : M stdout A) : Prop :=
  forall out e, fst (m out) = inl e -> Q e.

Section Rules.
Variable Q : exn -> Prop.

Lemma ro_returns {A} (m : M stdout A) :
  (forall out, exists a, fst (m out) = inr a) -> raises_only Q m.
Proof. intros H out e E. destruct (H out) as [a Ha]. congruence. Qed.

Lemma ro_lift {A} (x : E A) : only Q x -> raises_only Q (lift x).
Proof. intros H out e E. apply H. exact E. Qed.

Lemma ro_print (n : nat) (vs : list value) : raises_only Q (print n vs).
Proof. intros out e E. discriminate E. Qed.

Lemma ro_ret {A} (a : A) : raises_only Q (ret a).
Proof. intros out e E. discriminate E. Qed.

Lemma ro_bind {A C} (m : M stdout A) (k : A -> M stdout C) :
  raises_only Q m -> (forall a, raises_only Q (k a)) ->
  raises_only Q (bind m k).
Proof.
  intros Hm Hk out e. cbn. specialize (Hm out).
  destruct (m out) as [[e'|a] out']; cbn [fst] in *.
  - intros E. inversion E; subst. apply Hm. reflexivity.
  - apply Hk.
Qed.

Lemma ro_if {A} (c : bool) (m1 m2 : M stdout A) :
  raises_only Q m1 -> raises_only Q m2 -> raises_only Q (if c then m1 else m2).
Proof. destruct c; auto. Qed.

Lemma ro_when (c : bool) (m : M stdout unit) :
  raises_only Q m -> raises_only Q (when c m).
Proof. intros H. destruct c; [exact H | apply ro_ret]. Qed.

Lemma ro_for_each {A} (xs : list A) (body : A -> M stdout unit) :
  (forall x, raises_only Q (body x)) -> raises_only Q (for_each xs body).
Proof.
  intros H. induction xs as [|x xs IH]; [apply ro_ret|].
  cbn [for_each]. apply ro_bind; [apply H | intros _; exact IH].
Qed.

Lemma only_int_truediv (a b : Z) :
  Q ZeroDivisionError -> only Q (int_truediv a b).
Proof.
  intros H e. unfold int_truediv. destruct (b =? 0); [|discriminate].
  intros E. inversion E. subst. exact H.
Qed.

Lemma only_float_div_int (x : float) (n : Z) :
  Q ZeroDivisionError -> only Q (float_div_int x n).
Proof.
  intros H e. unfold float_div_int. destruct (n =? 0); [|discriminate].
  intros E. inversion E. subst. exact H.
Qed.

Lemma only_float_truediv (x y : float) :
  Q ZeroDivisionError -> only Q (float_truediv x y).
Proof.
  intros H e. unfold float_truediv. destruct (PrimFloat.eqb y 0); [|discriminate].
  intros E. inversion E. subst. exact H.
Qed.

Lemma only_int_of_float (x : float) :
  Q OverflowError -> Q ValueError -> only Q (int_of_float x).
Proof.
  intros Ho Hv e. unfold int_of_float.
  destruct (Prim2SF x); try discriminate; intros E; inversion E; subst;
    assumption.
Qed.

Lemma only_defined {A} (x : E A) : (exists a, x = inr a) -> only Q x.
Proof. intros [a ->] e E. discriminate E. Qed.

End Rules.

Section Facts.
Variable B : Builtins.

(** A row that lines 34-41 convert has, in its 28th and 29th fields,
    a number or nothing: lines 40 and 41 put 0 for an empty field. *)
Lemma convert_floats (row : row) (f : fields) :
  (len row <? 29) = false -> convert B row = inr f ->
  (py_float B (nth 27 row ""%string) = None -> nth 27 row ""%string = ""%string) /\
  (py_float B (nth 28 row ""%string) = None -> nth 28 row ""%string = ""%string).
Proof.
  intros Hlen. unfold convert.
  rewrite !getitem_lt by (apply len_ge; [exact Hlen | lia]).
  assert ((5 <? len row) = true) as -> by (apply Z.ltb_ge in Hlen; apply Z.ltb_lt; lia).
  assert ((27 <? len row) = true) as -> by (apply Z.ltb_ge in Hlen; apply Z.ltb_lt; lia).
  assert ((28 <? len row) = true) as -> by (apply Z.ltb_ge in Hlen; apply Z.ltb_lt; lia).
  cbn [bind ret Monad_E].
  destruct (if truthy (nth 1 row ""%string) then _ else _) as [?|v1];
    [discriminate|].
  destruct (if truthy (nth 3 row ""%string) then _ else _) as [?|v3];
    [discriminate|].
  destruct (if truthy (nth 4 row ""%string) then _ else _) as [?|v4];
    [discriminate|].
  unfold to_float.
  destruct (truthy (nth 27 row ""%string)) eqn:T27;
    [destruct (py_float B (nth 27 row ""%string)); cbn [of_option];
       [|discriminate]|];
  (destruct (truthy (nth 28 row ""%string)) eqn:T28;
    [destruct (py_float B (nth 28 row ""%string)); cbn [of_option];
       [|discriminate]|]);
  intros _; split; intros E;
    first [discriminate E | apply truthy_false; assumption].
Qed.

(** The row retained is a data row of 29 or more fields that lines
    34-41 convert. *)
Lemma retained_converts (data : list row) (st : state) (e : row) :
  max_spread_entry (run B data st) = Some e ->
  max_spread_entry st = Some e \/
  (In e data /\ (len e <? 29) = false /\ exists f, convert B e = inr f).
Proof.
  unfold run. revert st. induction data as [|row data IH]; intros st H.
  - left. exact H.
  - cbn [fold_left] in H. destruct (IH _ H) as [Hs|(Hin & Hr)].
    + unfold step in Hs. destruct (len row <? 29) eqn:L; [left; exact Hs|].
      destruct (convert B row) as [x|f] eqn:C; [left; exact Hs|].
      cbn in Hs. destruct (PrimFloat.ltb (max_spread st) (spread f)).
      * inversion Hs; subst. right.
        split; [left; reflexivity|]. split; [exact L|]. exists f. exact C.
      * left. exact Hs.
    + right. split; [right; exact Hin | exact Hr].
Qed.

(** The counters after any data rows: no more opportunities than
    records, no more records than rows counted. *)
Lemma counters_run (data : list row) :
  0 <= opportunities (run B data init) <= total_scans (run B data init).
Proof.
  destruct (flagged_run B data) as [Ho _].
  destruct (run_records B data init) as [Ht Hn].
  cbn [time_spreads total_scans init app] in Ht, Hn.
  rewrite Ho, Hn, Ht. pose proof (records_le B data) as Hle.
  assert (len (filter (fun f => has_opp f =? 1) (records B data))
          <= len (records B data)) as Hf.
  { unfold len. apply inj_le. apply filter_length_le. }
  unfold len in *. lia.
Qed.

(** The exceptions that the report may raise after a read pass. *)
Definition report_exn (e : exn) : Prop :=
  e = ValueError \/ e = ZeroDivisionError \/ e = OverflowError.

Lemma top_case_raises (data : list row) :
  raises_only report_exn (print_top_case B (run B data init)).
Proof.
  intros out e.
  destruct (max_spread_entry (run B data init)) as [r|] eqn:Hm.
  - destruct (retained_converts data init r Hm) as [Hs|(_ & Hlen & _)];
      [discriminate Hs|].
    rewrite (top_case_prints B _ r out Hm Hlen).
    destruct (py_float B (nth 27 r ""%string));
      [destruct (py_float B (nth 28 r ""%string))|]; cbn [fst];
      intros E; inversion E; left; reflexivity.
  - unfold print_top_case. rewrite Hm. intros E. discriminate E.
Qed.

Lemma report_raises (data : list row) :
  raises_only report_exn (report B (run B data init)).
Proof.
  pose proof (top_case_raises data) as Htop.
  assert (raises_only report_exn (print_pairs B (run B data init))) as Hpairs.
  { apply ro_returns. intros out. exists tt. apply pairs_return.
    apply (grouped_run B data). }
  assert (raises_only report_exn (print_rejects (run B data init))) as Hrej.
  { intros out e. rewrite rejects_end.
    destruct (total_scans (run B data init) =? 0); intros E; inversion E.
    right. left. reflexivity. }
  assert (raises_only report_exn (print_top20 (run B data init))) as H20.
  { apply ro_returns. intros out. exists tt. rewrite top20_prints. reflexivity. }
  assert (raises_only report_exn (print_high (run B data init))) as Hhigh.
  { apply ro_returns. intros out. exists tt. rewrite high_prints. reflexivity. }
  assert (forall avg,
    raises_only report_exn (print_conclusion (run B data init) avg)) as Hend.
  { intros avg. apply ro_returns. intros out. exists tt.
    apply conclusion_returns. apply counters_run. }
  assert (raises_only report_exn (print_distribution (run B data init)))
    as Hdist.
  { unfold print_distribution. cbv zeta.
    apply ro_bind; [apply ro_print | intros _].
    apply ro_for_each. intros r.
    apply ro_bind; [apply ro_lift | intros pct].
    { apply only_if; [|apply only_ret].
      apply only_bind; [|intros q; apply only_ret].
      apply only_int_truediv. right. left. reflexivity. }
    apply ro_bind; [apply ro_lift | intros half].
    { apply only_float_div_int. right. left. reflexivity. }
    apply ro_bind; [apply ro_lift | intros bar; apply ro_print].
    apply only_int_of_float; [right; right | left]; reflexivity. }
  generalize dependent (run B data init). intros st Htop Hpairs Hrej H20 Hhigh
    Hend Hdist.
  unfold report.
  apply ro_bind; [apply ro_lift, only_defined, summary_ok | intros sp].
  apply ro_bind; [apply ro_lift, only_defined, median_spread_ok | intros med].
  apply ro_bind; [apply ro_lift, only_defined, summary_ok | intros eth].
  apply ro_bind; [apply ro_lift, only_defined, summary_ok | intros gas].
  apply ro_bind.
  { apply ro_returns. intros out.
    destruct (hours_total B (time_spreads st) out) as [h ->]. exists h.
    reflexivity. }
  intros h. cbv zeta.
  repeat (apply ro_bind; [apply ro_print | intros _]).
  apply ro_bind; [apply ro_lift | intros rate].
  { apply only_if; [|apply only_ret].
    apply only_bind; [|intros q; apply only_ret].
    apply only_int_truediv. right. left. reflexivity. }
  repeat (apply ro_bind; [apply ro_print | intros _]).
  apply ro_bind.
  { apply ro_when. apply ro_bind; [apply ro_lift | intros q; apply ro_print].
    apply only_float_truediv. right. left. reflexivity. }
  intros _.
  repeat (apply ro_bind; [apply ro_print | intros _]).
  apply ro_bind; [exact Htop | intros _].
  apply ro_bind; [exact Hpairs | intros _].
  apply ro_bind; [exact Hrej | intros _].
  apply ro_bind; [exact Hdist | intros _].
  apply ro_bind; [exact H20 | intros _].
  apply ro_bind; [exact Hhigh | intros _].
  apply Hend.
Qed.


End Facts.
End V2Report.

(** ** The ranges of the spread distribution *)

Module Partition.
Import Py Common Histogram.

(** The ranges follow one another from [lo] on: each starts where the
    one before it ends, below its own end. *)
Fixpoint chained (lo : float) (ranges : list (string * float * float))
    : Prop :=
  match ranges with
  | [] => True
  | r :: rest =>
      low r = lo /\ PrimFloat.ltb lo (high r) = true /\ chained (high r) rest
  end.

(** The end of the last range. *)
Fixpoint ceiling (lo : float) (ranges : list (string * float * float))
    : float :=
  match ranges with
  | [] => lo
  | r :: rest => ceiling (high r) rest
  end.

Lemma ceiling_ge (lo : float) ranges :
  PrimFloat.is_nan lo = false -> chained lo ranges ->
  PrimFloat.leb lo (ceiling lo ranges) = true.
Proof.
  revert lo. induction ranges as [|r rest IH]; intros lo Hlo Hc.
  - apply FloatOrder.leb_refl. exact Hlo.
  - destruct Hc as (_ & Hlt & Hrest). cbn [ceiling].
    apply (FloatOrder.leb_trans _ (high r)).
    + apply FloatOrder.ltb_leb. exact Hlt.
    + apply IH; [|exact Hrest].
      apply FloatOrder.ltb_true_nan in Hlt. apply Hlt.
Qed.

Lemma lows_ge (lo : float) ranges r :
  chained lo ranges -> In r ranges -> PrimFloat.leb lo (low r) = true.
Proof.
  revert lo. induction ranges as [|r0 rest IH]; intros lo Hc Hin; [destruct Hin|].
  destruct Hc as (Hlow & Hlt & Hrest). destruct Hin as [<-|Hin].
  - rewrite Hlow. apply FloatOrder.leb_refl.
    apply FloatOrder.ltb_true_nan in Hlt. apply Hlt.
  - apply (FloatOrder.leb_trans _ (high r0)).
    + apply FloatOrder.ltb_leb. exact Hlt.
    + apply IH; assumption.
Qed.

(** Below the first range, and for NaN, no range holds. *)
Lemma holds_below (lo : float) ranges s :
  chained lo ranges -> PrimFloat.leb lo s = false ->
  find (holds s) ranges = None.
Proof.
  revert lo. induction ranges as [|r rest IH]; intros lo Hc Hs; [reflexivity|].
  destruct Hc as (Hlow & Hlt & Hrest). cbn [find]. unfold holds at 1.
  rewrite Hlow, Hs. cbn [andb]. apply (IH (high r)); [exact Hrest|].
  destruct (PrimFloat.leb (high r) s) eqn:E; [|reflexivity].
  rewrite <- Hs. symmetry. apply (FloatOrder.leb_trans _ (high r)).
  - apply FloatOrder.ltb_leb. exact Hlt.
  - exact E.
Qed.

Lemma holds_from (ranges : list (string * float * float)) s :
  forall lo, chained lo ranges -> PrimFloat.leb lo s = true ->
  in_bucket ranges s = PrimFloat.ltb s (ceiling lo ranges).
Proof.
  induction ranges as [|r rest IH]; intros lo Hc Hs.
  - cbn. symmetry. apply FloatOrder.leb_not_ltb. exact Hs.
  - destruct Hc as (Hlow & Hlt & Hrest).
    unfold in_bucket, bucket_of. cbn [find ceiling]. unfold holds at 1.
    rewrite Hlow, Hs. cbn [andb].
    destruct (PrimFloat.ltb s (high r)) eqn:E.
    + cbn. symmetry. apply (FloatOrder.ltb_leb_trans _ (high r)); [exact E|].
      apply ceiling_ge; [|exact Hrest].
      apply FloatOrder.ltb_true_nan in Hlt. apply Hlt.
    + apply (IH (high r) Hrest).
      apply FloatOrder.not_ltb_leb; [| |exact E].
      * apply FloatOrder.ltb_true_nan in Hlt. apply Hlt.
      * apply FloatOrder.leb_true_nan in Hs. apply Hs.
Qed.

(** Chained ranges hold exactly the spreads from the start of the first
    to the end of the last. *)
Lemma in_bucket_chained (lo : float) ranges s :
  chained lo ranges ->
  in_bucket ranges s
  = PrimFloat.leb lo s && PrimFloat.ltb s (ceiling lo ranges).
Proof.
  intros Hc. destruct (PrimFloat.leb lo s) eqn:Hs; cbn [andb].
  - apply holds_from; assumption.
  - unfold in_bucket, bucket_of. rewrite (holds_below lo ranges s Hc Hs).
    reflexivity.
Qed.

(** Chained ranges do not overlap: a range that holds [s] is the first
    that does. *)
Lemma first_is_only (lo : float) ranges r s :
  chained lo ranges -> In r ranges -> holds s r = true ->
  find (holds s) ranges = Some r.
Proof.
  revert lo. induction ranges as [|r0 rest IH]; intros lo Hc Hin Hh;
    [destruct Hin|].
  destruct Hc as (Hlow & Hlt & Hrest). cbn [find].
  destruct Hin as [->|Hin]; [rewrite Hh; reflexivity|].
  assert (holds s r0 = false) as ->; [|apply (IH (high r0)); assumption].
  unfold holds in *. apply andb_prop in Hh. destruct Hh as [Hlo _].
  pose proof (lows_ge (high r0) rest r Hrest Hin) as Hge.
  pose proof (FloatOrder.leb_trans _ _ _ Hge Hlo) as Hs.
  apply FloatOrder.leb_not_ltb in Hs. rewrite Hs. apply andb_false_r.
Qed.

Lemma label_inj (ranges : list (string * float * float)) r r' :
  NoDup (map label ranges) -> In r ranges -> In r' ranges ->
  label r = label r' -> r = r'.
Proof.
  induction ranges as [|r0 rest IH]; intros Hnd Hr Hr' E; [destruct Hr|].
  inversion Hnd as [|? ? Hnot Hnd']; subst.
  destruct Hr as [->|Hr], Hr' as [->|Hr'].
  - reflexivity.
  - exfalso. apply Hnot. rewrite E. apply in_map. exact Hr'.
  - exfalso. apply Hnot. rewrite <- E. apply in_map. exact Hr.
  - apply IH; assumption.
Qed.

(** The count kept under a label: the spreads whose first range has
    this label. *)
Lemma count_of_histogram ranges spreads l :
  count_of (histogram ranges spreads) l =
  len (filter (fun s => match bucket_of ranges s with
                        | Some l' => String.eqb l' l
                        | None => false
                        end) spreads).
Proof.
  unfold histogram.
  assert (forall c,
    count_of (fold_left (fun counts s => count_one ranges s counts) spreads c) l
    = count_of c l
      + len (filter (fun s => match bucket_of ranges s with
                              | Some l' => String.eqb l' l
                              | None => false
                              end) spreads)) as H.
  { induction spreads as [|s spreads IH]; intros c; [cbn; lia|].
    cbn [fold_left filter]. rewrite IH, count_one_bucket.
    destruct (bucket_of ranges s) as [l'|].
    - rewrite count_of_incr. unfold len.
      destruct (String.eqb l' l); cbn [List.length]; lia.
    - lia. }
  rewrite H, count_of_init. lia.
Qed.

(** With chained ranges under distinct labels, the count printed for a
    range is the number of spreads that the range holds. *)
Lemma count_of_range (lo : float) ranges r spreads :
  chained lo ranges -> NoDup (map label ranges) -> In r ranges ->
  count_of (histogram ranges spreads) (label r) =
  len (filter (fun s => holds s r) spreads).
Proof.
  intros Hc Hnd Hin. rewrite count_of_histogram.
  rewrite (filter_ext _ (fun s => holds s r)); [reflexivity|]. intros s.
  destruct (holds s r) eqn:Hh.
  - unfold bucket_of. rewrite (first_is_only lo ranges r s Hc Hin Hh).
    cbn. apply String.eqb_refl.
  - destruct (bucket_of ranges s) as [l'|] eqn:E; [|reflexivity].
    destruct (String.eqb l' (label r)) eqn:El; [|reflexivity].
    apply String.eqb_eq in El.
    destruct (bucket_of_in _ _ _ E) as (r' & Hin' & Hl & Hh').
    assert (r' = r) as -> by (apply (label_inj ranges); congruence).
    congruence.
Qed.

Lemma strict_ranges_chained : chained 0 V1.spread_ranges.
Proof. cbn. repeat split. Qed.

Lemma defensive_ranges_chained : chained 0 V2.spread_ranges.
Proof. cbn. repeat split. Qed.

End Partition.

(** ** The order of the tables printed *)

Module Ranking.
Import Py Common Tally.

Section Insertion.
Context {A : Type}.
Variable lt : A -> A -> bool.

(** [a] is not after [b]. *)
Definition le (a b : A) : Prop := lt b a = false.

Hypothesis lt_asym : forall a b, lt a b = true -> lt b a = false.
Hypothesis le_trans : forall a b c, le a b -> le b c -> le a c.

Lemma insert_sorted (x : A) (l : list A) :
  StronglySorted le l -> StronglySorted le (insert lt x l).
Proof.
  intros Hs. induction Hs as [|y l Hs IH Hy]; cbn [insert].
  - repeat constructor.
  - destruct (lt y x) eqn:E.
    + constructor; [exact IH|].
      apply (Permutation_Forall (Permutation_sym (insert_perm_any lt x l))).
      constructor; [apply lt_asym; exact E | exact Hy].
    + constructor; [constructor; assumption|].
      constructor; [exact E|].
      rewrite Forall_forall in *. intros z Hz.
      apply (le_trans x y z); [exact E | apply Hy; exact Hz].
Qed.

Lemma isort_sorted (l : list A) : StronglySorted le (isort lt l).
Proof.
  induction l as [|x l IH]; [constructor|]. cbn [isort].
  apply insert_sorted. exact IH.
Qed.

(** Elements that do not compare below one another keep their order. *)
Lemma filter_insert_any (p : A -> bool) (x : A) (l : list A) :
  (forall y, p x = true -> p y = true -> lt y x = false) ->
  filter p (insert lt x l) = filter p (x :: l).
Proof.
  intros Hp. induction l as [|y l IH]; [reflexivity|]. cbn [insert].
  destruct (lt y x) eqn:L; [|reflexivity].
  cbn [filter] in *. rewrite IH.
  destruct (p x) eqn:Px, (p y) eqn:Py; try reflexivity.
  rewrite (Hp y eq_refl Py) in L. discriminate.
Qed.

Lemma filter_isort_any (p : A -> bool) (l : list A) :
  (forall x y, p x = true -> p y = true -> lt y x = false) ->
  filter p (isort lt l) = filter p l.
Proof.
  intros Hp. induction l as [|x l IH]; [reflexivity|]. cbn [isort].
  rewrite filter_insert_any by (intros y; apply Hp).
  cbn. rewrite IH. reflexivity.
Qed.

End Insertion.

(** *** Strings in the order of their characters *)

Lemma ascii_compare_refl (a : ascii) : Ascii.compare a a = Eq.
Proof. unfold Ascii.compare. apply N.compare_refl. Qed.

Lemma string_le_trans (a b c : string) :
  String.compare a b <> Gt -> String.compare b c <> Gt ->
  String.compare a c <> Gt.
Proof.
  revert b c. induction a as [|x a IH]; intros [|y b] [|z c]; cbn;
    try congruence.
  destruct (Ascii.compare x y) eqn:Exy; try congruence;
    destruct (Ascii.compare y z) eqn:Eyz; try congruence.
  - apply Ascii.compare_eq_iff in Exy, Eyz. subst.
    rewrite ascii_compare_refl. apply IH.
  - apply Ascii.compare_eq_iff in Exy. subst. rewrite Eyz. congruence.
  - apply Ascii.compare_eq_iff in Eyz. subst. rewrite Exy. congruence.
  - unfold Ascii.compare in *. rewrite N.compare_lt_iff in Exy, Eyz.
    assert (N.compare (N_of_ascii x) (N_of_ascii z) = Lt) as ->
      by (apply N.compare_lt_iff; lia).
    congruence.
Qed.

Lemma string_ltb_asym (a b : string) :
  String.ltb a b = true -> String.ltb b a = false.
Proof.
  unfold String.ltb. rewrite (String.compare_antisym a b).
  destruct (String.compare b a); cbn; congruence.
Qed.

Lemma string_ltb_le_trans (a b c : string) :
  String.ltb b a = false -> String.ltb c b = false -> String.ltb c a = false.
Proof.
  unfold String.ltb. intros H1 H2.
  pose proof (string_le_trans a b c) as H.
  rewrite (String.compare_antisym b a) in H1.
  rewrite (String.compare_antisym c b) in H2.
  rewrite (String.compare_antisym c a).
  destruct (String.compare a b), (String.compare b c), (String.compare a c);
    cbn in *; try congruence; exfalso; apply H; congruence.
Qed.

(** The items of a table in the order of [sorted(d.items())]: keys
    ascending. *)
Lemma sorted_items_ascending {V} (d : dict V) :
  StronglySorted (fun a b => String.ltb (fst b) (fst a) = false)
    (sorted_items d).
Proof.
  unfold sorted_items, sorted.
  apply (isort_sorted (fun a b : string * V => String.ltb (fst a) (fst b))).
  - intros a b. apply string_ltb_asym.
  - intros a b c. unfold le. apply string_ltb_le_trans.
Qed.

(** With distinct keys the order is strict. *)
Lemma sorted_strict {V} (l : list (string * V)) :
  NoDup (map fst l) ->
  StronglySorted (fun a b => String.ltb (fst b) (fst a) = false) l ->
  StronglySorted (fun a b => String.ltb (fst a) (fst b) = true) l.
Proof.
  intros Hnd Hs. induction Hs as [|a l Hs IH Ha]; [constructor|].
  cbn [map] in Hnd. inversion Hnd as [|? ? Hnot Hnd']; subst.
  constructor; [apply IH; exact Hnd'|].
  rewrite Forall_forall in *. intros b Hb. specialize (Ha b Hb).
  unfold String.ltb in *. rewrite (String.compare_antisym (fst b) (fst a)) in Ha.
  destruct (String.compare (fst a) (fst b)) eqn:E; cbn in Ha;
    [|reflexivity|discriminate].
  apply String.compare_eq_iff in E. exfalso. apply Hnot. rewrite E.
  apply in_map. exact Hb.
Qed.

(** The items of a table in the order of line 157 (line 103 of the
    strict script): counts descending. *)
Lemma by_count_descending (d : dict Z) :
  StronglySorted (fun a b => snd b <= snd a) (sorted_by_count_desc d).
Proof.
  unfold sorted_by_count_desc, sorted.
  assert (StronglySorted (le (fun a b : string * Z => - snd a <? - snd b))
            (isort (fun a b => - snd a <? - snd b) d)) as H.
  { apply isort_sorted.
    - intros a b H. apply Z.ltb_lt in H. apply Z.ltb_ge. lia.
    - intros a b c. unfold le. rewrite !Z.ltb_ge. lia. }
  induction H as [|a l Hs IH Ha]; constructor; [exact IH|].
  rewrite Forall_forall in *. intros b Hb. specialize (Ha b Hb).
  unfold le in Ha. apply Z.ltb_ge in Ha. lia.
Qed.

(** Reasons with the same count keep the order of the table. *)
Lemma by_count_stable (d : dict Z) (n : Z) :
  filter (fun a => snd a =? n) (sorted_by_count_desc d)
  = filter (fun a => snd a =? n) d.
Proof.
  unfold sorted_by_count_desc, sorted. apply filter_isort_any.
  intros x y Hx Hy. apply Z.eqb_eq in Hx, Hy. apply Z.ltb_ge. lia.
Qed.

End Ranking.

(** ** How far a statement gets *)

Module Reach.
Import Py Common Stmt Output V2 V2Facts.
Local Open Scope py_scope.

(** [reaches n m]: whatever was printed before, [m] prints a record of
    line [n]. *)
Definition reaches {A} (n : nat) (m : M stdout A) : Prop :=
  forall out, exists pre vs rest, snd (m out) = out ++ pre ++ P n vs :: rest.

(** [appends m]: [m] returns, and only appends to the output. *)
Definition appends {A} (m : M stdout A) : Prop :=
  forall out, exists a added, m out = (inr a, out ++ added).

Lemma appends_print (n : nat) (vs : list value) : appends (print n vs).
Proof. intros out. exists tt, [P n vs]. reflexivity. Qed.

Lemma appends_lift {A} (x : E A) : (exists a, x = inr a) -> appends (lift x).
Proof.
  intros [a ->] out. exists a, []. unfold lift. rewrite app_nil_r. reflexivity.
Qed.

Lemma reaches_here {A} (n : nat) (vs : list value) (k : unit -> M stdout A) :
  emits (fun _ => True) (k tt) -> reaches n (bind (print n vs) k).
Proof.
  intros Hk out. cbn. destruct (Hk (out ++ [P n vs])) as (added & E & _).
  exists [], vs, added. rewrite E, <- app_assoc. reflexivity.
Qed.

Lemma reaches_after {A C} (n : nat) (m : M stdout A) (k : A -> M stdout C) :
  appends m -> (forall a, reaches n (k a)) -> reaches n (bind m k).
Proof.
  intros Hm Hk out. cbn. destruct (Hm out) as (a & added & E). rewrite E.
  destruct (Hk a (out ++ added)) as (pre & vs & rest & E').
  exists (added ++ pre), vs, rest. rewrite E', <- !app_assoc. reflexivity.
Qed.

Lemma reaches_first {A C} (n : nat) (m : M stdout A) (k : A -> M stdout C) :
  reaches n m -> (forall a, emits (fun _ => True) (k a)) ->
  reaches n (bind m k).
Proof.
  intros Hm Hk out. cbn. destruct (Hm out) as (pre & vs & rest & E).
  destruct (m out) as [[e|a] out']; cbn [snd] in E; subst out'.
  - exists pre, vs, rest. reflexivity.
  - destruct (Hk a (out ++ pre ++ P n vs :: rest)) as (added & E' & _).
    exists pre, vs, (rest ++ added). rewrite E', <- !app_assoc. reflexivity.
Qed.

Section Facts.
Variable B : Builtins.

(** Line 118: the rate of opportunities divides only by a positive
    count. *)
Lemma rate_defined (st : state) :
  exists rate,
    (if 0 <? total_scans st
     then q <- int_truediv (opportunities st) (total_scans st) ;;
          ret (PrimFloat.mul q 100)
     else ret 0%float) = inr rate.
Proof.
  destruct (0 <? total_scans st) eqn:E; [|eexists; reflexivity].
  unfold int_truediv.
  assert ((total_scans st =? 0) = false) as ->
    by (apply Z.eqb_neq; apply Z.ltb_lt in E; lia).
  eexists. reflexivity.
Qed.

(** Lines 129-131: the volatility divides only by a positive price. *)
Lemma volatility_appends (max_eth min_eth : float) :
  appends
    (when (PrimFloat.ltb 0 min_eth)
       (q <- lift (float_truediv (PrimFloat.sub max_eth min_eth) min_eth) ;;
        print 131 [VF (PrimFloat.sub max_eth min_eth);
                   VF (PrimFloat.mul q 100)])).
Proof.
  intros out. unfold when. destruct (PrimFloat.ltb 0 min_eth) eqn:E.
  - unfold lift, float_truediv.
    assert (PrimFloat.eqb min_eth 0 = false) as ->.
    { destruct (PrimFloat.eqb min_eth 0) eqn:Q; [|reflexivity].
      apply FloatOrder.eqb_not_ltb in Q. destruct Q as [_ Q]. congruence. }
    eexists tt, _. reflexivity.
  - exists tt, []. cbn. rewrite app_nil_r. reflexivity.
Qed.

(** The statistics of the defensive script never raise, whatever the
    store: the report always gets to the heading of line 137. *)
Lemma report_reaches_top_case (st : state) : reaches 137 (report B st).
Proof.
  unfold report.
  apply reaches_after; [apply appends_lift, summary_ok | intros sp].
  apply reaches_after; [apply appends_lift, median_spread_ok | intros md].
  apply reaches_after; [apply appends_lift, summary_ok | intros eth].
  apply reaches_after; [apply appends_lift, summary_ok | intros gas].
  apply reaches_after.
  { intros out. destruct (hours_total B (time_spreads st) out) as [h ->].
    exists h, []. rewrite app_nil_r. reflexivity. }
  intros h. cbv zeta.
  do 8 (apply reaches_after; [apply appends_print | intros _]).
  apply reaches_after; [apply appends_lift, rate_defined | intros rate].
  do 9 (apply reaches_after; [apply appends_print | intros _]).
  apply reaches_after; [apply volatility_appends | intros _].
  do 3 (apply reaches_after; [apply appends_print | intros _]).
  apply reaches_first.
  - unfold print_top_case. apply reaches_here.
    destruct (max_spread_entry st); Output.emits_tac; exact I.
  - intros _.
    unfold print_pairs, print_rejects, print_distribution, print_top20,
      print_high, print_conclusion.
    cbv zeta. Output.emits_tac; exact I.
Qed.

End Facts.
End Reach.

(** ** Further properties of the scripts *)

(** X1. Over the rows that [csv.reader] yields, the header first, the
    loop of the defensive script never raises: whatever a row holds,
    line 28 passes over it or the [try] of lines 33-70 catches what
    its conversion raises. The loop counts in [total_scans] the data
    rows of 29 or more fields, and keeps in [time_spreads], in file
    order, the records of those among them that lines 34-41 convert;
    so there are never more records than rows counted. What the
    reader itself may raise while it reads the file is not part of
    this. *)
Theorem defensive_read_pass_keeps_converted_rows (B : Py.Builtins)
    (header : Py.row) (data : list Py.row) :
  fst (V2.read_pass B (header :: data) V2.init) = inr tt /\
  V2.total_scans (snd (V2.read_pass B (header :: data) V2.init))
    = Py.len (filter (fun row => 29 <=? Py.len row) data) /\
  V2.time_spreads (snd (V2.read_pass B (header :: data) V2.init))
    = V2More.records B data /\
  Py.len (V2.time_spreads (snd (V2.read_pass B (header :: data) V2.init)))
    <= V2.total_scans (snd (V2.read_pass B (header :: data) V2.init)).
Proof.
  rewrite V2Facts.read_pass_spec. cbn [fst snd].
  destruct (V2More.run_records B data V2.init) as [Ht Hn].
  cbn [V2.time_spreads V2.total_scans V2.init app] in Ht, Hn.
  rewrite Ht, Hn. repeat split; try reflexivity.
  replace (0 + Py.len (filter (fun row => 29 <=? Py.len row) data))
    with (Py.len (filter (fun row => 29 <=? Py.len row) data)) by lia.
  apply V2More.records_le.
Qed.

(** X2. In the defensive script the lists [spreads], [eth_prices] and
    [gas_prices] hold, element by element, the spread, the ETH price
    and the gas price of the records of [time_spreads], after any rows
    were read. *)
Theorem defensive_lists_stay_aligned (B : Py.Builtins) (rows : list Py.row) :
  V2.spreads (snd (V2.read_pass B rows V2.init))
    = map V2.spread (V2.time_spreads (snd (V2.read_pass B rows V2.init))) /\
  V2.eth_prices (snd (V2.read_pass B rows V2.init))
    = map V2.eth_price (V2.time_spreads (snd (V2.read_pass B rows V2.init))) /\
  V2.gas_prices (snd (V2.read_pass B rows V2.init))
    = map V2.gas_gwei (V2.time_spreads (snd (V2.read_pass B rows V2.init))).
Proof.
  destruct rows as [|header data]; [repeat split|].
  rewrite V2Facts.read_pass_spec. apply V2More.aligned_run.
Qed.

(** X3. In the defensive script [opportunities] is the number of
    records whose flag is 1, and [high_spread_cases] lists, in file
    order, the records whose spread is at least 0.17 and whose flag is
    0. No record is in both counts, so together they are at most the
    number of records. *)
Theorem defensive_flags_are_counted (B : Py.Builtins) (rows : list Py.row) :
  V2.opportunities (snd (V2.read_pass B rows V2.init))
    = Py.len (filter (fun f => V2.has_opp f =? 1)
                (V2.time_spreads (snd (V2.read_pass B rows V2.init)))) /\
  V2.high_spread_cases (snd (V2.read_pass B rows V2.init))
    = map V2More.case_of
        (filter (fun f => PrimFloat.leb 0.17 (V2.spread f) && (V2.has_opp f =? 0))
           (V2.time_spreads (snd (V2.read_pass B rows V2.init)))) /\
  V2.opportunities (snd (V2.read_pass B rows V2.init))
  + Py.len (V2.high_spread_cases (snd (V2.read_pass B rows V2.init)))
    <= Py.len (V2.time_spreads (snd (V2.read_pass B rows V2.init))).
Proof.
  assert (V2More.flagged (snd (V2.read_pass B rows V2.init))) as [H1 H2].
  { destruct rows as [|header data]; [split; reflexivity|].
    rewrite V2Facts.read_pass_spec. apply V2More.flagged_run. }
  split; [exact H1|]. split; [exact H2|].
  rewrite H1, H2. unfold Py.len. rewrite length_map.
  generalize (V2.time_spreads (snd (V2.read_pass B rows V2.init))).
  intros l. induction l as [|f l IH]; [cbn; lia|].
  cbn [filter]. unfold V2More.is_high.
  destruct (V2.has_opp f =? 1) eqn:E1, (V2.has_opp f =? 0) eqn:E0;
    rewrite ?andb_false_r; cbn [List.length].
  - apply Z.eqb_eq in E1, E0. lia.
  - unfold V2More.is_high in IH. lia.
  - destruct (PrimFloat.leb 0.17 (V2.spread f)); cbn [andb List.length];
      unfold V2More.is_high in IH; lia.
  - unfold V2More.is_high in IH. lia.
Qed.


(** X4. In both scripts, after any rows were read, the table
    [reject_reasons] holds under each key the number of records of
    [time_spreads] whose trimmed reject reason is this key; records
    with an empty reason are counted nowhere, so the counts add up to
    the number of records with a reason; and no key occurs twice. *)
Theorem reject_table_counts_records (B : Py.Builtins) (rows : list Py.row) :
  (let st := snd (V2.read_pass B rows V2.init) in
   (forall k,
      Common.count_of (V2.reject_reasons st) k =
      Py.len (filter (fun f => Py.truthy (V2.reject_reason f)
                               && String.eqb (V2.reject_reason f) k)
                (V2.time_spreads st))) /\
   Py.int_sum (Py.values (V2.reject_reasons st)) =
     Py.len (filter (fun f => Py.truthy (V2.reject_reason f))
               (V2.time_spreads st)) /\
   NoDup (Py.keys (V2.reject_reasons st))) /\
  (let st := snd (V1.read_pass B rows V1.init) in
   (forall k,
      Common.count_of (V1.reject_reasons st) k =
      Py.len (filter (fun f => Py.truthy (V1.reject_reason f)
                               && String.eqb (V1.reject_reason f) k)
                (V1.time_spreads st))) /\
   Py.int_sum (Py.values (V1.reject_reasons st)) =
     Py.len (filter (fun f => Py.truthy (V1.reject_reason f))
               (V1.time_spreads st)) /\
   NoDup (Py.keys (V1.reject_reasons st))).
Proof.
  split.
  - destruct rows as [|header data].
    + split; [|split]; [intros k; reflexivity | reflexivity | constructor].
    + rewrite V2Facts.read_pass_spec. apply (V2More.tallied_run B data).
  - apply (V1More.strict_tallied_loop B rows).
Qed.

(** X5. In both scripts, after any rows were read, the table
    [pair_spreads] holds under each pair the spreads of the records of
    this pair, in file order; no key occurs twice and no list in the
    table is empty. *)
Theorem pair_table_groups_spreads (B : Py.Builtins) (rows : list Py.row) :
  (let st := snd (V2.read_pass B rows V2.init) in
   (forall p,
      Tally.items (V2.pair_spreads st) p =
      map V2.spread
        (filter (fun f => String.eqb (V2.pair f) p) (V2.time_spreads st))) /\
   NoDup (Py.keys (V2.pair_spreads st)) /\
   Forall (fun kv => snd kv <> []) (V2.pair_spreads st)) /\
  (let st := snd (V1.read_pass B rows V1.init) in
   (forall p,
      Tally.items (V1.pair_spreads st) p =
      map V1.spread
        (filter (fun f => String.eqb (V1.pair f) p) (V1.time_spreads st))) /\
   NoDup (Py.keys (V1.pair_spreads st)) /\
   Forall (fun kv => snd kv <> []) (V1.pair_spreads st)).
Proof.
  split.
  - destruct rows as [|header data].
    + split; [|split]; [intros p; reflexivity | constructor | constructor].
    + rewrite V2Facts.read_pass_spec.
      destruct (V2More.grouped_run B data) as (H1 & H2 & H3).
      split; [exact H1 | split; [exact H3 | exact H2]].
  - destruct (V1More.strict_grouped_loop B rows) as (H1 & H2).
    split; [exact H1 | split; [exact H2|]].
    apply (V1More.strict_pairs_nonempty B rows).
Qed.

(** X6. In both scripts the section of the spreads per pair never
    raises after a read pass: the division by the length of a list
    (lines 88 and 149) and [max] and [min] are taken on lists that are
    not empty. The pairs are listed in strictly ascending order of
    their names, each once: the keys differ, so sorting the items never
    compares two lists. *)
Theorem pairs_section_never_raises (B : Py.Builtins) (rows : list Py.row)
    (out : Py.stdout) :
  (let st := snd (V2.read_pass B rows V2.init) in
   fst (V2.print_pairs B st out) = inr tt /\
   Permutation (Common.sorted_items (V2.pair_spreads st)) (V2.pair_spreads st) /\
   StronglySorted (fun a b => String.ltb (fst a) (fst b) = true)
     (Common.sorted_items (V2.pair_spreads st))) /\
  (let st := snd (V1.read_pass B rows V1.init) in
   fst (V1.print_pairs B st out) = inr tt /\
   Permutation (Common.sorted_items (V1.pair_spreads st)) (V1.pair_spreads st) /\
   StronglySorted (fun a b => String.ltb (fst a) (fst b) = true)
     (Common.sorted_items (V1.pair_spreads st))).
Proof.
  assert (forall d : Py.dict (list float),
    NoDup (Py.keys d) ->
    Permutation (Common.sorted_items d) d /\
    StronglySorted (fun a b => String.ltb (fst a) (fst b) = true)
      (Common.sorted_items d)) as Hsort.
  { intros d Hnd. split; [apply Tally.sorted_perm_any|].
    apply Ranking.sorted_strict; [|apply Ranking.sorted_items_ascending].
    apply (Permutation_NoDup (l := Py.keys d)); [|exact Hnd].
    unfold Py.keys. apply Permutation_map. symmetry.
    apply Tally.sorted_perm_any. }
  split; cbv zeta.
  - assert (V2More.grouped (snd (V2.read_pass B rows V2.init)))
      as (_ & Hne & Hnd).
    { destruct rows as [|header data].
      - split; [|split]; [intros p; reflexivity | constructor | constructor].
      - rewrite V2Facts.read_pass_spec. apply V2More.grouped_run. }
    split; [apply V2More.pairs_return; exact Hne | apply Hsort; exact Hnd].
  - destruct (V1More.strict_grouped_loop B rows) as (_ & Hnd).
    split; [|apply Hsort; exact Hnd].
    apply V1More.strict_pairs_return.
    apply (V1More.strict_pairs_nonempty B rows).
Qed.

(** X7. The section of the reject reasons. In the defensive script,
    after the header and the data rows were read, lines 155-164 raise
    [ZeroDivisionError] exactly when no data row has 29 or more
    fields, and return otherwise: both branches divide by
    [total_scans]. In the strict script lines 101-109 never raise after
    a read pass: the only division is taken when a reason was counted,
    and then a row was. *)
Theorem reject_section_divides_by_rows (B : Py.Builtins)
    (header : Py.row) (data : list Py.row) (out : Py.stdout) :
  fst (V2.print_rejects (snd (V2.read_pass B (header :: data) V2.init)) out)
    = (if existsb (fun row => 29 <=? Py.len row) data
       then inr tt else inl Py.ZeroDivisionError) /\
  fst (V1.print_rejects (snd (V1.read_pass B data V1.init)) out) = inr tt.
Proof.
  split.
  - rewrite V2More.rejects_end, V2Facts.read_pass_spec. cbn [snd].
    destruct (V2More.run_records B data V2.init) as [_ Hn]. rewrite Hn.
    cbn [V2.total_scans V2.init]. rewrite Z.add_0_l, Tally.filter_len_zero.
    destruct (existsb (fun row => 29 <=? Py.len row) data); reflexivity.
  - rewrite V1More.strict_rejects_end.
    destruct (V1More.strict_rejects_counted B data) as [H|H];
      unfold V1.read_pass.
    + rewrite H. reflexivity.
    + assert ((V1.total_scans
                 (snd (Py.for_each data (V1.process_row B) V1.init)) =? 0)
              = false) as -> by (apply Z.eqb_neq; lia).
      rewrite andb_false_r. reflexivity.
Qed.

(** X8. The order in which the reject reasons are listed (line 103 of
    the strict script, line 157 of the defensive one): every item of
    the table once, counts descending, and reasons with the same count
    in the order of the table, which is the order in which they first
    occurred. *)
Theorem reject_reasons_are_listed_by_count (d : Py.dict Z) :
  Permutation (Common.sorted_by_count_desc d) d /\
  StronglySorted (fun a b => snd b <= snd a) (Common.sorted_by_count_desc d) /\
  (forall n,
     filter (fun a => snd a =? n) (Common.sorted_by_count_desc d)
     = filter (fun a => snd a =? n) d).
Proof.
  split; [apply Tally.sorted_perm_any|].
  split; [apply Ranking.by_count_descending|].
  intros n. apply Ranking.by_count_stable.
Qed.

(** X9. The top spread case of the defensive script (lines 137-145),
    after a read pass. With no row retained only the heading is
    printed. A row retained is a data row of 29 or more fields, so no
    index is out of range; the section raises only [ValueError], from
    [float] on line 144 or 145, after the lines above were printed; and
    since lines 40 and 41 converted the two fields unless they were
    empty, [float] can fail there only on an empty field. *)
Theorem defensive_top_case_reads_prices (B : Py.Builtins)
    (rows : list Py.row) (out : Py.stdout) :
  let st := snd (V2.read_pass B rows V2.init) in
  match V2.max_spread_entry st with
  | None => V2.print_top_case B st out = (inr tt, out ++ [Py.P 137 []])
  | Some e =>
      In e (tl rows) /\ 29 <= Py.len e /\
      (Py.py_float B (nth 27 e ""%string) = None ->
       nth 27 e ""%string = ""%string) /\
      (Py.py_float B (nth 28 e ""%string) = None ->
       nth 28 e ""%string = ""%string) /\
      V2.print_top_case B st out =
      match Py.py_float B (nth 27 e ""%string),
            Py.py_float B (nth 28 e ""%string) with
      | Some x, Some y =>
          (inr tt,
           out ++ V2More.top_case_head e
               ++ [Py.P 144 [Py.VF x]; Py.P 145 [Py.VF y]])
      | Some x, None =>
          (inl Py.ValueError,
           out ++ V2More.top_case_head e ++ [Py.P 144 [Py.VF x]])
      | None, _ => (inl Py.ValueError, out ++ V2More.top_case_head e)
      end
  end.
Proof.
  cbv zeta. destruct rows as [|header data].
  - reflexivity.
  - rewrite V2Facts.read_pass_spec. cbn [snd tl].
    destruct (V2.max_spread_entry (V2Facts.run B data V2.init)) as [e|] eqn:Hm.
    + destruct (V2Report.retained_converts B data V2.init e Hm)
        as [Hs|(Hin & Hlen & f & Hf)]; [discriminate Hs|].
      destruct (V2Report.convert_floats B e f Hlen Hf) as [H27 H28].
      split; [exact Hin|]. split; [apply Z.ltb_ge; exact Hlen|].
      split; [exact H27|]. split; [exact H28|].
      apply V2More.top_case_prints; assumption.
    + unfold V2.print_top_case. rewrite Hm. reflexivity.
Qed.

(** X10. The top spread case of the strict script (lines 75-84), after
    any rows were read. A row retained has 29 or more fields and its
    ETH price was converted on line 32, so line 84 never raises and no
    index is out of range: the section raises only [ValueError], from
    [float] of the buy price on line 80 or of the sell price on line
    81, fields that the read pass never looked at. *)
Theorem strict_top_case_reads_dex_prices (B : Py.Builtins)
    (rows : list Py.row) (out : Py.stdout) :
  let st := snd (V1.read_pass B rows V1.init) in
  match V1.max_spread_entry st with
  | None => V1.print_top_case B st out = (inr tt, out ++ [Py.P 75 []])
  | Some e =>
      In e rows /\ 29 <= Py.len e /\
      exists x27,
        Py.py_float B (nth 27 e ""%string) = Some x27 /\
        V1.print_top_case B st out =
        match Py.py_float B (nth 19 e ""%string),
              Py.py_float B (nth 21 e ""%string) with
        | Some x, Some y =>
            (inr tt,
             out ++ V1More.top_case_head e
                 ++ Py.P 80 [Py.VS (nth 18 e ""%string); Py.VF x]
                 :: V1More.top_case_tail e y x27)
        | Some x, None =>
            (inl Py.ValueError,
             out ++ V1More.top_case_head e
                 ++ [Py.P 80 [Py.VS (nth 18 e ""%string); Py.VF x]])
        | None, _ => (inl Py.ValueError, out ++ V1More.top_case_head e)
        end
  end.
Proof.
  cbv zeta. unfold V1.read_pass.
  destruct (V1.max_spread_entry
              (snd (Py.for_each rows (V1.process_row B) V1.init)))
    as [e|] eqn:Hm.
  - destruct (V1More.strict_retained_converts B rows e Hm)
      as (Hin & Hlen & x27 & H27).
    split; [exact Hin|]. split; [apply Z.ltb_ge; exact Hlen|].
    exists x27. split; [exact H27|].
    apply V1More.strict_top_case_prints; assumption.
  - unfold V1.print_top_case. rewrite Hm. reflexivity.
Qed.

(** X11. The twenty largest spreads of the defensive script (lines
    190-196) never raise, whatever the store: the time of day is taken
    after the ['T'] only when the time stamp has one. The section
    prints the heading and then one line 196 per record listed,
    numbered from 1, for 20 records or for all of them if there are
    fewer. Which records are listed, and in which order, is not part
    of this statement. *)
Theorem defensive_top20_never_raises (st : V2.state) (out : Py.stdout) :
  exists lines,
    V2.print_top20 st out = (inr tt, out ++ Py.P 190 [] :: lines) /\
    Py.len lines = Z.min 20 (Py.len (V2.time_spreads st)) /\
    map (fun p => (Py.line p, hd (Py.VI 0) (Py.args p))) lines
    = map (fun i => (196%nat, Py.VI (Z.of_nat i)))
        (seq 1 (List.length lines)).
Proof.
  exists (map V2More.line_196
            (Common.enumerate1 (V2.top20 (V2.time_spreads st)))).
  split; [apply V2More.top20_prints|].
  assert (forall (l : list V2.fields) (n : nat),
    List.length (combine (map Z.of_nat (seq n (List.length l))) l)
      = List.length l /\
    map (fun p => (Py.line p, hd (Py.VI 0) (Py.args p)))
      (map V2More.line_196 (combine (map Z.of_nat (seq n (List.length l))) l))
    = map (fun i => (196%nat, Py.VI (Z.of_nat i))) (seq n (List.length l)))
    as H.
  { induction l as [|f l IH]; intros n; [split; reflexivity|].
    destruct (IH (S n)) as [H1 H2].
    cbn [List.length seq map combine]. rewrite H1, H2. split; reflexivity. }
  destruct (H (V2.top20 (V2.time_spreads st)) 1%nat) as [H1 H2].
  unfold Common.enumerate1, Py.len. rewrite !length_map, H1. split.
  - unfold V2.top20. rewrite length_firstn.
    rewrite (Permutation_length (Tally.sorted_perm_any _ true _)).
    rewrite Nat2Z.inj_min. reflexivity.
  - exact H2.
Qed.

(** X12. The high spreads of the defensive script (lines 199-206),
    after a read pass: the section never raises; it prints nothing
    when no record has a spread of 0.17 or more with the flag 0, and
    otherwise the number of such records, a heading, and two lines for
    each of the ten largest of them. *)
Theorem defensive_high_section_lists_unflagged (B : Py.Builtins)
    (rows : list Py.row) (out : Py.stdout) :
  let st := snd (V2.read_pass B rows V2.init) in
  let high :=
    filter (fun f => PrimFloat.leb 0.17 (V2.spread f) && (V2.has_opp f =? 0))
      (V2.time_spreads st) in
  V2.print_high st out =
    (inr tt,
     out ++
     if Common.nonempty high
     then Py.P 200 [Py.VI (Py.len high)] :: Py.P 201 []
          :: flat_map V2More.lines_205
               (Common.enumerate1 (V2.top10_high (map V2More.case_of high)))
     else []).
Proof.
  cbv zeta. rewrite V2More.high_prints.
  assert (V2More.flagged (snd (V2.read_pass B rows V2.init))) as [_ H].
  { destruct rows as [|header data]; [split; reflexivity|].
    rewrite V2Facts.read_pass_spec. apply V2More.flagged_run. }
  rewrite H. unfold V2More.is_high, Py.len. rewrite length_map.
  destruct (filter _ (V2.time_spreads (snd (V2.read_pass B rows V2.init))));
    reflexivity.
Qed.

(** X13. The ten largest spreads of the strict script (lines 134-139),
    when no spread is NaN, so that the list of line 135 is the first
    ten records in descending order of spread: the section raises
    [IndexError] exactly when one of these records has a time stamp
    without ['T'], and returns otherwise. Line 137 takes the part
    after the ['T'] with no test, where the defensive script tests
    first. *)
Theorem strict_top10_needs_time_separator (st : V1.state) (out : Py.stdout) :
  SortFacts.ordered_keys V1.spread (V1.time_spreads st) ->
  SortFacts.top_k V1.spread 10 (V1.time_spreads st)
    (V1.top10 (V1.time_spreads st)) /\
  fst (V1.print_top10 st out) =
  if forallb (fun f => Py.contains "T" (V1.timestamp f))
       (V1.top10 (V1.time_spreads st))
  then inr tt else inl Py.IndexError.
Proof.
  intros Hnan. split.
  - apply (SortFacts.top_k_sorted V1.spread 10 _ Hnan).
  - apply V1More.strict_top10_end.
Qed.

Lemma strict_top10_needs_time_separator_witness :
  fst (V1.print_top10
         (snd (V1.read_pass Sample.builtins
            [ Sample.mkrow "2025-12-17T05:07:34.807Z" "1" "WETH/USDC" "0.1" "0" ""
                "3000.5" "1.2";
              Sample.mkrow "2025-12-17 05:07:35" "2" "WETH/USDT" "0.5" "0" ""
                "3000.5" "1.2" ]
            V1.init)) [])
  = inl Py.IndexError.
Proof.
  destruct (strict_top10_needs_time_separator
    (snd (V1.read_pass Sample.builtins
            [ Sample.mkrow "2025-12-17T05:07:34.807Z" "1" "WETH/USDC" "0.1" "0" ""
                "3000.5" "1.2";
              Sample.mkrow "2025-12-17 05:07:35" "2" "WETH/USDT" "0.5" "0" ""
                "3000.5" "1.2" ]
            V1.init)) []) as [_ H].
  - vm_compute. repeat constructor.
  - rewrite H. vm_compute. reflexivity.
Defined.

(** X14. The conclusion of the defensive script (lines 208-230) never
    raises after a read pass: line 219 divides by [total_scans] only
    when an opportunity was counted, and then a row was. *)
Theorem defensive_conclusion_never_raises (B : Py.Builtins)
    (rows : list Py.row) (avg : float) (out : Py.stdout) :
  fst (V2.print_conclusion (snd (V2.read_pass B rows V2.init)) avg out)
    = inr tt.
Proof.
  apply V2More.conclusion_returns. destruct rows as [|header data].
  - cbn. lia.
  - rewrite V2Facts.read_pass_spec. apply V2Report.counters_run.
Qed.

(** X15. What the defensive script can raise over the rows that
    [csv.reader] yields, whatever they hold: [StopIteration] when the
    reader yields no row at all, and otherwise only [ValueError],
    [ZeroDivisionError] or [OverflowError]. Its own statements never
    end in [IndexError] or [TypeError]: every index taken after the
    read pass is in range, and what the time stamps raise is caught.
    What [open] and the reader themselves may raise while the file is
    read is not part of this. *)
Theorem defensive_run_raises_no_index_error (B : Py.Builtins)
    (rows : list Py.row) :
  match fst (V2.main B rows) with
  | inr _ => True
  | inl e =>
      (e = Py.StopIteration /\ rows = []) \/
      e = Py.ValueError \/ e = Py.ZeroDivisionError \/ e = Py.OverflowError
  end.
Proof.
  unfold V2.main. destruct rows as [|header data].
  - cbn. left. split; reflexivity.
  - rewrite V2Facts.read_pass_spec.
    pose proof (V2Report.report_raises B data [] ) as H.
    destruct (fst (V2.report B (V2Facts.run B data V2.init) [])) as [e|u] eqn:E;
      [|exact I].
    right. apply (H e eq_refl).
Qed.



(** X17. A run of the strict script over rows that all have fewer than
    29 fields, an empty file included, ends in [ZeroDivisionError] on
    line 50, the mean of no spread, before anything is printed. *)
Theorem strict_run_without_rows_divides_by_zero (B : Py.Builtins)
    (rows : list Py.row) :
  forallb (fun row => Py.len row <? 29) rows = true ->
  V1.main B rows = (inl Py.ZeroDivisionError, []).
Proof.
  intros Hshort.
  assert (forall st, V1.read_pass B rows st = (inr tt, st)) as Hread.
  { unfold V1.read_pass. induction rows as [|row rows IH]; intros st;
      [reflexivity|].
    cbn [forallb] in Hshort. apply andb_prop in Hshort.
    destruct Hshort as [Hrow Hrest].
    rewrite Stmt.for_each_cons, V1Facts.strict_process_row_spec.
    unfold V1Facts.step. rewrite Hrow. apply IH. exact Hrest. }
  unfold V1.main. rewrite Hread. reflexivity.
Qed.

Lemma strict_run_without_rows_divides_by_zero_witness :
  V1.main Sample.builtins [["timestamp"; "pair"; "spreadPercent"]%string]
  = (inl Py.ZeroDivisionError, []).
Proof.
  apply (strict_run_without_rows_divides_by_zero Sample.builtins
           [["timestamp"; "pair"; "spreadPercent"]%string]).
  reflexivity.
Defined.

(** X18. The counters of the strict script, after any rows were read.
    The lists [spreads] and [eth_prices] hold the spreads and the ETH
    prices of [time_spreads], in order. When the read pass ends
    normally, [total_scans] is the number of spreads, and the number
    of rows of 29 or more fields; when it raises, the row that made it
    raise was counted on line 22 and brought no spread, so
    [total_scans] is one more than the number of spreads. *)
Theorem strict_read_pass_counts (B : Py.Builtins) (rows : list Py.row) :
  let r := V1.read_pass B rows V1.init in
  V1.spreads (snd r) = map V1.spread (V1.time_spreads (snd r)) /\
  V1.eth_prices (snd r) = map V1.eth_price (V1.time_spreads (snd r)) /\
  match fst r with
  | inr _ =>
      V1.total_scans (snd r) = Py.len (V1.spreads (snd r)) /\
      V1.total_scans (snd r)
        = Py.len (filter (fun row => 29 <=? Py.len row) rows)
  | inl _ => V1.total_scans (snd r) = Py.len (V1.spreads (snd r)) + 1
  end.
Proof.
  cbv zeta. unfold V1.read_pass.
  destruct (V1More.strict_aligned_loop B rows) as [H1 H2].
  split; [exact H1|]. split; [exact H2|].
  pose proof (V1More.strict_count B rows V1.init eq_refl) as Hc.
  pose proof (V1More.strict_total B rows V1.init) as Ht.
  destruct (fst (Py.for_each rows (V1.process_row B) V1.init)) as [e|[]];
    [exact Hc|].
  split; [exact Hc|]. rewrite (Ht eq_refl). reflexivity.
Qed.

(** X19. In both scripts the count printed for a range of the spread
    distribution is the number of spreads [s] with [low <= s < high]
    for this range: the ranges follow one another without overlap, so
    stopping at the first range that holds a spread loses nothing. *)
Theorem distribution_counts_each_range :
  Forall (fun r => forall spreads,
            Common.count_of (Common.histogram V1.spread_ranges spreads)
              (Histogram.label r)
            = Py.len (filter (fun s => PrimFloat.leb (Histogram.low r) s
                                       && PrimFloat.ltb s (Histogram.high r))
                        spreads))
    V1.spread_ranges /\
  Forall (fun r => forall spreads,
            Common.count_of (Common.histogram V2.spread_ranges spreads)
              (Histogram.label r)
            = Py.len (filter (fun s => PrimFloat.leb (Histogram.low r) s
                                       && PrimFloat.ltb s (Histogram.high r))
                        spreads))
    V2.spread_ranges.
Proof.
  split; apply Forall_forall; intros r Hin spreads.
  - apply (Partition.count_of_range 0 V1.spread_ranges r spreads
             Partition.strict_ranges_chained); [|exact Hin].
    repeat constructor; cbn; intuition discriminate.
  - apply (Partition.count_of_range 0 V2.spread_ranges r spreads
             Partition.defensive_ranges_chained); [|exact Hin].
    repeat constructor; cbn; intuition discriminate.
Qed.

(** X20. In both scripts the ranges of the spread distribution leave
    no gap between 0 and 999: a spread is counted in some range
    exactly when [0 <= s < 999], and the counts printed add up to the
    number of such spreads. Negative spreads, spreads of 999 or more
    and NaN are the only ones left out. *)
Theorem distribution_covers_zero_to_999 (s : float) (spreads : list float) :
  Histogram.in_bucket V1.spread_ranges s
    = PrimFloat.leb 0 s && PrimFloat.ltb s 999 /\
  Histogram.in_bucket V2.spread_ranges s
    = PrimFloat.leb 0 s && PrimFloat.ltb s 999 /\
  Histogram.total V1.spread_ranges (Common.histogram V1.spread_ranges spreads)
    = Py.len (filter (fun s => PrimFloat.leb 0 s && PrimFloat.ltb s 999)
                spreads) /\
  Histogram.total V2.spread_ranges (Common.histogram V2.spread_ranges spreads)
    = Py.len (filter (fun s => PrimFloat.leb 0 s && PrimFloat.ltb s 999)
                spreads).
Proof.
  pose proof (fun x =>
    Partition.in_bucket_chained 0 V1.spread_ranges x
      Partition.strict_ranges_chained) as H1.
  pose proof (fun x =>
    Partition.in_bucket_chained 0 V2.spread_ranges x
      Partition.defensive_ranges_chained) as H2.
  cbn [Partition.ceiling V1.spread_ranges V2.spread_ranges Histogram.high snd]
    in H1, H2.
  split; [apply H1|]. split; [apply H2|]. split.
  - rewrite Histogram.total_histogram
      by (repeat constructor; cbn; intuition discriminate).
    rewrite (filter_ext _ _ H1). reflexivity.
  - rewrite Histogram.total_histogram
      by (repeat constructor; cbn; intuition discriminate).
    rewrite (filter_ext _ _ H2). reflexivity.
Qed.

(** X21. The statistics of the defensive script (lines 73-135) never
    raise, whatever the store they are computed from: every mean,
    maximum, minimum and median is guarded by a test for an empty list,
    the rate of line 118 by [total_scans > 0], the volatility of line
    130 by [min_eth > 0], and the duration by a [try]. So the report
    always gets as far as the heading of the top spread case on line
    137. *)
Theorem defensive_statistics_never_raise (B : Py.Builtins) (st : V2.state)
    (out : Py.stdout) :
  exists pre vs rest,
    snd (V2.report B st out) = out ++ pre ++ Py.P 137 vs :: rest.
Proof. apply Reach.report_reaches_top_case. Qed.

(** X22. The list of high spreads of the defensive script is always
    properly ranked after a read pass: a spread that is NaN fails the
    test [spread >= 0.17] of line 56, so no key of [high_spread_cases]
    is NaN, and the ten cases of line 202 are the first ten of the
    cases in descending order of spread, cases with equal spreads in
    file order. *)
Theorem defensive_high_cases_are_ranked (B : Py.Builtins)
    (rows : list Py.row) :
  let st := snd (V2.read_pass B rows V2.init) in
  SortFacts.ordered_keys V2.case_spread (V2.high_spread_cases st) /\
  SortFacts.top_k V2.case_spread 10 (V2.high_spread_cases st)
    (V2.top10_high (V2.high_spread_cases st)).
Proof.
  cbv zeta.
  assert (SortFacts.ordered_keys V2.case_spread
            (V2.high_spread_cases (snd (V2.read_pass B rows V2.init)))) as H.
  { assert (V2More.flagged (snd (V2.read_pass B rows V2.init))) as [_ H].
    { destruct rows as [|header data]; [split; reflexivity|].
      rewrite V2Facts.read_pass_spec. apply V2More.flagged_run. }
    rewrite H. unfold SortFacts.ordered_keys. apply Forall_forall.
    intros c Hc. apply in_map_iff in Hc. destruct Hc as (f & <- & Hf).
    apply filter_In in Hf. destruct Hf as [_ Hf]. unfold V2More.is_high in Hf.
    apply andb_prop in Hf. destruct Hf as [Hf _].
    apply FloatOrder.leb_true_nan in Hf. apply Hf. }
  split; [exact H|].
  apply (SortFacts.top_k_sorted V2.case_spread 10 _ H).
Qed.
